(** * Dataset splitting and cross-validation glue of the radiomics pipeline

    A shallow embedding of the pure data-wrangling parts of
    [create_datasets/save_datasets.py] and [single_experiment_runner.py]:
    bucket balancing, percentile trimming, slicing of 3D volumes into 2D
    samples, fold boundaries of the cross validation, and the few
    [try/except] blocks around file access.

    Conventions of the embedding:
    - Python [int] is [Z]; a Python [float] is an IEEE 754 double
      ([float], with the correctly rounded operations of [SpecFloat]) where
      the code multiplies a length by a percentile ([trim_edges]) or
      compares distances to the ratio of the split (the last move of
      [improved_save_data]); a quotient or a mean of integers that is only
      compared or rounded (fill ratios, medians, fold bounds) is the exact
      rational [Qc];
    - a Python exception is a value of [exn]; a computation that can raise
      has type [result A];
    - a NumPy array of rank 3 is its shape together with an indexing
      function ([ndarray]). *)

From Stdlib Require Import QArith Qcanon Qcabs Qround SpecFloat.
From stdpp Require Import gmap strings list sorting.

Local Open Scope Z_scope.

(** ** Exceptions and the error monad *)

Inductive exn : Set :=
  | KeyError
  | IndexError
  | ValueError
  | ZeroDivisionError
  | NameError
  | UnboundLocalError
  | OSError
  | FileExistsError
  | FileNotFoundError
  | EOFError
  | UnpicklingError
  | OverflowError.

Global Instance exn_eq_dec : EqDecision exn.
Proof. solve_decision. Defined.

(** [exn_isinstance e cls]: an [except cls] clause catches [e].  Only the
    two subclass chains the scripts rely on are present. *)
Definition exn_isinstance (e cls : exn) : bool :=
  match cls, e with
  | NameError, UnboundLocalError => true
  | OSError, (FileExistsError | FileNotFoundError) => true
  | _, _ => bool_decide (e = cls)
  end.

Inductive result (A : Type) : Type :=
  | Ok (a : A)
  | Raise (e : exn).
Global Arguments Ok {A} a.
Global Arguments Raise {A} e.

Global Instance result_ret : MRet result := @Ok.
Global Instance result_bind : MBind result := λ A B f m,
  match m with
  | Ok a => f a
  | Raise e => Raise e
  end.

(** [try: m except cls: handler] *)
Definition try_except {A} (m : result A) (cls : exn) (handler : result A) : result A :=
  match m with
  | Ok a => Ok a
  | Raise e => if exn_isinstance e cls then handler else Raise e
  end.

(** ** Python sequences *)

(** [l[k]] with Python's negative indices; out of range is [IndexError]. *)
Definition py_index {A} (l : list A) (k : Z) : result A :=
  let n := Z.of_nat (length l) in
  let k' := if decide (k < 0) then k + n else k in
  if decide (0 ≤ k' < n) then
    match l !! Z.to_nat k' with
    | Some a => Ok a
    | None => Raise IndexError
    end
  else Raise IndexError.

(** The bound of a slice, clamped as [slice.indices] does. *)
Definition py_clamp (len : nat) (k : Z) : nat :=
  let n := Z.of_nat len in
  let k' := if decide (k < 0) then k + n else k in
  Z.to_nat (Z.min n (Z.max 0 k')).

(** [l[lo:hi]], [l[:hi]] and [l[lo:]]. *)
Definition py_slice {A} (l : list A) (lo hi : Z) : list A :=
  let a := py_clamp (length l) lo in
  let b := py_clamp (length l) hi in
  take (b - a)%nat (drop a l).
Definition py_slice_to {A} (l : list A) (hi : Z) : list A :=
  take (py_clamp (length l) hi) l.
Definition py_slice_from {A} (l : list A) (lo : Z) : list A :=
  drop (py_clamp (length l) lo) l.

(** [l[k] = v] *)
Definition py_setitem {A} (l : list A) (k : Z) (v : A) : result (list A) :=
  let n := Z.of_nat (length l) in
  let k' := if decide (k < 0) then k + n else k in
  if decide (0 ≤ k' < n) then Ok (<[Z.to_nat k' := v]> l)
  else Raise IndexError.

(** [l.pop()] *)
Definition py_pop {A} (l : list A) : result (list A * A) :=
  match last l with
  | Some a => Ok (removelast l, a)
  | None => Raise IndexError
  end.

(** [enumerate(l)] *)
Definition enumerate {A} (l : list A) : list (Z * A) :=
  zip (Z.of_nat <$> seq 0 (length l)) l.

(** ** Numbers *)

(** [a / b] on integers (true division). *)
Definition py_truediv (a b : Z) : result Qc :=
  if decide (b = 0) then Raise ZeroDivisionError
  else Ok (Qc_of_Z a / Qc_of_Z b)%Qc.

(** [int(np.round(q))]: rounding to the nearest integer, halves to the even
    neighbour. *)
Definition np_round (q : Qc) : Z :=
  let n := Qnum q in
  let d := Z.pos (Qden q) in
  let f := n / d in
  let r := n mod d in
  if decide (2 * r < d) then f
  else if decide (d < 2 * r) then f + 1
  else if Z.even f then f else f + 1.

(** [int(np.ceil(q))] *)
Definition np_ceil (q : Qc) : Z := Qceiling q.

(** ** Floating-point numbers

    A Python [float] and a NumPy [float64] are IEEE 754 doubles: 53 bits of
    precision, results rounded to the nearest double, halves to the even
    one. *)
Definition float : Set := spec_float.
Definition prec : Z := 53.
Definition emax : Z := 1024.

(** [float(n)] for an integer *)
Definition float_of_Z (n : Z) : float := binary_normalize prec emax n 0 false.

Definition fadd : float → float → float := SFadd prec emax.
Definition fsub : float → float → float := SFsub prec emax.
Definition fmul : float → float → float := SFmul prec emax.
Definition fdiv : float → float → float := SFdiv prec emax.
Definition fabs : float → float := SFabs.
Definition fltb : float → float → bool := SFltb.

(** The double written as the decimal literal [num / den], for instance
    [0.11] as [float_lit 11 100]: the double nearest to the quotient. *)
Definition float_lit (num den : Z) : float := fdiv (float_of_Z num) (float_of_Z den).

(** The exact value of a double (0 for an infinity and for [nan]). *)
Definition float_Qc (x : float) : Qc :=
  match x with
  | S754_finite s m e =>
      let v := if decide (0 ≤ e) then Qc_of_Z (Z.pos m * 2 ^ e)
               else (Qc_of_Z (Z.pos m) / Qc_of_Z (2 ^ (- e)))%Qc in
      if s then (- v)%Qc else v
  | _ => 0%Qc
  end.

(** [np.round(x)] of a double, again a double. *)
Definition np_round_float (x : float) : float :=
  match x with
  | S754_finite s _ _ =>
      let k := np_round (float_Qc x) in
      if decide (k = 0) then S754_zero s else float_of_Z k
  | _ => x
  end.

(** [int(x)] of a double: the fraction is cut off; [nan] and the infinities
    raise. *)
Definition py_int (x : float) : result Z :=
  match x with
  | S754_nan => Raise ValueError
  | S754_infinity _ => Raise OverflowError
  | S754_zero _ => Ok 0
  | S754_finite s m e =>
      let v := if decide (0 ≤ e) then Z.pos m * 2 ^ e else Z.pos m / 2 ^ (- e) in
      Ok (if s then - v else v)
  end.

(** [a / b] on integers, as the double that Python computes (the double
    nearest to the quotient; the operands are lengths, far below [2 ^ 53],
    which [float_of_Z] represents exactly). *)
Definition py_truediv_float (a b : Z) : result float :=
  if decide (b = 0) then Raise ZeroDivisionError
  else Ok (fdiv (float_of_Z a) (float_of_Z b)).

(** ** [get_bucket] *)

Definition get_bucket (bucket0 bucket1 : Z) (ratio : Qc) : result Z :=
  current_ratio ← try_except (py_truediv bucket0 (bucket0 + bucket1))
                             ZeroDivisionError (Ok 0%Qc);
  mret (if decide (current_ratio < ratio)%Qc then 0 else 1).

(** The fill ratio of the claim: [bucket0 / (bucket0 + bucket1)], and [0]
    for two empty buckets. *)
Definition fill_ratio (bucket0 bucket1 : Z) : Qc :=
  if decide (bucket0 + bucket1 = 0) then 0%Qc
  else (Qc_of_Z bucket0 / Qc_of_Z (bucket0 + bucket1))%Qc.

(** ** Arrays of rank 3 *)

Record ndarray (A : Type) : Type := NDArray {
  shape0 : nat;
  shape1 : nat;
  shape2 : nat;
  item : nat → nat → nat → A
}.
Global Arguments NDArray {A} _ _ _ _.
Global Arguments shape0 {A} _.
Global Arguments shape1 {A} _.
Global Arguments shape2 {A} _.
Global Arguments item {A} _ _ _ _.

Definition shape {A} (m : ndarray A) : nat * nat * nat :=
  (shape0 m, shape1 m, shape2 m).

(** [range(n)] *)
Definition py_range (n : Z) : list Z := Z.of_nat <$> seq 0 (Z.to_nat n).

(** All index triples of an array, in the order of three nested [range]
    loops. *)
Definition indices {A} (m : ndarray A) : list (nat * nat * nat) :=
  xx ← seq 0 (shape0 m); yy ← seq 0 (shape1 m); zz ← seq 0 (shape2 m);
  [(xx, yy, zz)].

(** [np.rot90(m, k)]: [k] quarter turns in the plane of the first two
    axes. *)
Definition rot90_once {A} (m : ndarray A) : ndarray A :=
  NDArray (shape1 m) (shape0 m) (shape2 m)
          (λ i j z, item m j (shape1 m - 1 - i)%nat z).
Definition np_rot90 {A} (m : ndarray A) (k : Z) : ndarray A :=
  Nat.iter (Z.to_nat (k `mod` 4)) rot90_once m.

(** [m[:, :, lo:hi]] *)
Definition slice_axis2 {A} (m : ndarray A) (lo hi : Z) : ndarray A :=
  let a := py_clamp (shape2 m) lo in
  let b := py_clamp (shape2 m) hi in
  NDArray (shape0 m) (shape1 m) (b - a)%nat (λ i j z, item m i j (a + z)%nat).

(** [len(x[0][0])] *)
Definition len_x00 {A} (x : ndarray A) : result Z :=
  if decide (shape0 x = 0%nat) then Raise IndexError
  else if decide (shape1 x = 0%nat) then Raise IndexError
  else Ok (Z.of_nat (shape2 x)).

(** ** [get_size_mask] *)

Definition truthy (v : Z) : bool := bool_decide (v ≠ 0).

(** [mask_range] is [[min0, min1, min2], [max0, max1, max2]]. *)
Record mask_state : Set := MaskState {
  range_min : Z * Z * Z;
  range_max : Z * Z * Z;
  volume : Z
}.

Definition get_size_mask_body (mask : ndarray Z) (st : mask_state)
    (xx yy zz : nat) : mask_state :=
  if truthy (item mask xx yy zz) then
    let '(a0, a1, a2) := range_min st in
    let '(b0, b1, b2) := range_max st in
    MaskState (Z.min a0 (Z.of_nat xx), Z.min a1 (Z.of_nat yy), Z.min a2 (Z.of_nat zz))
              (Z.max b0 (Z.of_nat xx), Z.max b1 (Z.of_nat yy), Z.max b2 (Z.of_nat zz))
              (volume st + 1)
  else st.

Definition get_size_mask (mask : ndarray Z) : (Z * Z * Z) * Z :=
  let '(p0, p1, p2) := shape mask in
  let st0 := MaskState (Z.of_nat p0, Z.of_nat p1, Z.of_nat p2) (-1, -1, -1) 0 in
  let st :=
    foldl (λ st xx,
      foldl (λ st yy,
        foldl (λ st zz, get_size_mask_body mask st xx yy zz) st (seq 0 p2))
      st (seq 0 p1))
    st0 (seq 0 p0) in
  let '(a0, a1, a2) := range_min st in
  let '(b0, b1, b2) := range_max st in
  ((b0 - a0 + 1, b1 - a1 + 1, b2 - a2 + 1), volume st).

(** [np.prod] of a vector of three components. *)
Definition np_prod3 (v : Z * Z * Z) : Z := let '(a, b, c) := v in a * b * c.

(** ** [trim_edges] *)

Definition key_le (p q : Z * nat) : Prop := p.1 ≤ q.1.
Global Instance key_le_dec : RelDecision key_le.
Proof. intros p q. unfold key_le. apply _. Defined.

Global Instance key_le_trans : Transitive key_le.
Proof. intros p q r. unfold key_le. lia. Qed.
Global Instance key_le_total : Total key_le.
Proof. intros p q. unfold key_le. lia. Qed.

(** [arr.argsort()]: the indices that sort [arr]. *)
Definition argsort (arr : list Z) : list Z :=
  (λ p : Z * nat, Z.of_nat p.2) <$> merge_sort key_le (zip arr (seq 0 (length arr))).

Definition zip4 {X Y P M} (x_set : list X) (y_set : list Y) (patients : list P)
    (masks : list M) : list (X * Y * P * M) :=
  zip (zip (zip x_set y_set) patients) masks.

Section trim_edges.
Context {voxel label : Type}.

Definition dataset : Type :=
  list (ndarray voxel) * list label * list string * list (ndarray Z).

Definition dataset_append (d : dataset) (x : ndarray voxel) (y : label)
    (p : string) (m : ndarray Z) : dataset :=
  let '(new_x_set, new_y_set, new_patients, new_masks) := d in
  (new_x_set ++ [x], new_y_set ++ [y], new_patients ++ [p], new_masks ++ [m]).

(** The loop of [trim_edges]; [Ok None] is the early [return None]. *)
Fixpoint trim_loop (sort_method : string) (val_left val_right : Z)
    (items : list (ndarray voxel * label * string * ndarray Z)) (acc : dataset)
    : result (option dataset) :=
  match items with
  | [] => Ok (Some acc)
  | (x, y, p, m) :: items =>
      slices ← len_x00 x;
      let '(dimensions_mask, size) := get_size_mask m in
      let size_box := np_prod3 dimensions_mask in
      let keep (v : Z) : result (option dataset) :=
        if bool_decide (v > val_left) && bool_decide (v < val_right)
        then trim_loop sort_method val_left val_right items (dataset_append acc x y p m)
        else trim_loop sort_method val_left val_right items acc in
      if String.eqb sort_method "slices" then keep slices
      else if String.eqb sort_method "sizes" then keep size
      else if String.eqb sort_method "sizes_masks" then keep size_box
      else Ok None
  end.

(** [int(np.round(len(array_sort) * trim_pos[0]))] *)
Definition trim_num_left (n : nat) (trim_pos : float * float) : result Z :=
  py_int (np_round_float (fmul (float_of_Z (Z.of_nat n)) trim_pos.1)).
(** [int(np.round(len(array_sort) * (1 - trim_pos[1] + trim_pos[0])) - num_left)] *)
Definition trim_num_right (n : nat) (trim_pos : float * float) (num_left : Z) : result Z :=
  py_int (fsub (np_round_float
                  (fmul (float_of_Z (Z.of_nat n))
                        (fadd (fsub (float_of_Z 1) trim_pos.2) trim_pos.1)))
               (float_of_Z num_left)).

Definition trim_edges (array_sort : list Z) (sort_method : string)
    (x_set : list (ndarray voxel)) (y_set : list label) (patients : list string)
    (masks : list (ndarray Z)) (trim_pos : float * float) : result (option dataset) :=
  let arr := array_sort in
  num_left ← trim_num_left (length array_sort) trim_pos;
  num_right ← trim_num_right (length array_sort) trim_pos num_left;
  i_left ← py_index (argsort arr) (num_left - 1);
  val_left ← py_index array_sort i_left;
  i_right ← py_index (argsort arr) (- num_right);
  val_right ← py_index array_sort i_right;
  trim_loop sort_method val_left val_right (zip4 x_set y_set patients masks) ([], [], [], []).
End trim_edges.

(** ** [generate_2D_dataset] *)

(** A NumPy array of rank 4 built by stacking rank-3 arrays along a new
    first axis: the common shape of the stacked arrays and the arrays. *)
Record batch (A : Type) : Type := Batch {
  batch_shape : nat * nat * nat;
  batch_items : list (ndarray A)
}.
Global Arguments Batch {A} _ _.
Global Arguments batch_shape {A} _.
Global Arguments batch_items {A} _.

(** [np.array([image])] *)
Definition np_array1 {A} (image : ndarray A) : batch A :=
  Batch (shape image) [image].

(** [np.concatenate((b, [image]))]: the shapes must agree except along the
    first axis. *)
Definition np_concatenate1 {A} (b : batch A) (image : ndarray A) : result (batch A) :=
  if decide (shape image = batch_shape b)
  then Ok (Batch (batch_shape b) (batch_items b ++ [image]))
  else Raise ValueError.

(** [str(n)] for a natural number below 1000 (the angles 90, 180, 270). *)
Definition digit_to_string (n : nat) : string :=
  String (Ascii.ascii_of_nat (48 + n)) EmptyString.
Definition str_angle (n : nat) : string :=
  if decide (n < 10)%nat then digit_to_string n
  else if decide (n < 100)%nat then digit_to_string (n / 10) +:+ digit_to_string (n mod 10)
  else digit_to_string (n / 100) +:+ digit_to_string (n / 10 mod 10)
       +:+ digit_to_string (n mod 10).

Section generate_2D_dataset.
(** The voxel values are floats; the arithmetic on them stays abstract:
    [voxel_max] and [voxel_min] are the binary maximum and minimum, and
    [voxel_normalize v minv maxv] is [(v - minv) / (maxv - minv)]. *)
Context {voxel : Type}.
Variables (voxel_max voxel_min : voxel → voxel → voxel).
Variable (voxel_normalize : voxel → voxel → voxel → voxel).

(** [np.max] and [np.min]: a reduction over all elements, [ValueError] on
    an array without elements. *)
Definition np_reduce (f : voxel → voxel → voxel) (m : ndarray voxel) : result voxel :=
  match (λ '(xx, yy, zz), item m xx yy zz) <$> indices m with
  | [] => Raise ValueError
  | v :: vs => Ok (foldl f v vs)
  end.
Definition np_max := np_reduce voxel_max.
Definition np_min := np_reduce voxel_min.

(** The local variables of the function that the loop assigns; [None] is
    a variable that is not bound yet. *)
Record locals : Type := Locals {
  x_dataset : option (batch voxel);
  y_dataset : option (list Z);
  masks_dataset : option (batch Z);
  patients_dataset : option (list string)
}.

(** Reading a local variable. *)
Definition read_local {A} (v : option A) : result A :=
  match v with
  | Some a => Ok a
  | None => Raise UnboundLocalError
  end.

Definition rotated_name (patient : string) (r : Z) : string :=
  patient +:+ (if decide (r ≠ 0) then str_angle (Z.to_nat (r * 90)) else "").

(** The body of the [try]: an exception leaves the assignments made
    before it in place, so the locals are returned in both cases. *)
Definition append_sample_try (st : locals) (image : ndarray voxel) (label : Z)
    (mask_image : ndarray Z) (patient : string) (r : Z) : locals * result () :=
  match x ← read_local (x_dataset st); np_concatenate1 x image with
  | Raise e => (st, Raise e)
  | Ok x =>
      let st := Locals (Some x) (y_dataset st) (masks_dataset st) (patients_dataset st) in
      match read_local (y_dataset st) with
      | Raise e => (st, Raise e)
      | Ok y =>
          let st := Locals (x_dataset st) (Some (y ++ [label])) (masks_dataset st)
                           (patients_dataset st) in
          match m ← read_local (masks_dataset st); np_concatenate1 m mask_image with
          | Raise e => (st, Raise e)
          | Ok m =>
              let st := Locals (x_dataset st) (y_dataset st) (Some m)
                               (patients_dataset st) in
              match read_local (patients_dataset st) with
              | Raise e => (st, Raise e)
              | Ok p =>
                  (Locals (x_dataset st) (y_dataset st) (masks_dataset st)
                          (Some (p ++ [rotated_name patient r])), Ok ())
              end
          end
      end
  end.

(** [try: ... except NameError: ...] *)
Definition append_sample (st : locals) (image : ndarray voxel) (label : Z)
    (mask_image : ndarray Z) (patient : string) (r : Z) : result locals :=
  match append_sample_try st image label mask_image patient r with
  | (st, Ok _) => Ok st
  | (st, Raise e) =>
      if exn_isinstance e NameError then
        Ok (Locals (Some (np_array1 image)) (Some [label]) (Some (np_array1 mask_image))
                   (Some [rotated_name patient r]))
      else Raise e
  end.

(** [for idx in range(vol.shape[2] - slices_per_sample + 1)] *)
Definition slices_loop (slices_per_sample : Z) (vol : ndarray voxel) (msk : ndarray Z)
    (label : Z) (patient : string) (r : Z) (st : locals) : result locals :=
  foldl (λ (acc : result locals) (idx : Z),
           st ← acc;
           let image := slice_axis2 vol idx (idx + slices_per_sample) in
           let mask_image := slice_axis2 msk idx (idx + slices_per_sample) in
           append_sample st image label mask_image patient r)
        (Ok st) (py_range (Z.of_nat (shape2 vol) - slices_per_sample + 1)).

(** [for r in range(rotations)] *)
Definition rotations_loop (slices_per_sample rotations : Z) (volume : ndarray voxel)
    (mask : ndarray Z) (label : Z) (patient : string) (st : locals) : result locals :=
  foldl (λ (acc : result locals) (r : Z),
           st ← acc;
           let vol := np_rot90 volume r in
           let msk := np_rot90 mask r in
           slices_loop slices_per_sample vol msk label patient r st)
        (Ok st) (py_range rotations).

Definition normalize_volume (normalize : bool) (volume : ndarray voxel)
    : result (ndarray voxel) :=
  if normalize then
    maxv ← np_max volume;
    minv ← np_min volume;
    mret (NDArray (shape0 volume) (shape1 volume) (shape2 volume)
                  (λ i j z, voxel_normalize (item volume i j z) minv maxv))
  else mret volume.

(** The body of the outer loop, over the volumes. *)
Definition volume_step (slices_per_sample rotations : Z) (normalize : bool) (st : locals)
    (it : ndarray voxel * Z * string * ndarray Z) : result locals :=
  let '(volume, label, patient, mask) := it in
  volume ← normalize_volume normalize volume;
  rotations_loop slices_per_sample rotations volume mask label patient st.

Definition generate_2D_dataset (samples : list (ndarray voxel)) (labels : list Z)
    (patients : list string) (masks : list (ndarray Z)) (slices_per_sample : Z)
    (rotate_data normalize : bool)
    : result (batch voxel * list Z * list string * batch Z) :=
  let rotations := if rotate_data then 4 else 1 in
  st ← foldl (λ acc it, st ← acc; volume_step slices_per_sample rotations normalize st it)
             (Ok (Locals None None None None)) (zip4 samples labels patients masks);
  x ← read_local (x_dataset st);
  y ← read_local (y_dataset st);
  p ← read_local (patients_dataset st);
  m ← read_local (masks_dataset st);
  mret (x, y, p, m).
End generate_2D_dataset.

(** ** The train/test distribution of [improved_save_data] *)

(** [nums[a][b]] and [nums[a][b] += 1] *)
Definition get2 (nums : list (list Z)) (a b : Z) : result Z :=
  row ← py_index nums a; py_index row b.
Definition incr2 (nums : list (list Z)) (a b : Z) : result (list (list Z)) :=
  row ← py_index nums a;
  cur ← py_index row b;
  row ← py_setitem row b (cur + 1);
  py_setitem nums a row.

Section improved_save_data.
Context {voxel : Type}.

Record split_state : Type := SplitState {
  train_nums : list (list Z);
  test_nums : list (list Z);
  test_set_x : list (ndarray voxel);
  train_set_x : list (ndarray voxel);
  test_set_y : list Z;
  train_set_y : list Z;
  test_set_patients : list string;
  train_set_patients : list string;
  test_set_masks : list (ndarray Z);
  train_set_masks : list (ndarray Z);
  median_indices : list (list Z)
}.

Definition split_init : split_state :=
  SplitState [[0; 0]; [0; 0]] [[0; 0]; [0; 0]] [] [] [] [] [] [] [] [] [[]; []].

(** [train_nums[half][label] += 1] and the four [train_set_*.append]. *)
Definition put_train (st : split_state) (half label : Z) (volume : ndarray voxel)
    (patient : string) (mask : ndarray Z) : result split_state :=
  nums ← incr2 (train_nums st) half label;
  mret (SplitState nums (test_nums st)
          (test_set_x st) (train_set_x st ++ [volume])
          (test_set_y st) (train_set_y st ++ [label])
          (test_set_patients st) (train_set_patients st ++ [patient])
          (test_set_masks st) (train_set_masks st ++ [mask])
          (median_indices st)).

(** [test_nums[half][label] += 1] and the four [test_set_*.append]. *)
Definition put_test (st : split_state) (half label : Z) (volume : ndarray voxel)
    (patient : string) (mask : ndarray Z) : result split_state :=
  nums ← incr2 (test_nums st) half label;
  mret (SplitState (train_nums st) nums
          (test_set_x st ++ [volume]) (train_set_x st)
          (test_set_y st ++ [label]) (train_set_y st)
          (test_set_patients st ++ [patient]) (train_set_patients st)
          (test_set_masks st ++ [mask]) (train_set_masks st)
          (median_indices st)).

(** One half (below or above the median) of the first loop. *)
Definition distribute_half (train_to_total_ratio : Qc) (st : split_state)
    (half label : Z) (volume : ndarray voxel) (patient : string) (mask : ndarray Z)
    : result split_state :=
  b0 ← get2 (train_nums st) half label;
  b1 ← get2 (test_nums st) half label;
  bucket ← get_bucket b0 b1 train_to_total_ratio;
  if decide (bucket = 0) then put_train st half label volume patient mask
  else put_test st half label volume patient mask.

(** The body of the first loop; [continue] returns the state unchanged. *)
Definition distribute_step (train_to_total_ratio : Qc) (medians_by_label : list Qc)
    (results3 : list Z) (st : split_state)
    (it : Z * (Z * string * ndarray voxel * ndarray Z)) : result split_state :=
  let '(i, (label, patient, volume, mask)) := it in
  let num_slices := Z.of_nat (shape2 volume) in
  if decide (num_slices < 3) then mret st
  else
    abs_num_slices ← py_index results3 i;
    if decide (abs_num_slices < 3) then mret st
    else
      median ← py_index medians_by_label label;
      if decide (Qc_of_Z num_slices < median)%Qc then
        distribute_half train_to_total_ratio st 0 label volume patient mask
      else
        median ← py_index medians_by_label label;
        if decide (median < Qc_of_Z num_slices)%Qc then
          distribute_half train_to_total_ratio st 1 label volume patient mask
        else
          row ← py_index (median_indices st) label;
          indices ← py_setitem (median_indices st) label (row ++ [i]);
          mret (SplitState (train_nums st) (test_nums st)
                  (test_set_x st) (train_set_x st) (test_set_y st) (train_set_y st)
                  (test_set_patients st) (train_set_patients st)
                  (test_set_masks st) (train_set_masks st) indices).

Definition distribute_loop (train_to_total_ratio : Qc) (medians_by_label : list Qc)
    (results3 : list Z) (items : list (Z * (Z * string * ndarray voxel * ndarray Z)))
    (st : split_state) : result split_state :=
  foldl (λ acc it,
           st ← acc;
           distribute_step train_to_total_ratio medians_by_label results3 st it)
        (Ok st) items.

(** The body of the second loop, which places the volumes whose number of
    slices is the median of their label. *)
Definition median_step (train_to_total_ratio : Qc) (x_set : list (ndarray voxel))
    (patients : list string) (masks : list (ndarray Z)) (st : split_state)
    (it : Z * Z) : result split_state :=
  let '(label, index) := it in
  volume ← py_index x_set index;
  patient ← py_index patients index;
  mask ← py_index masks index;
  a0 ← get2 (train_nums st) 0 label;
  a1 ← get2 (train_nums st) 1 label;
  c0 ← get2 (test_nums st) 0 label;
  c1 ← get2 (test_nums st) 1 label;
  bucket ← get_bucket (a0 + a1) (c0 + c1) train_to_total_ratio;
  if decide (bucket = 0) then put_train st 0 label volume patient mask
  else put_test st 0 label volume patient mask.

(** [for label, indices in enumerate(median_indices): for index in indices] *)
Definition median_work (indices : list (list Z)) : list (Z * Z) :=
  '(label, row) ← enumerate indices; (λ index, (label, index)) <$> row.

Definition median_loop (train_to_total_ratio : Qc) (x_set : list (ndarray voxel))
    (patients : list string) (masks : list (ndarray Z)) (work : list (Z * Z))
    (st : split_state) : result split_state :=
  foldl (λ acc it,
           st ← acc; median_step train_to_total_ratio x_set patients masks st it)
        (Ok st) work.

(** The final move of one element between the two sets. *)
Definition rebalance (train_to_total_ratio : float) (st : split_state)
    : result split_state :=
  let ntrain := Z.of_nat (length (train_set_x st)) in
  let ntest := Z.of_nat (length (test_set_x st)) in
  q ← py_truediv_float ntrain (ntrain + ntest);
  let ratio := fabs (fsub q train_to_total_ratio) in
  q0 ← py_truediv_float (ntrain + 1) (ntrain + ntest);
  let ratio0 := fabs (fsub q0 train_to_total_ratio) in
  q1 ← py_truediv_float (ntrain - 1) (ntrain + ntest);
  let ratio1 := fabs (fsub q1 train_to_total_ratio) in
  if fltb ratio0 ratio then
    '(tx, x) ← py_pop (test_set_x st);
    '(ty, y) ← py_pop (test_set_y st);
    '(tp, p) ← py_pop (test_set_patients st);
    '(tm, m) ← py_pop (test_set_masks st);
    mret (SplitState (train_nums st) (test_nums st)
            tx (train_set_x st ++ [x]) ty (train_set_y st ++ [y])
            tp (train_set_patients st ++ [p]) tm (train_set_masks st ++ [m])
            (median_indices st))
  else if fltb ratio1 ratio then
    '(tx, x) ← py_pop (train_set_x st);
    '(ty, y) ← py_pop (train_set_y st);
    '(tp, p) ← py_pop (train_set_patients st);
    '(tm, m) ← py_pop (train_set_masks st);
    mret (SplitState (train_nums st) (test_nums st)
            (test_set_x st ++ [x]) tx (test_set_y st ++ [y]) ty
            (test_set_patients st ++ [p]) tp (test_set_masks st ++ [m]) tm
            (median_indices st))
  else mret st.

(** Lines 550 to 635 of [improved_save_data]: from the (possibly trimmed)
    dataset and the statistics of [analyze_data] to the two sets.  The ratio
    [63 / 77] or [0.1] is a double in the distances of the last move; in
    [get_bucket], which compares it with a quotient of two counters, it is
    the rational number. *)
Definition improved_save_data_split (trim_data : bool) (x_set : list (ndarray voxel))
    (y_set : list Z) (patients : list string) (masks : list (ndarray Z))
    (medians_by_label : list Qc) (results3 : list Z) : result split_state :=
  let train_to_total_ratio :=
    if negb trim_data then (Qc_of_Z 63 / Qc_of_Z 77)%Qc
    else (Qc_of_Z 1 / Qc_of_Z 10)%Qc in
  let train_to_total_ratio_float :=
    if negb trim_data then float_lit 63 77 else float_lit 1 10 in
  st ← distribute_loop train_to_total_ratio medians_by_label results3
         (enumerate (zip4 y_set patients x_set masks)) split_init;
  st ← median_loop train_to_total_ratio x_set patients masks
         (median_work (median_indices st)) st;
  rebalance train_to_total_ratio_float st.
End improved_save_data.

(** ** [calculate_patients_label] *)

(** [l[-1] = f(l[-1])] *)
Definition py_alter_last {A} (f : A → result A) (l : list A) : result (list A) :=
  match last l with
  | Some a => a ← f a; mret (removelast l ++ [a])
  | None => Raise IndexError
  end.

(** [q / n] for a float [q] and an integer [n]. *)
Definition float_div (q : Qc) (n : Z) : result Qc :=
  if decide (n = 0) then Raise ZeroDivisionError else Ok (q / Qc_of_Z n)%Qc.

Record label_state : Type := LabelState {
  patient_percentages : list Qc;
  prev_patient : string;
  num_slices : Z
}.

Definition patients_label_step (st : label_state) (it : Z * string) : result label_state :=
  let '(label, patient) := it in
  if decide (patient = prev_patient st) then
    percentages ← py_alter_last (λ q, Ok (q + Qc_of_Z label)%Qc) (patient_percentages st);
    mret (LabelState percentages patient (num_slices st + 1))
  else
    percentages ←
      (if decide (0 < length (patient_percentages st))%nat
       then py_alter_last (λ q, float_div q (num_slices st)) (patient_percentages st)
       else mret (patient_percentages st));
    mret (LabelState (percentages ++ [Qc_of_Z label]) patient 1).

Definition calculate_patients_label (slices_labels : list Z) (patients : list string)
    : result (list Qc) :=
  st ← foldl (λ acc it, st ← acc; patients_label_step st it)
             (Ok (LabelState [] "" 0)) (zip slices_labels patients);
  py_alter_last (λ q, float_div q (num_slices st)) (patient_percentages st).

(** The reading of the claim: the maximal runs of equal patient identifiers
    with the labels of each run, and the mean of a run. *)
Fixpoint patient_runs (items : list (Z * string)) : list (string * list Z) :=
  match items with
  | [] => []
  | (label, patient) :: items =>
      match patient_runs items with
      | (p, labels) :: runs =>
          if decide (patient = p) then (p, label :: labels) :: runs
          else (patient, [label]) :: (p, labels) :: runs
      | [] => [(patient, [label])]
      end
  end.

Definition sum_list_Z (l : list Z) : Z := foldr Z.add 0 l.

Definition mean (labels : list Z) : Qc :=
  (Qc_of_Z (sum_list_Z labels) / Qc_of_Z (Z.of_nat (length labels)))%Qc.

(** ** The folds of [do_cross_validation] *)

Record folds_state : Type := FoldsState {
  fs_prev_patient : string;
  fs_patient_num : Z;
  fs_folds_indices : list Z
}.

Definition folds_step (num_patients_per_fold : Z) (st : folds_state) (it : Z * string)
    : folds_state :=
  let '(i, patient) := it in
  if decide (patient ≠ fs_prev_patient st) then
    let patient_num := fs_patient_num st + 1 in
    if decide (patient_num > num_patients_per_fold)
    then FoldsState patient 1 (fs_folds_indices st ++ [i])
    else FoldsState patient patient_num (fs_folds_indices st)
  else st.

(** The fold boundaries of the patient-level cross validation. *)
Definition patient_folds_indices (patients_whole : list string) (num_patients : Z) : list Z :=
  let num_folds := 11 in
  let num_patients_per_fold := np_ceil (Qc_of_Z num_patients / Qc_of_Z num_folds)%Qc in
  let st := foldl (folds_step num_patients_per_fold) (FoldsState "" 0 [0])
                  (enumerate patients_whole) in
  fs_folds_indices st ++ [Z.of_nat (length patients_whole)].

(** [idx0] and [idx1] of fold [i]. *)
Definition cv_bounds (patient_level_cv : bool) (size : nat) (patients_whole : list string)
    (num_patients : Z) (i : Z) : result (Z * Z) :=
  if negb patient_level_cv then
    let size_fold := (Qc_of_Z (Z.of_nat size) / Qc_of_Z 10)%Qc in
    let idx0 := np_round (Qc_of_Z i * size_fold)%Qc in
    let idx1 := np_round (Qc_of_Z (i + 1) * size_fold)%Qc in
    mret (idx0, idx1)
  else
    let folds_indices := patient_folds_indices patients_whole num_patients in
    idx0 ← py_index folds_indices i;
    idx1 ← py_index folds_indices (i + 1);
    mret (idx0, idx1).

Record cv_fold (X Y : Type) : Type := CvFold {
  x_train_cv : list X;
  y_train_cv : list Y;
  patients_whole_cv : list string;
  x_test_cv : list X;
  y_test_cv : list Y;
  patients_test_cv : list string
}.
Global Arguments CvFold {X Y} _ _ _ _ _ _.
Global Arguments x_train_cv {X Y} _.
Global Arguments y_train_cv {X Y} _.
Global Arguments patients_whole_cv {X Y} _.
Global Arguments x_test_cv {X Y} _.
Global Arguments y_test_cv {X Y} _.
Global Arguments patients_test_cv {X Y} _.

(** The split of fold [i] of [do_cross_validation] into the training and the
    test part, before the model is trained on it. *)
Definition cv_split {X Y} (x_whole : list X) (y_whole : list Y)
    (patients_whole : list string) (num_patients : Z) (patient_level_cv : bool) (i : Z)
    : result (cv_fold X Y) :=
  '(idx0, idx1) ← cv_bounds patient_level_cv (length x_whole) patients_whole num_patients i;
  mret (CvFold (py_slice_to x_whole idx0 ++ py_slice_from x_whole idx1)
               (py_slice_to y_whole idx0 ++ py_slice_from y_whole idx1)
               (py_slice_to patients_whole idx0 ++ py_slice_from patients_whole idx1)
               (py_slice x_whole idx0 idx1)
               (py_slice y_whole idx0 idx1)
               (py_slice patients_whole idx0 idx1)).

(** The test block of fold [i] of the slice-level cross validation. *)
Definition slice_fold_bound (n : nat) (i : Z) : Z :=
  np_round (Qc_of_Z i * (Qc_of_Z (Z.of_nat n) / Qc_of_Z 10))%Qc.

(** ** [load_organized_dataset] *)

Section load_organized_dataset.
(** The arrays and pickled objects are opaque values of type [obj]. *)
Context {obj : Type}.

(** A file is an [.npz] archive of named arrays or a sequence of pickled
    objects. *)
Inductive file : Type :=
  | NpzFile (arrays : gmap string obj)
  | PickleFile (objects : list obj).

(** [np.load(path)] *)
Definition np_load (fs : gmap string file) (path : string) : result (gmap string obj) :=
  match fs !! path with
  | Some (NpzFile arrays) => Ok arrays
  | Some (PickleFile _) => Raise ValueError
  | None => Raise FileNotFoundError
  end.

(** [f[key]] on a loaded archive. *)
Definition npz_getitem (f : gmap string obj) (key : string) : result obj :=
  match f !! key with
  | Some a => Ok a
  | None => Raise KeyError
  end.

(** [with open(path, 'rb') as f: pickle.load(f)] *)
Definition pickle_load (fs : gmap string file) (path : string) : result obj :=
  match fs !! path with
  | Some (PickleFile (o :: _)) => Ok o
  | Some (PickleFile []) => Raise EOFError
  | Some (NpzFile _) => Raise UnpicklingError
  | None => Raise FileNotFoundError
  end.

(** The [try/except KeyError] around the two reads of an archive. *)
Definition load_xy (f : gmap string obj) : result (obj * obj) :=
  try_except (x ← npz_getitem f "x"; y ← npz_getitem f "y"; mret (x, y))
             KeyError
             (x ← npz_getitem f "arr_0"; y ← npz_getitem f "arr_1"; mret (x, y)).

Definition load_organized_dataset (fs : gmap string file) (path : string)
    : result ((obj * obj) * (obj * obj) * (obj * obj) * (obj * obj)) :=
  f ← np_load fs (path +:+ "/training_set.npz");
  '(x_train, y_train) ← load_xy f;
  f ← np_load fs (path +:+ "/test_set.npz");
  '(x_test, y_test) ← load_xy f;
  patients_train ← pickle_load fs (path +:+ "/training_set_patients.pkl");
  patients_test ← pickle_load fs (path +:+ "/test_set_patients.pkl");
  mask_train ← pickle_load fs (path +:+ "/training_set_masks.pkl");
  mask_test ← pickle_load fs (path +:+ "/test_set_masks.pkl");
  mret ((x_train, y_train), (x_test, y_test), (patients_train, mask_train),
        (patients_test, mask_test)).
End load_organized_dataset.
Global Arguments file : clear implicits.

(** ** [save_dataset_correctly] *)

Section save_dataset_correctly.
Context {obj : Type}.

(** The calls into the operating system and the libraries that write. *)
Inductive io_call : Type :=
  | Mkdir (path : string)
  | Savez (path : string) (x y : obj)
  | OpenWb (path : string)
  | PickleDump (path : string) (o : obj).

(** The calls made so far, each with the exception it raised, if any. *)
Definition trace : Type := list (io_call * option exn).

(** The environment decides, from the calls made so far, whether a call
    raises. *)
Variable outcome : trace → io_call → option exn.

Definition io (A : Type) : Type := trace → trace * result A.

Definition io_ret {A} (a : A) : io A := λ t, (t, Ok a).
Definition io_bind {A B} (m : io A) (f : A → io B) : io B := λ t,
  match m t with
  | (t, Ok a) => f a t
  | (t, Raise e) => (t, Raise e)
  end.
Definition io_try {A} (m : io A) (cls : exn) (handler : io A) : io A := λ t,
  match m t with
  | (t, Ok a) => (t, Ok a)
  | (t, Raise e) => if exn_isinstance e cls then handler t else (t, Raise e)
  end.
Definition perform (c : io_call) : io () := λ t,
  match outcome t c with
  | None => (t ++ [(c, None)], Ok ())
  | Some e => (t ++ [(c, Some e)], Raise e)
  end.

(** [with open(path, "wb") as f: pickle.dump(o1, f); ...] *)
Definition pickle_dump_all (path : string) (objects : list obj) : io () :=
  io_bind (perform (OpenWb path)) (λ _,
    foldl (λ acc o, io_bind acc (λ _, perform (PickleDump path o))) (io_ret ()) objects).

Definition save_dataset_correctly (x y patients masks : obj)
    (parent_folder dataset_name dataset_subname : string) : io () :=
  let full_path := parent_folder +:+ "/" in
  io_bind (io_try (perform (Mkdir full_path)) OSError (io_ret ())) (λ _,
  let folder_path := full_path +:+ dataset_name +:+ "/" in
  io_bind (io_try (perform (Mkdir folder_path)) OSError (io_ret ())) (λ _,
  let file_path := folder_path +:+ dataset_subname in
  io_bind (io_try (perform (Savez file_path x y)) ValueError
                  (pickle_dump_all (file_path +:+ ".pkl") [x; y])) (λ _,
  io_bind (pickle_dump_all (file_path +:+ "_patients.pkl") [patients]) (λ _,
  pickle_dump_all (file_path +:+ "_masks.pkl") [masks])))).

(** A call that was made and did not raise. *)
Definition performed (c : io_call) (t : trace) : Prop := (c, None) ∈ t.

(** The assumptions on the environment: [os.mkdir] raises nothing but
    [OSError] (or one of its subclasses), and opening and pickling
    succeed. *)
Definition mkdir_raises_OSError : Prop :=
  ∀ t p e, outcome t (Mkdir p) = Some e → exn_isinstance e OSError = true.
Definition pickling_succeeds : Prop :=
  ∀ t p o, outcome t (OpenWb p) = None ∧ outcome t (PickleDump p o) = None.
End save_dataset_correctly.
Global Arguments io_call : clear implicits.
Global Arguments trace : clear implicits.

(** ** [plot_histogram], [calculate_shared_axis] and [analyze_data] *)

(** [max(l)] and [min(l)] of a list, also [np.max(l)] and [np.min(l)]: an
    empty list raises [ValueError]. *)
Definition py_max (l : list Z) : result Z :=
  match l with
  | [] => Raise ValueError
  | v :: vs => Ok (foldl Z.max v vs)
  end.
Definition py_min (l : list Z) : result Z :=
  match l with
  | [] => Raise ValueError
  | v :: vs => Ok (foldl Z.min v vs)
  end.

(** [sorted(l)] *)
Definition py_sorted (l : list Z) : list Z := merge_sort Z.le l.

(** [np.median(l)] of a list of integers; [None] is the [nan] of an empty
    list. *)
Definition np_median (l : list Z) : option Qc :=
  let s := py_sorted l in
  let n := length s in
  if decide (n = 0%nat) then None
  else if Nat.even n then
    a ← s !! (n / 2 - 1)%nat; b ← s !! (n / 2)%nat;
    Some ((Qc_of_Z a + Qc_of_Z b) / Qc_of_Z 2)%Qc
  else Qc_of_Z <$> s !! (n / 2)%nat.

(** The positions of the vertical lines that [plot_histogram] draws, one
    for each percentage: [sorted_data[int(np.round(len(sorted_data) * p))]].
    The calls that draw the figure are left out; they are taken to return. *)
Definition plot_histogram (data : list Z) (percentages : list Qc) : result (list Z) :=
  let sorted_data := py_sorted data in
  foldl (λ acc p,
           lines ← acc;
           let pos := np_round (Qc_of_Z (Z.of_nat (length sorted_data)) * p)%Qc in
           x ← py_index sorted_data pos;
           mret (lines ++ [x]))
        (Ok []) percentages.

(** The default [percentages=(0.1, 0.25, 0.75, 0.9)]. *)
Definition default_percentages : list Qc :=
  [Qc_of_Z 1 / Qc_of_Z 10; Qc_of_Z 1 / Qc_of_Z 4; Qc_of_Z 3 / Qc_of_Z 4;
   Qc_of_Z 9 / Qc_of_Z 10]%Qc.

Definition calculate_shared_axis (data1 data2 : list Z) (constant_factor : Qc)
    : result (Qc * Qc) :=
  m1 ← py_max data1; m2 ← py_max data2;
  let max_val := Qc_of_Z (Z.max m1 m2) in
  n1 ← py_min data1; n2 ← py_min data2;
  let min_val := Qc_of_Z (Z.min n1 n2) in
  let max_val := (max_val + (max_val - min_val) * constant_factor)%Qc in
  let min_val := (min_val - (max_val - min_val) * constant_factor)%Qc in
  mret (min_val, max_val).

(** [l[k].append(v)] on a list of lists. *)
Definition py_append_at {A} (l : list (list A)) (k : Z) (v : A) : result (list (list A)) :=
  row ← py_index l k; py_setitem l k (row ++ [v]).

Record analyze_state : Type := AnalyzeState {
  num_labels : list Z;
  sizes_masks : list (Z * Z * Z);
  all_sizes_masks : list (list Z);
  all_sizes : list (list Z);
  all_slices : list (list Z);
  abs_num_slices : list Z
}.

Definition analyze_init : analyze_state :=
  AnalyzeState [0; 0] [(0, 0, 0); (0, 0, 0)] [[]; []] [[]; []] [[]; []] [].

Definition add3 (a b : Z * Z * Z) : Z * Z * Z :=
  (a.1.1 + b.1.1, a.1.2 + b.1.2, a.2 + b.2).

(** The body of the loop of [analyze_data]; [continue] returns the state. *)
Definition analyze_step {voxel} (st : analyze_state)
    (it : Z * string * ndarray voxel * ndarray Z) : result analyze_state :=
  let '(label, patient, volume, mask) := it in
  if decide (Z.of_nat (shape2 volume) < 3) then mret st
  else
    let '(size_mask, granular_volume) := get_size_mask mask in
    let abs := abs_num_slices st ++ [size_mask.2] in
    let st := AnalyzeState (num_labels st) (sizes_masks st) (all_sizes_masks st)
                (all_sizes st) (all_slices st) abs in
    last_abs ← py_index abs (-1);
    if decide (last_abs < 3) then mret st
    else
      sizes ← py_append_at (all_sizes st) label granular_volume;
      cur ← py_index (sizes_masks st) label;
      sums ← py_setitem (sizes_masks st) label (add3 cur size_mask);
      boxes ← py_append_at (all_sizes_masks st) label (np_prod3 size_mask);
      slices ← py_append_at (all_slices st) label (Z.of_nat (shape2 volume));
      n ← py_index (num_labels st) label;
      nums ← py_setitem (num_labels st) label (n + 1);
      mret (AnalyzeState nums sums boxes sizes slices abs).

Definition analyze_loop {voxel} (labels : list Z) (patients : list string)
    (volumes : list (ndarray voxel)) (masks : list (ndarray Z)) : result analyze_state :=
  foldl (λ acc it, st ← acc; analyze_step st it) (Ok analyze_init)
        (zip4 labels patients volumes masks).

(** The statistics printed for one label: [np.min] and [np.max] of the
    three lists (the mean, the median and the variance of an empty list are
    [nan] and raise nothing). *)
Definition print_statistics (st : analyze_state) (label : Z) : result unit :=
  boxes ← py_index (all_sizes_masks st) label;
  _ ← py_min boxes; _ ← py_max boxes;
  slices ← py_index (all_slices st) label;
  _ ← py_min slices; _ ← py_max slices;
  sizes ← py_index (all_sizes st) label;
  _ ← py_min sizes; _ ← py_max sizes;
  mret ().

(** The three histograms of one statistic. *)
Definition plot_histograms (data : list (list Z)) : result unit :=
  d0 ← py_index data 0; d1 ← py_index data 1;
  _ ← calculate_shared_axis d0 d1 (Qc_of_Z 1 / Qc_of_Z 20)%Qc;
  _ ← plot_histogram d0 default_percentages;
  _ ← plot_histogram d1 default_percentages;
  _ ← plot_histogram (d0 ++ d1) default_percentages;
  mret ().

(** The two boxplots of one statistic. *)
Definition plot_boxplots (data : list (list Z)) : result unit :=
  d0 ← py_index data 0; d1 ← py_index data 1;
  _ ← calculate_shared_axis d0 d1 (Qc_of_Z 1 / Qc_of_Z 20)%Qc;
  mret ().

(** [analyze_data]: the loop, the printed statistics, the figures and the
    returned tuple.  Writing the figures to a PDF file is left out. *)
Definition analyze_data {voxel} (volumes : list (ndarray voxel)) (labels : list Z)
    (patients : list string) (masks : list (ndarray Z))
    : result ((Z * Z) * (option Qc * option Qc)
              * (list (list Z) * list (list Z) * list (list Z) * list Z)) :=
  st ← analyze_loop labels patients volumes masks;
  _ ← print_statistics st 1;
  _ ← print_statistics st 0;
  _ ← plot_histograms (all_slices st);
  _ ← plot_histograms (all_sizes st);
  _ ← plot_histograms (all_sizes_masks st);
  _ ← plot_boxplots (all_slices st);
  _ ← plot_boxplots (all_sizes st);
  _ ← plot_boxplots (all_sizes_masks st);
  n0 ← py_index (num_labels st) 0;
  n1 ← py_index (num_labels st) 1;
  s0 ← py_index (all_slices st) 0;
  s1 ← py_index (all_slices st) 1;
  mret ((n0, n1), (np_median s0, np_median s1),
        (all_slices st, all_sizes st, all_sizes_masks st, abs_num_slices st)).

(** * Specifications and loop invariants

    The properties below are stated with these definitions: what the spec
    says about a function, written out, and the invariants of the loops. *)

(** What an archive holds for the loader, in the words of the claim: the
    arrays under ["x"] and ["y"] when both keys exist, otherwise those under
    ["arr_0"] and ["arr_1"]. *)
Definition stored_xy {obj} (f : gmap string obj) : option (obj * obj) :=
  match f !! "x", f !! "y" with
  | Some x, Some y => Some (x, y)
  | _, _ =>
      match f !! "arr_0", f !! "arr_1" with
      | Some a0, Some a1 => Some (a0, a1)
      | _, _ => None
      end
  end.

(** The reading of the claim on [get_size_mask]: the voxels of a mask that
    are not zero, and the least and greatest index they reach along an
    axis ([axis] projects an index triple to one coordinate). *)
Definition voxel_at (mask : ndarray Z) (t : nat * nat * nat) : Z :=
  item mask t.1.1 t.1.2 t.2.
Definition nonzero_voxels (mask : ndarray Z) : list (nat * nat * nat) :=
  filter (λ t, voxel_at mask t ≠ 0) (indices mask).
Definition extent (axis : nat * nat * nat → nat) (voxels : list (nat * nat * nat))
    (lo hi : nat) : Prop :=
  (∃ t, t ∈ voxels ∧ axis t = lo) ∧ (∃ t, t ∈ voxels ∧ axis t = hi) ∧
  ∀ t, t ∈ voxels → (lo ≤ axis t ≤ hi)%nat.
Definition axis0 (t : nat * nat * nat) : nat := t.1.1.
Definition axis1 (t : nat * nat * nat) : nat := t.1.2.
Definition axis2 (t : nat * nat * nat) : nat := t.2.

(** The body of the innermost loop of [get_size_mask] on an index triple,
    and the state before the loops. *)
Definition mask_step (mask : ndarray Z) (st : mask_state) (t : nat * nat * nat)
    : mask_state :=
  get_size_mask_body mask st t.1.1 t.1.2 t.2.
Definition mask_init (mask : ndarray Z) : mask_state :=
  MaskState (Z.of_nat (shape0 mask), Z.of_nat (shape1 mask), Z.of_nat (shape2 mask))
            (-1, -1, -1) 0.

(** What it means for [runs] to be the maximal runs of [items]: their
    concatenation gives the items back, no run is empty, and two
    neighbouring runs belong to different patients. *)
Definition run_items (r : string * list Z) : list (Z * string) :=
  (λ label, (label, r.1)) <$> r.2.
Definition maximal_runs (items : list (Z * string)) (runs : list (string * list Z)) : Prop :=
  runs ≫= run_items = items ∧
  Forall (λ r, r.2 ≠ []) runs ∧
  ∀ i r r', runs !! i = Some r → runs !! S i = Some r' → r.1 ≠ r'.1.

(** The values that remain to be produced when the loop of
    [calculate_patients_label] has the sum [acc] of [n] labels of patient
    [p] in its last entry and [runs] are the runs of the items to come. *)
Definition finish_runs (p : string) (acc : Qc) (n : Z) (runs : list (string * list Z))
    : list Qc :=
  match runs with
  | (p', labels) :: rest =>
      if decide (p' = p)
      then ((acc + Qc_of_Z (sum_list_Z labels)) / Qc_of_Z (n + Z.of_nat (length labels)))%Qc
           :: (mean ∘ snd <$> rest)
      else (acc / Qc_of_Z n)%Qc :: (mean ∘ snd <$> runs)
  | [] => [(acc / Qc_of_Z n)%Qc]
  end.

(** The hypothesis and the reading of the claim on the patient-level
    folds: all slices of a patient are next to each other, and a fold
    boundary is one of the two ends of the dataset or an index at which the
    patient identifier changes. *)
Definition contiguous_patients (patients : list string) : Prop :=
  ∀ (j m k : nat) p, (j ≤ m ≤ k)%nat →
    patients !! j = Some p → patients !! k = Some p → patients !! m = Some p.
Definition patient_changes_at (patients : list string) (b : Z) : Prop :=
  ∃ p q, patients !! Z.to_nat (b - 1) = Some p ∧ patients !! Z.to_nat b = Some q ∧ p ≠ q.
Definition patient_boundary (patients : list string) (b : Z) : Prop :=
  b = 0 ∨ b = Z.of_nat (length patients) ∨
  (0 < b < Z.of_nat (length patients) ∧ patient_changes_at patients b).

(** The invariant of the loop that computes the fold boundaries, after
    the patients [l] have been visited. *)
Definition folds_invariant (l : list string) (st : folds_state) : Prop :=
  fs_prev_patient st = default "" (last l) ∧
  Forall (λ b, 0 ≤ b ≤ Z.of_nat (length l) ∧ (b = 0 ∨ patient_changes_at l b))
         (fs_folds_indices st) ∧
  ∀ (i j : nat) b c, (i ≤ j)%nat →
    fs_folds_indices st !! i = Some b → fs_folds_indices st !! j = Some c → b ≤ c.

(** Four parallel lists have the same length. *)
Definition same_length4 {A B C D} (a : list A) (b : list B) (c : list C) (d : list D)
    : Prop :=
  length a = length b ∧ length a = length c ∧ length a = length d.

(** The four training lists are parallel, and so are the four test lists. *)
Definition split_balanced {voxel} (st : @split_state voxel) : Prop :=
  same_length4 (train_set_x st) (train_set_y st) (train_set_patients st)
               (train_set_masks st) ∧
  same_length4 (test_set_x st) (test_set_y st) (test_set_patients st)
               (test_set_masks st).

(** The four datasets that [generate_2D_dataset] builds are all unbound or
    all bound and parallel. *)
Definition locals_balanced {voxel} (st : @locals voxel) : Prop :=
  match x_dataset st, y_dataset st, patients_dataset st, masks_dataset st with
  | Some x, Some y, Some p, Some m => same_length4 (batch_items x) y p (batch_items m)
  | None, None, None, None => True
  | _, _, _, _ => False
  end.

(** The four lists of a dataset are parallel. *)
Definition dataset_same_length {voxel label} (d : @dataset voxel label) : Prop :=
  same_length4 d.1.1.1 d.1.1.2 d.1.2 d.2.

(** The outputs of [generate_2D_dataset] in the words of the claim.  A
    volume of depth [d] gives [d - slices_per_sample + 1] samples per
    rotation; each sample carries the label of its volume and the name of
    its patient, followed by the angle for a rotation other than the first. *)
Definition samples_per_rotation {A} (slices_per_sample : Z) (volume : ndarray A) : nat :=
  Z.to_nat (Z.of_nat (shape2 volume) - slices_per_sample + 1).
Definition expected_count {A} (slices_per_sample rotations : Z)
    (items : list (ndarray A * Z * string * ndarray Z)) : nat :=
  sum_list_with (λ it, Z.to_nat rotations * samples_per_rotation slices_per_sample it.1.1.1)%nat
                items.
Definition expected_labels {A} (slices_per_sample rotations : Z)
    (items : list (ndarray A * Z * string * ndarray Z)) : list Z :=
  it ← items;
  replicate (Z.to_nat rotations * samples_per_rotation slices_per_sample it.1.1.1) it.1.1.2.
Definition expected_patients {A} (slices_per_sample rotations : Z)
    (items : list (ndarray A * Z * string * ndarray Z)) : list string :=
  it ← items; r ← py_range rotations;
  replicate (samples_per_rotation slices_per_sample it.1.1.1) (rotated_name it.1.2 r).

(** The hypotheses on the shapes: every volume is [s] by [s] in its first
    two axes and at least [slices_per_sample] deep, and every mask has the
    shape of its volume. *)
Definition sample_shapes {A} (s : nat) (slices_per_sample : Z)
    (items : list (ndarray A * Z * string * ndarray Z)) : Prop :=
  Forall (λ it, shape0 it.1.1.1 = s ∧ shape1 it.1.1.1 = s ∧
                slices_per_sample ≤ Z.of_nat (shape2 it.1.1.1) ∧
                shape it.2 = shape it.1.1.1) items.

(** The locals of [generate_2D_dataset] hold [ys] and [ps] as labels and
    patients, next to as many images and masks of shape [shp]; with no
    sample yet, the four variables are unbound. *)
Definition locals_rep {voxel} (shp : nat * nat * nat) (ys : list Z) (ps : list string)
    (st : @locals voxel) : Prop :=
  length ps = length ys ∧
  match ys with
  | [] => st = Locals None None None None
  | _ :: _ =>
      ∃ xs ms, st = Locals (Some (Batch shp xs)) (Some ys) (Some (Batch shp ms)) (Some ps) ∧
               length xs = length ys ∧ length ms = length ys ∧
               Forall (λ a, shape a = shp) xs ∧ Forall (λ a, shape a = shp) ms
  end.

(** The reading of the claim on [trim_edges]: the sort key of an element,
    the sorted keys, and the elements a pair of thresholds keeps. *)
Definition sort_key {voxel} (sort_method : string) (x : ndarray voxel) (m : ndarray Z) : Z :=
  if String.eqb sort_method "slices" then Z.of_nat (shape2 x)
  else if String.eqb sort_method "sizes" then (get_size_mask m).2
  else np_prod3 (get_size_mask m).1.
Definition sorted_keys (array_sort : list Z) : list Z :=
  (merge_sort key_le (zip array_sort (seq 0 (length array_sort)))).*1.
Definition kept {voxel label} (sort_method : string) (val_left val_right : Z)
    (items : list (ndarray voxel * label * string * ndarray Z))
    : list (ndarray voxel * label * string * ndarray Z) :=
  filter (λ it, val_left < sort_key sort_method it.1.1.1 it.2 < val_right) items.
Definition dataset_extend {voxel label} (acc : @dataset voxel label)
    (items : list (ndarray voxel * label * string * ndarray Z)) : dataset :=
  foldl (λ d it, dataset_append d it.1.1.1 it.1.1.2 it.1.2 it.2) acc items.

(** The thresholds are not tied with a key that should stay: exactly
    [num_left] keys are at most [val_left] and exactly [num_right] keys are
    at least [val_right]. *)
Definition thresholds_untied (array_sort : list Z) (val_left val_right num_left num_right : Z)
    : Prop :=
  Z.of_nat (length (filter (λ k, k ≤ val_left) array_sort)) = num_left ∧
  Z.of_nat (length (filter (λ k, val_right ≤ k) array_sort)) = num_right.

(** The number of positions of [l] at which the patient differs from the
    one before it, [prev] being the patient before the first position. *)
Fixpoint patient_changes_count (prev : string) (l : list string) : Z :=
  match l with
  | [] => 0
  | p :: l => (if decide (p ≠ prev) then 1 else 0) + patient_changes_count p l
  end.

(** The reading of the loop of [analyze_data].  The depth of the box
    around a mask; the volumes the loop records in [abs_num_slices] (those
    with at least 3 slices); the volumes of one label it analyses (those
    whose mask box is at least 3 deep as well); and the state after the
    volumes [items]. *)
Definition box_depth (mask : ndarray Z) : Z := (get_size_mask mask).1.2.
Definition with_slices {voxel} (items : list (Z * string * ndarray voxel * ndarray Z))
    : list (Z * string * ndarray voxel * ndarray Z) :=
  filter (λ it, 3 ≤ Z.of_nat (shape2 it.1.2)) items.
Definition analysed {voxel} (label : Z) (items : list (Z * string * ndarray voxel * ndarray Z))
    : list (Z * string * ndarray voxel * ndarray Z) :=
  filter (λ it, it.1.1.1 = label) (filter (λ it, 3 ≤ box_depth it.2) (with_slices items)).
Definition analyze_summary {voxel} (items : list (Z * string * ndarray voxel * ndarray Z))
    : analyze_state :=
  let box (it : Z * string * ndarray voxel * ndarray Z) := (get_size_mask it.2).1 in
  AnalyzeState
    [Z.of_nat (length (analysed 0 items)); Z.of_nat (length (analysed 1 items))]
    [foldl add3 (0, 0, 0) (box <$> analysed 0 items);
     foldl add3 (0, 0, 0) (box <$> analysed 1 items)]
    [(λ it, np_prod3 (box it)) <$> analysed 0 items;
     (λ it, np_prod3 (box it)) <$> analysed 1 items]
    [(λ it, (get_size_mask it.2).2) <$> analysed 0 items;
     (λ it, (get_size_mask it.2).2) <$> analysed 1 items]
    [(λ it, Z.of_nat (shape2 it.1.2)) <$> analysed 0 items;
     (λ it, Z.of_nat (shape2 it.1.2)) <$> analysed 1 items]
    ((λ it, box_depth it.2) <$> with_slices items).

(** The reading of the train/test distribution: the elements of the two
    sets as tuples, the volumes that are to be placed (at least 3 slices and
    an [abs_num_slices] entry of at least 3), and the volumes that the first
    loop has set aside in [median_indices]. *)
Definition train_items {voxel} (st : @split_state voxel)
    : list (Z * string * ndarray voxel * ndarray Z) :=
  zip4 (train_set_y st) (train_set_patients st) (train_set_x st) (train_set_masks st).
Definition test_items {voxel} (st : @split_state voxel)
    : list (Z * string * ndarray voxel * ndarray Z) :=
  zip4 (test_set_y st) (test_set_patients st) (test_set_x st) (test_set_masks st).
Definition placed_of {voxel} (results3 : list Z)
    (eitems : list (Z * (Z * string * ndarray voxel * ndarray Z)))
    : list (Z * string * ndarray voxel * ndarray Z) :=
  (filter (λ eit, 3 ≤ Z.of_nat (shape2 eit.2.1.2) ∧
                  3 ≤ default 0 (results3 !! Z.to_nat eit.1)) eitems).*2.
Definition placed {voxel} (results3 : list Z)
    (items : list (Z * string * ndarray voxel * ndarray Z))
    : list (Z * string * ndarray voxel * ndarray Z) :=
  placed_of results3 (enumerate items).
Definition set_aside {voxel} (items : list (Z * string * ndarray voxel * ndarray Z))
    (work : list (Z * Z)) : list (Z * string * ndarray voxel * ndarray Z) :=
  omap (λ w : Z * Z, items !! Z.to_nat w.2) work.
Definition set_aside_ok {voxel} (items : list (Z * string * ndarray voxel * ndarray Z))
    (work : list (Z * Z)) : Prop :=
  Forall (λ w : Z * Z, 0 ≤ w.2 ∧ ∃ it, items !! Z.to_nat w.2 = Some it ∧ it.1.1.1 = w.1) work.

(** The invariant of the first loop after the volumes [done_]: the lists
    are parallel, [median_indices] has its two rows, whose entries are
    positions of volumes of the row's label, and the two sets together with
    the volumes set aside are the volumes to be placed so far. *)
Definition distribute_invariant {voxel} (results3 : list Z)
    (items : list (Z * string * ndarray voxel * ndarray Z))
    (done_ : list (Z * (Z * string * ndarray voxel * ndarray Z)))
    (st : @split_state voxel) : Prop :=
  split_balanced st ∧
  (∃ r0 r1, median_indices st = [r0; r1]) ∧
  set_aside_ok items (median_work (median_indices st)) ∧
  train_items st ++ test_items st ++ set_aside items (median_work (median_indices st))
    ≡ₚ placed_of results3 done_.


(** The files that the calls of a trace leave behind: a successful
    [np.savez(p, x=x, y=y)] writes the archive [p + ".npz"] with the keys
    ["x"] and ["y"], a successful [open(p, "wb")] creates or empties [p], a
    successful [pickle.dump] appends an object to the open file; [os.mkdir]
    and an [open] or a [pickle.dump] that raised leave the files as they
    are.  [np.savez] creates the archive before it converts and stores the
    arrays one after the other, so a call that raised may have left an
    archive behind: [stored c e] is [None] when call [c] raised [e] before
    the archive was created, and otherwise holds the arrays stored before
    the exception. *)
Definition write_call {obj} (stored : io_call obj → exn → option (gmap string obj))
    (fs : gmap string (file obj)) (c : io_call obj * option exn)
    : gmap string (file obj) :=
  match c with
  | (Savez p x y, None) => <[p +:+ ".npz" := NpzFile (<["x" := x]> (<["y" := y]> ∅))]> fs
  | (Savez p x y, Some e) =>
      match stored (Savez p x y) e with
      | Some arrays => <[p +:+ ".npz" := NpzFile arrays]> fs
      | None => fs
      end
  | (OpenWb p, None) => <[p := PickleFile []]> fs
  | (PickleDump p o, None) =>
      match fs !! p with
      | Some (PickleFile objects) => <[p := PickleFile (objects ++ [o])]> fs
      | _ => fs
      end
  | _ => fs
  end.
Definition files_after {obj} (stored : io_call obj → exn → option (gmap string obj))
    (fs : gmap string (file obj)) (t : trace obj) : gmap string (file obj) :=
  foldl (write_call stored) fs t.

(** ** [remove_healthy_top_and_bottom_slices]

    [np.nonzero(mask)[2]] lists the third index of the voxels of the mask
    that are not zero; its minimum and maximum raise [ValueError] when there
    is none. *)
Definition remove_healthy_top_and_bottom_slices {A} (image : ndarray A) (mask : ndarray Z)
    (margin : Z) : result (ndarray A * ndarray Z) :=
  let ones_pos2 := (λ t : nat * nat * nat, Z.of_nat t.2) <$> nonzero_voxels mask in
  lowest ← py_min ones_pos2;
  let min_z := Z.max 0 (lowest - margin) in
  highest ← py_max ones_pos2;
  let max_z := Z.min (Z.of_nat (shape2 image)) (highest + margin + 1) in
  mret (slice_axis2 image min_z max_z, slice_axis2 mask min_z max_z).

(** A voxel of a cropped array, seen in the array it was cut from. *)
Definition uncrop (min_z : nat) (t : nat * nat * nat) : nat * nat * nat :=
  (t.1.1, t.1.2, (min_z + t.2)%nat).

(** * Properties *)

(** ** Rational arithmetic *)

Lemma Qc_of_Z_pos (d : Z) : 0 < d → (0 < Qc_of_Z d)%Qc.
Proof. intros. rewrite <-Z2Qc_inj_0. by rewrite <-Z2Qc_inj_lt. Qed.

Lemma Qc_of_Z_nonzero (d : Z) : d ≠ 0 → Qc_of_Z d ≠ 0%Qc.
Proof. intros Hd Heq. apply Hd. apply Z2Qc_inj. by rewrite Z2Qc_inj_0. Qed.

Lemma Qcdiv_le_cross (a c d1 d2 : Z) :
  0 < d1 → 0 < d2 →
  (Qc_of_Z a / Qc_of_Z d1 ≤ Qc_of_Z c / Qc_of_Z d2)%Qc ↔ a * d2 ≤ c * d1.
Proof.
  intros H1 H2.
  pose proof (Qc_of_Z_pos _ H1) as P1. pose proof (Qc_of_Z_pos _ H2) as P2.
  assert (0 < Qc_of_Z d1 * Qc_of_Z d2)%Qc as P12 by (apply Qcmult_pos_pos; assumption).
  rewrite (Qcmult_le_mono_pos_r _ _ _ P12).
  rewrite Z2Qc_inj_le, !Z2Qc_inj_mul.
  assert (Qc_of_Z d1 ≠ 0%Qc) by (apply Qc_of_Z_nonzero; lia).
  assert (Qc_of_Z d2 ≠ 0%Qc) by (apply Qc_of_Z_nonzero; lia).
  replace (Qc_of_Z a / Qc_of_Z d1 * (Qc_of_Z d1 * Qc_of_Z d2))%Qc
    with (Qc_of_Z a * Qc_of_Z d2)%Qc by (field; done).
  replace (Qc_of_Z c / Qc_of_Z d2 * (Qc_of_Z d1 * Qc_of_Z d2))%Qc
    with (Qc_of_Z c * Qc_of_Z d1)%Qc by (field; done).
  done.
Qed.

Lemma Qcdiv_lt_cross (a c d1 d2 : Z) :
  0 < d1 → 0 < d2 →
  (Qc_of_Z a / Qc_of_Z d1 < Qc_of_Z c / Qc_of_Z d2)%Qc ↔ a * d2 < c * d1.
Proof.
  intros H1 H2. rewrite Qclt_nge, Qcdiv_le_cross by done. lia.
Qed.
(** ** [get_bucket] *)

Lemma get_bucket_fill_ratio (bucket0 bucket1 : Z) (ratio : Qc) :
  get_bucket bucket0 bucket1 ratio
  = Ok (if decide (fill_ratio bucket0 bucket1 < ratio)%Qc then 0 else 1).
Proof.
  unfold get_bucket, fill_ratio, py_truediv.
  destruct (decide (bucket0 + bucket1 = 0)); reflexivity.
Qed.









(** The two examples of the docstring, buckets [[2, 3]]: with [ratio = 0.5]
    the function returns 0, as the docstring says; with [ratio = 0.66] it
    returns 0 as well (the fill ratio 0.4 is below 0.66), where the
    docstring announces 1. *)
Example get_bucket_docstring_examples :
  get_bucket 2 3 (Qc_of_Z 1 / Qc_of_Z 2)%Qc = Ok 0 ∧
  get_bucket 2 3 (Qc_of_Z 66 / Qc_of_Z 100)%Qc = Ok 0.
Proof. split; reflexivity. Qed.

(** ** [load_organized_dataset] *)

Section load_organized_dataset_facts.
Context {obj : Type}.
Implicit Types (f : gmap string obj) (fs : gmap string (file obj)).

Lemma load_xy_stored f :
  load_xy f = match stored_xy f with Some p => Ok p | None => Raise KeyError end.
Proof.
  unfold load_xy, stored_xy, npz_getitem.
  destruct (f !! "x"), (f !! "y"), (f !! "arr_0"), (f !! "arr_1"); reflexivity.
Qed.

Lemma stored_xy_None f :
  stored_xy f = None ↔
  (f !! "x" = None ∨ f !! "y" = None) ∧ (f !! "arr_0" = None ∨ f !! "arr_1" = None).
Proof.
  unfold stored_xy.
  destruct (f !! "x"), (f !! "y"), (f !! "arr_0"), (f !! "arr_1");
    intuition congruence.
Qed.

Lemma stored_xy_keys f x y :
  f !! "x" = Some x → f !! "y" = Some y → stored_xy f = Some (x, y).
Proof. unfold stored_xy. by intros -> ->. Qed.

Lemma stored_xy_fallback f a0 a1 :
  f !! "x" = None ∨ f !! "y" = None →
  f !! "arr_0" = Some a0 → f !! "arr_1" = Some a1 → stored_xy f = Some (a0, a1).
Proof. unfold stored_xy. intros [-> | ->] -> ->; [done|]. by destruct (f !! "x"). Qed.

Lemma pickle_load_not_KeyError fs p : pickle_load fs p ≠ Raise KeyError.
Proof. unfold pickle_load. by repeat case_match. Qed.

(** The loader on a directory whose two archives can be opened. *)
Lemma load_organized_dataset_unfold fs path ftrain ftest :
  fs !! (path +:+ "/training_set.npz") = Some (NpzFile ftrain) →
  fs !! (path +:+ "/test_set.npz") = Some (NpzFile ftest) →
  load_organized_dataset fs path =
    (train ← load_xy ftrain;
     test ← load_xy ftest;
     patients_train ← pickle_load fs (path +:+ "/training_set_patients.pkl");
     patients_test ← pickle_load fs (path +:+ "/test_set_patients.pkl");
     mask_train ← pickle_load fs (path +:+ "/training_set_masks.pkl");
     mask_test ← pickle_load fs (path +:+ "/test_set_masks.pkl");
     mret (train, test, (patients_train, mask_train), (patients_test, mask_test))).
Proof.
  intros Htrain Htest. unfold load_organized_dataset, np_load.
  rewrite Htrain. cbn. destruct (load_xy ftrain) as [[x y]|e]; [|done]. cbn.
  rewrite Htest. cbn. by destruct (load_xy ftest) as [[x' y']|e].
Qed.
End load_organized_dataset_facts.

(** C7 as stated fails: an archive with the key ["x"] but without ["y"],
    ["arr_0"] and ["arr_1"] makes the loader raise [KeyError] although ["x"]
    is present. *)
Lemma load_organized_dataset_KeyError_with_x :
  let training : gmap string nat := {[ "x" := 7%nat ]} in
  let fs : gmap string (file nat) :=
    {[ "data/training_set.npz" := NpzFile training ]} in
  load_organized_dataset fs "data" = Raise KeyError ∧ training !! "x" = Some 7%nat.
Proof. split; reflexivity. Qed.

(** C7, amended. For a directory whose two archives can be opened:
    each archive yields the arrays under ["x"] and ["y"] when both keys
    exist and otherwise those under ["arr_0"] and ["arr_1"]; with the four
    pickles readable the loader returns exactly these; and a [KeyError]
    propagates exactly when, in one of the archives, ["x"] or ["y"] is
    absent and ["arr_0"] or ["arr_1"] is absent as well. *)
Theorem load_organized_dataset_keys {obj} (fs : gmap string (file obj)) (path : string)
    (ftrain ftest : gmap string obj) :
  fs !! (path +:+ "/training_set.npz") = Some (NpzFile ftrain) →
  fs !! (path +:+ "/test_set.npz") = Some (NpzFile ftest) →
  (∀ train test pm_train pm_test,
     load_organized_dataset fs path = Ok (train, test, pm_train, pm_test) →
     stored_xy ftrain = Some train ∧ stored_xy ftest = Some test) ∧
  (∀ train test p_train p_test m_train m_test,
     stored_xy ftrain = Some train → stored_xy ftest = Some test →
     pickle_load fs (path +:+ "/training_set_patients.pkl") = Ok p_train →
     pickle_load fs (path +:+ "/test_set_patients.pkl") = Ok p_test →
     pickle_load fs (path +:+ "/training_set_masks.pkl") = Ok m_train →
     pickle_load fs (path +:+ "/test_set_masks.pkl") = Ok m_test →
     load_organized_dataset fs path
     = Ok (train, test, (p_train, m_train), (p_test, m_test))) ∧
  (load_organized_dataset fs path = Raise KeyError ↔
     ((ftrain !! "x" = None ∨ ftrain !! "y" = None) ∧
      (ftrain !! "arr_0" = None ∨ ftrain !! "arr_1" = None)) ∨
     ((ftest !! "x" = None ∨ ftest !! "y" = None) ∧
      (ftest !! "arr_0" = None ∨ ftest !! "arr_1" = None))).
Proof.
  intros Htrain Htest.
  rewrite (load_organized_dataset_unfold _ _ _ _ Htrain Htest), !load_xy_stored.
  rewrite <-!stored_xy_None.
  split_and!.
  - intros train test pm_train pm_test.
    destruct (stored_xy ftrain) as [p|]; [|done]; cbn.
    destruct (stored_xy ftest) as [q|]; [|done]; cbn.
    repeat (match goal with |- context [pickle_load ?a ?b] =>
                              destruct (pickle_load a b); [|done] end; cbn).
    by intros [= -> -> _ _].
  - intros train test p_train p_test m_train m_test -> -> -> -> -> ->. done.
  - destruct (stored_xy ftrain) as [p|]; cbn; [|by split; [left|]].
    destruct (stored_xy ftest) as [q|]; cbn; [|by split; [right|]].
    split; [|by intros [|]].
    intros Hraise. exfalso. revert Hraise.
    repeat (match goal with |- context [pickle_load ?a ?b] =>
              let E := fresh in
              destruct (pickle_load a b) eqn:E; cbn;
              [|intros [= ->]; by apply pickle_load_not_KeyError in E] end).
    done.
Qed.

Lemma load_organized_dataset_keys_witness :
  let training : gmap string nat := {[ "arr_0" := 1%nat; "arr_1" := 2%nat ]} in
  let test : gmap string nat := {[ "x" := 3%nat; "y" := 4%nat ]} in
  let fs : gmap string (file nat) :=
    {[ "data/training_set.npz" := NpzFile training;
       "data/test_set.npz" := NpzFile test;
       "data/training_set_patients.pkl" := PickleFile [5%nat];
       "data/test_set_patients.pkl" := PickleFile [6%nat];
       "data/training_set_masks.pkl" := PickleFile [7%nat];
       "data/test_set_masks.pkl" := PickleFile [8%nat] ]} in
  load_organized_dataset fs "data"
  = Ok ((1%nat, 2%nat), (3%nat, 4%nat), (5%nat, 7%nat), (6%nat, 8%nat)).
Proof.
  intros training test fs.
  refine (proj1 (proj2 (load_organized_dataset_keys fs "data" training test _ _))
            _ _ _ _ _ _ _ _ _ _ _ _); reflexivity.
Defined.

(** ** [save_dataset_correctly] *)

Section save_dataset_correctly_facts.
Context {obj : Type}.
Variable outcome : trace obj → io_call obj → option exn.

Lemma guarded_mkdir p t :
  mkdir_raises_OSError outcome →
  ∃ o, io_try (perform outcome (Mkdir p)) OSError (io_ret ()) t
       = (t ++ [(Mkdir p, o)], Ok ()).
Proof.
  intros Hmk. unfold io_try, perform.
  destruct (outcome t (Mkdir p)) as [e|] eqn:E; [|by exists None].
  rewrite (Hmk _ _ _ E). by exists (Some e).
Qed.

Lemma pickle_dump_all_1 p o t :
  pickling_succeeds outcome →
  pickle_dump_all outcome p [o] t
  = (t ++ [(OpenWb p, None); (PickleDump p o, None)], Ok ()).
Proof.
  intros Hp. unfold pickle_dump_all, io_bind, perform, io_ret. cbn.
  rewrite (proj1 (Hp t p o)), (proj2 (Hp (t ++ [(OpenWb p, None)]) p o)).
  by rewrite <-app_assoc.
Qed.

Lemma pickle_dump_all_2 p o1 o2 t :
  pickling_succeeds outcome →
  pickle_dump_all outcome p [o1; o2] t
  = (t ++ [(OpenWb p, None); (PickleDump p o1, None); (PickleDump p o2, None)], Ok ()).
Proof.
  intros Hp. unfold pickle_dump_all, io_bind, perform, io_ret. cbn.
  rewrite (proj1 (Hp t p o1)), (proj2 (Hp (t ++ [(OpenWb p, None)]) p o1)),
    (proj2 (Hp ((t ++ [(OpenWb p, None)]) ++ [(PickleDump p o1, None)]) p o2)).
  by rewrite <-!app_assoc.
Qed.
End save_dataset_correctly_facts.

(** C8. When [os.mkdir] raises at most [OSError] and the pickles can be
    written, [save_dataset_correctly] goes on whatever the two [os.mkdir]
    calls did, and calls [np.savez] first.  What follows depends on
    [np.savez] alone: if it returns, the patients pickle and then the masks
    pickle are written; if it raises [ValueError], [x] and [y] are pickled
    to [<file_path>.pkl] and then the patients pickle and the masks pickle
    are written; if it raises anything else, nothing more is written and
    the exception leaves the function.  So the fallback pickle is written
    exactly when [np.savez] raised [ValueError]. *)
Theorem save_dataset_correctly_graceful {obj} (outcome : trace obj → io_call obj → option exn)
    (x y patients masks : obj) (parent_folder dataset_name dataset_subname : string) :
  mkdir_raises_OSError outcome →
  pickling_succeeds outcome →
  let full_path := parent_folder +:+ "/" in
  let folder_path := full_path +:+ dataset_name +:+ "/" in
  let file_path := folder_path +:+ dataset_subname in
  let fallback := [(OpenWb (file_path +:+ ".pkl"), None);
                   (PickleDump (file_path +:+ ".pkl") x, None);
                   (PickleDump (file_path +:+ ".pkl") y, None)] in
  let pickles := [(OpenWb (file_path +:+ "_patients.pkl"), None);
                  (PickleDump (file_path +:+ "_patients.pkl") patients, None);
                  (OpenWb (file_path +:+ "_masks.pkl"), None);
                  (PickleDump (file_path +:+ "_masks.pkl") masks, None)] in
  ∃ (mk1 mk2 sv : option exn),
    let calls := [(Mkdir full_path, mk1); (Mkdir folder_path, mk2);
                  (Savez file_path x y, sv)] in
    let run := save_dataset_correctly outcome x y patients masks parent_folder dataset_name
                                      dataset_subname [] in
    outcome [(Mkdir full_path, mk1); (Mkdir folder_path, mk2)] (Savez file_path x y) = sv ∧
    ((sv = None ∧ run = (calls ++ pickles, Ok ())) ∨
     (sv = Some ValueError ∧ run = (calls ++ fallback ++ pickles, Ok ())) ∨
     (∃ e, sv = Some e ∧ e ≠ ValueError ∧ run = (calls, Raise e))).
Proof.
  intros Hmk Hp full_path folder_path file_path fallback pickles.
  destruct (guarded_mkdir outcome full_path [] Hmk) as [mk1 E1].
  destruct (guarded_mkdir outcome folder_path ([] ++ [(Mkdir full_path, mk1)]) Hmk)
    as [mk2 E2].
  set (t2 := [(Mkdir full_path, mk1); (Mkdir folder_path, mk2)] : trace obj).
  assert (save_dataset_correctly outcome x y patients masks parent_folder dataset_name
                                 dataset_subname []
          = match outcome t2 (Savez file_path x y) with
            | None => (t2 ++ [(Savez file_path x y, None)] ++ pickles, Ok ())
            | Some e =>
                if exn_isinstance e ValueError
                then (t2 ++ [(Savez file_path x y, Some e)] ++ fallback ++ pickles, Ok ())
                else (t2 ++ [(Savez file_path x y, Some e)], Raise e)
            end) as Hrun.
  { unfold save_dataset_correctly. fold full_path. fold folder_path. fold file_path.
    unfold io_bind at 1. rewrite E1. unfold io_bind at 1. rewrite E2.
    cbn [app]. fold t2.
    unfold io_bind at 1, io_try, perform.
    destruct (outcome t2 (Savez file_path x y)) as [e|] eqn:Esv.
    - destruct (exn_isinstance e ValueError); [|done].
      rewrite pickle_dump_all_2 by done.
      unfold io_bind. rewrite pickle_dump_all_1 by done.
      rewrite pickle_dump_all_1 by done.
      by rewrite <-!app_assoc.
    - unfold io_bind. rewrite pickle_dump_all_1 by done.
      rewrite pickle_dump_all_1 by done.
      by rewrite <-!app_assoc. }
  exists mk1, mk2, (outcome t2 (Savez file_path x y)). cbv zeta. split; [done|].
  rewrite Hrun.
  destruct (outcome t2 (Savez file_path x y)) as [e|]; [right|by left].
  destruct (decide (e = ValueError)) as [->|Hne].
  - left. split; [done|]. reflexivity.
  - right. exists e. split; [done|]. split; [done|].
    assert (exn_isinstance e ValueError = false) as ->; [|done].
    unfold exn_isinstance. by apply bool_decide_eq_false_2.
Qed.

Lemma save_dataset_correctly_graceful_witness :
  let outcome : trace nat → io_call nat → option exn := λ _ c,
    match c with
    | Mkdir _ => Some FileExistsError
    | Savez _ _ _ => Some ValueError
    | _ => None
    end in
  ∃ t, save_dataset_correctly outcome 1%nat 2%nat 3%nat 4%nat "data" "organized"
                              "training_set" [] = (t, Ok ()) ∧
       performed (PickleDump "data/organized/training_set.pkl" 1%nat) t ∧
       performed (PickleDump "data/organized/training_set_patients.pkl" 3%nat) t ∧
       performed (PickleDump "data/organized/training_set_masks.pkl" 4%nat) t.
Proof.
  intros outcome.
  destruct (save_dataset_correctly_graceful outcome 1%nat 2%nat 3%nat 4%nat
              "data" "organized" "training_set") as (mk1 & mk2 & sv & Hsv & Hrun).
  - intros t p e. unfold outcome. by intros [= <-].
  - intros t p o. by split.
  - assert (sv = Some ValueError) as -> by (rewrite <-Hsv; reflexivity).
    destruct Hrun as [[? _]|[[_ E]|(e & [= <-] & Hne & _)]]; [done| |done].
    eexists. split; [exact E|].
    unfold performed. split_and!; repeat constructor.
Defined.

(** An exception of [np.savez] other than [ValueError] is not caught: with
    a disk that cannot be written, the call raises [OSError] after the
    three calls and leaves no pickle. *)
Example save_dataset_correctly_other_exception :
  let outcome : trace nat → io_call nat → option exn := λ _ c,
    match c with
    | Mkdir _ => Some FileExistsError
    | Savez _ _ _ => Some OSError
    | _ => None
    end in
  save_dataset_correctly outcome 1%nat 2%nat 3%nat 4%nat "data" "organized" "training_set" []
  = ([(Mkdir "data/", Some FileExistsError); (Mkdir "data/organized/", Some FileExistsError);
      (Savez "data/organized/training_set" 1%nat 2%nat, Some OSError)],
     Raise OSError).
Proof. reflexivity. Qed.

(** ** [get_size_mask] *)

Lemma elem_of_indices {A} (m : ndarray A) xx yy zz :
  (xx, yy, zz) ∈ indices m ↔ (xx < shape0 m ∧ yy < shape1 m ∧ zz < shape2 m)%nat.
Proof.
  unfold indices. rewrite list_elem_of_bind. split.
  - intros (x & Hx & Hin). apply list_elem_of_bind in Hx as (y & Hy & Hin').
    apply list_elem_of_bind in Hy as (z & Hz & Hin'').
    apply list_elem_of_singleton in Hz as [= -> -> ->].
    apply elem_of_seq in Hin, Hin', Hin''. lia.
  - intros (H0 & H1 & H2). exists xx. split; [|apply elem_of_seq; lia].
    apply list_elem_of_bind. exists yy. split; [|apply elem_of_seq; lia].
    apply list_elem_of_bind. exists zz. split; [|apply elem_of_seq; lia].
    by apply list_elem_of_singleton.
Qed.

Lemma foldl_ext_eq {A B} (f g : A → B → A) (a : A) (l : list B) :
  (∀ a x, f a x = g a x) → foldl f a l = foldl g a l.
Proof.
  intros Hfg. revert a. induction l as [|x l IH]; intros a; [done|].
  cbn. by rewrite Hfg, IH.
Qed.

Lemma foldl_bind {A B C} (f : A → C → A) (g : B → list C) (a : A) (l : list B) :
  foldl f a (l ≫= g) = foldl (λ a x, foldl f a (g x)) a l.
Proof.
  revert a. induction l as [|x l IH]; intros a; [done|].
  cbn. by rewrite foldl_app, IH.
Qed.

(** The three nested loops are one loop over all index triples. *)
Lemma get_size_mask_indices (mask : ndarray Z) :
  get_size_mask mask =
    let st := foldl (mask_step mask) (mask_init mask) (indices mask) in
    let '(a0, a1, a2) := range_min st in
    let '(b0, b1, b2) := range_max st in
    ((b0 - a0 + 1, b1 - a1 + 1, b2 - a2 + 1), volume st).
Proof.
  unfold get_size_mask, indices, shape. cbv zeta.
  rewrite foldl_bind.
  set (F1 := foldl _ _ _). set (F2 := foldl _ _ _).
  assert (F1 = F2) as ->; [|done].
  unfold F1, F2. apply foldl_ext_eq. intros st xx.
  rewrite foldl_bind. apply foldl_ext_eq. intros st' yy.
  rewrite foldl_bind. apply foldl_ext_eq. intros st'' zz. done.
Qed.

Lemma extent_singleton axis t : extent axis [t] (axis t) (axis t).
Proof.
  split_and!; [exists t|exists t|]; rewrite ?list_elem_of_singleton; [done..|].
  intros t' ->%list_elem_of_singleton. lia.
Qed.

Lemma extent_snoc axis voxels lo hi t :
  extent axis voxels lo hi →
  extent axis (voxels ++ [t]) (lo `min` axis t) (hi `max` axis t).
Proof.
  intros ((tlo & Hlo & Elo) & (thi & Hhi & Ehi) & Hall). split_and!.
  - destruct (decide (lo ≤ axis t)%nat).
    + exists tlo. rewrite elem_of_app. split; [by left|lia].
    + exists t. rewrite elem_of_app, list_elem_of_singleton. split; [by right|lia].
  - destruct (decide (axis t ≤ hi)%nat).
    + exists thi. rewrite elem_of_app. split; [by left|lia].
    + exists t. rewrite elem_of_app, list_elem_of_singleton. split; [by right|lia].
  - intros t' [Hin| ->%list_elem_of_singleton]%elem_of_app; [|lia].
    specialize (Hall _ Hin). lia.
Qed.

(** The loop invariant of [get_size_mask], over any list of index triples
    inside the array. *)
Lemma mask_fold_invariant (mask : ndarray Z) (l : list (nat * nat * nat)) :
  (∀ t, t ∈ l → t ∈ indices mask) →
  let st := foldl (mask_step mask) (mask_init mask) l in
  let nz := filter (λ t, voxel_at mask t ≠ 0) l in
  volume st = Z.of_nat (length nz) ∧
  (nz = [] → st = mask_init mask) ∧
  (nz ≠ [] → ∃ lo0 hi0 lo1 hi1 lo2 hi2 : nat,
     range_min st = (Z.of_nat lo0, Z.of_nat lo1, Z.of_nat lo2) ∧
     range_max st = (Z.of_nat hi0, Z.of_nat hi1, Z.of_nat hi2) ∧
     extent axis0 nz lo0 hi0 ∧ extent axis1 nz lo1 hi1 ∧ extent axis2 nz lo2 hi2).
Proof.
  induction l as [|t l IH] using rev_ind; intros Hin; cbv zeta.
  { split_and!; [done..|]. by intros []. }
  destruct IH as (Hvol & Hnil & Hcons).
  { intros t' Ht'. apply Hin, elem_of_app. by left. }
  assert (t ∈ indices mask) as Ht
    by (apply Hin, elem_of_app; right; by apply list_elem_of_singleton).
  destruct t as [[xx yy] zz]. apply elem_of_indices in Ht as (Hx & Hy & Hz).
  rewrite foldl_snoc, filter_app.
  set (st := foldl (mask_step mask) (mask_init mask) l) in *.
  set (nz := filter (λ t, voxel_at mask t ≠ 0) l) in *.
  unfold mask_step, get_size_mask_body, truthy. cbn [fst snd].
  destruct (decide (voxel_at mask (xx, yy, zz) ≠ 0)) as [Hnz|Hz0].
  - rewrite filter_cons_True by done. rewrite filter_nil.
    unfold voxel_at in Hnz. cbn [fst snd] in Hnz.
    rewrite bool_decide_eq_true_2 by done.
    destruct (decide (nz = [])) as [Hempty|Hne].
    + rewrite (Hnil Hempty), Hempty. unfold mask_init. cbn [range_min range_max volume].
      split_and!; [done|done|]. intros _.
      exists xx, xx, yy, yy, zz, zz. split_and!.
      * f_equal; [f_equal|]; lia.
      * f_equal; [f_equal|]; lia.
      * apply (extent_singleton axis0 (xx, yy, zz)).
      * apply (extent_singleton axis1 (xx, yy, zz)).
      * apply (extent_singleton axis2 (xx, yy, zz)).
    + destruct (Hcons Hne) as (lo0 & hi0 & lo1 & hi1 & lo2 & hi2 & -> & -> & E0 & E1 & E2).
      cbn [range_min range_max volume]. split_and!.
      * rewrite length_app. cbn. lia.
      * intros Habs. by apply app_nil in Habs as [_ ?].
      * intros _.
        exists (lo0 `min` xx)%nat, (hi0 `max` xx)%nat, (lo1 `min` yy)%nat,
               (hi1 `max` yy)%nat, (lo2 `min` zz)%nat, (hi2 `max` zz)%nat.
        split_and!.
        -- f_equal; [f_equal|]; lia.
        -- f_equal; [f_equal|]; lia.
        -- apply (extent_snoc axis0 _ _ _ (xx, yy, zz) E0).
        -- apply (extent_snoc axis1 _ _ _ (xx, yy, zz) E1).
        -- apply (extent_snoc axis2 _ _ _ (xx, yy, zz) E2).
  - rewrite filter_cons_False by done. rewrite filter_nil, app_nil_r.
    unfold voxel_at in Hz0. cbn [fst snd] in Hz0.
    rewrite bool_decide_eq_false_2 by done. done.
Qed.

Lemma elem_of_nonzero_voxels (mask : ndarray Z) xx yy zz :
  (xx, yy, zz) ∈ nonzero_voxels mask ↔
  (xx < shape0 mask ∧ yy < shape1 mask ∧ zz < shape2 mask)%nat ∧ item mask xx yy zz ≠ 0.
Proof.
  unfold nonzero_voxels. rewrite list_elem_of_filter, elem_of_indices.
  unfold voxel_at. cbn. tauto.
Qed.

(** C9. [get_size_mask] returns as volume the number of voxels that are not
    zero.  When there is such a voxel, every component of [box_size] is
    the greatest minus the least index that these voxels reach along the
    axis, plus one, hence at least 1, and all of them lie between the two
    indices.  For a mask of zeros the volume is 0 and the components of
    [box_size] are the negated extents of the array. *)
Theorem get_size_mask_spec (mask : ndarray Z) :
  ∃ b0 b1 b2 vol : Z,
    get_size_mask mask = ((b0, b1, b2), vol) ∧
    vol = Z.of_nat (length (nonzero_voxels mask)) ∧
    (nonzero_voxels mask = [] →
       vol = 0 ∧ b0 = - Z.of_nat (shape0 mask) ∧ b1 = - Z.of_nat (shape1 mask) ∧
       b2 = - Z.of_nat (shape2 mask) ∧ b0 ≤ 0 ∧ b1 ≤ 0 ∧ b2 ≤ 0) ∧
    (nonzero_voxels mask ≠ [] →
       ∃ lo0 hi0 lo1 hi1 lo2 hi2 : nat,
         extent axis0 (nonzero_voxels mask) lo0 hi0 ∧
         extent axis1 (nonzero_voxels mask) lo1 hi1 ∧
         extent axis2 (nonzero_voxels mask) lo2 hi2 ∧
         b0 = Z.of_nat hi0 - Z.of_nat lo0 + 1 ∧
         b1 = Z.of_nat hi1 - Z.of_nat lo1 + 1 ∧
         b2 = Z.of_nat hi2 - Z.of_nat lo2 + 1 ∧
         1 ≤ b0 ∧ 1 ≤ b1 ∧ 1 ≤ b2).
Proof.
  rewrite get_size_mask_indices. cbv zeta.
  destruct (mask_fold_invariant mask (indices mask)) as (Hvol & Hnil & Hcons); [done|].
  fold (nonzero_voxels mask) in Hvol, Hnil, Hcons.
  destruct (decide (nonzero_voxels mask = [])) as [Hempty|Hne].
  - rewrite (Hnil Hempty). unfold mask_init. cbn [range_min range_max volume].
    do 4 eexists. split; [reflexivity|]. rewrite Hempty.
    split_and!; [done| |done]. intros _. split_and!; lia.
  - destruct (Hcons Hne) as (lo0 & hi0 & lo1 & hi1 & lo2 & hi2 & Emin & Emax & E0 & E1 & E2).
    rewrite Emin, Emax. do 4 eexists. split; [reflexivity|].
    split_and!; [done|done|]. intros _.
    exists lo0, hi0, lo1, hi1, lo2, hi2.
    assert (∀ axis lo hi, extent axis (nonzero_voxels mask) lo hi → (lo ≤ hi)%nat) as Hle.
    { intros axis lo hi ((t & Ht & <-) & _ & Hall). specialize (Hall _ Ht). lia. }
    apply Hle in E0 as L0. apply Hle in E1 as L1. apply Hle in E2 as L2.
    split_and!; try done; lia.
Qed.

Lemma get_size_mask_spec_witness :
  let mask := NDArray 2 3 4 (λ i j z,
                if decide (i = 1 ∧ 1 ≤ j ∧ 2 ≤ z ≤ 3)%nat then 1 else 0) in
  get_size_mask mask = ((1, 2, 2), 4) ∧ length (nonzero_voxels mask) = 4%nat.
Proof.
  intros mask.
  destruct (get_size_mask_spec mask) as (b0 & b1 & b2 & vol & E & Hvol & _).
  vm_compute in E. injection E as <- <- <- <-.
  split; [reflexivity|]. apply Nat2Z.inj. by rewrite <-Hvol.
Defined.

(** ** [calculate_patients_label] *)

Lemma patient_runs_cons label patient items :
  patient_runs ((label, patient) :: items) =
    match patient_runs items with
    | (p, labels) :: runs =>
        if decide (patient = p) then (p, label :: labels) :: runs
        else (patient, [label]) :: (p, labels) :: runs
    | [] => [(patient, [label])]
    end.
Proof. reflexivity. Qed.

Lemma patient_runs_maximal items : maximal_runs items (patient_runs items).
Proof.
  induction items as [|[label patient] items (Hcat & Hne & Hadj)].
  { split_and!; [done|constructor|]. intros i r r' Hr. by destruct i. }
  rewrite patient_runs_cons.
  destruct (patient_runs items) as [|[p labels] runs] eqn:E.
  - cbn in Hcat. subst items. split_and!; [done|by repeat constructor|].
    intros i r r' _ Hr'. by destruct i.
  - destruct (decide (patient = p)) as [->|Hpp].
    + split_and!.
      * rewrite <-Hcat. reflexivity.
      * apply Forall_cons in Hne as [_ Hne]. by constructor.
      * intros [|i] r r' Hr Hr'.
        -- injection Hr as <-. apply (Hadj 0%nat (p, labels) r'); done.
        -- apply (Hadj (S i) r r'); done.
    + split_and!.
      * rewrite <-Hcat. reflexivity.
      * by constructor.
      * intros [|i] r r' Hr Hr'.
        -- injection Hr as <-. injection Hr' as <-. done.
        -- apply (Hadj i r r'); done.
Qed.

Lemma mean_singleton label : mean [label] = (Qc_of_Z label / Qc_of_Z 1)%Qc.
Proof. unfold mean, sum_list_Z. cbn. by rewrite Z.add_0_r. Qed.

Lemma mean_cons label labels :
  mean (label :: labels)
  = ((Qc_of_Z label + Qc_of_Z (sum_list_Z labels))
     / Qc_of_Z (1 + Z.of_nat (length labels)))%Qc.
Proof.
  unfold mean, sum_list_Z. cbn [foldr length].
  rewrite Z2Qc_inj_add. do 2 f_equal. lia.
Qed.

(** From the second item on, the values to come are those of the runs. *)
Lemma finish_runs_start label patient items :
  finish_runs patient (Qc_of_Z label) 1 (patient_runs items)
  = (mean ∘ snd <$> patient_runs ((label, patient) :: items)).
Proof.
  rewrite patient_runs_cons. unfold finish_runs.
  destruct (patient_runs items) as [|[p labels] runs].
  - cbn. by rewrite mean_singleton.
  - destruct (decide (p = patient)) as [->|Hne].
    + rewrite decide_True by done. cbn. by rewrite mean_cons.
    + rewrite decide_False by done. cbn. by rewrite mean_singleton.
Qed.

Lemma finish_runs_same p acc n label items :
  finish_runs p acc n (patient_runs ((label, p) :: items))
  = finish_runs p (acc + Qc_of_Z label) (n + 1) (patient_runs items).
Proof.
  rewrite patient_runs_cons. unfold finish_runs.
  destruct (patient_runs items) as [|[p' labels] runs].
  - rewrite decide_True by done. cbn. unfold sum_list_Z. cbn.
    rewrite Z.add_0_r. done.
  - destruct (decide (p = p')) as [->|Hne].
    + rewrite !decide_True by done. f_equal.
      unfold sum_list_Z. cbn [foldr length].
      rewrite Z2Qc_inj_add, Qcplus_assoc. do 2 f_equal. lia.
    + rewrite decide_True by done. rewrite decide_False by done. cbn.
      unfold sum_list_Z. cbn. rewrite Z.add_0_r. done.
Qed.

Lemma finish_runs_other p acc n label q items :
  q ≠ p →
  finish_runs p acc n (patient_runs ((label, q) :: items))
  = (acc / Qc_of_Z n)%Qc :: finish_runs q (Qc_of_Z label) 1 (patient_runs items).
Proof.
  intros Hne. rewrite finish_runs_start. unfold finish_runs.
  destruct (patient_runs ((label, q) :: items)) as [|[p' labels] runs] eqn:E.
  { rewrite patient_runs_cons in E. by repeat case_match. }
  assert (p' = q) as ->.
  { rewrite patient_runs_cons in E. repeat case_match; by simplify_eq. }
  by rewrite decide_False.
Qed.

Lemma py_alter_last_snoc {A} (f : A → result A) (l : list A) (a : A) :
  py_alter_last f (l ++ [a]) = (a' ← f a; mret (l ++ [a'])).
Proof. unfold py_alter_last. by rewrite last_snoc, removelast_last. Qed.

(** The loop of [calculate_patients_label] from a state whose last entry
    is in progress. *)
Lemma patients_label_loop (items : list (Z * string)) (done_ : list Qc) (acc : Qc)
    (p : string) (n : Z) :
  1 ≤ n →
  (st ← foldl (λ acc it, st ← acc; patients_label_step st it)
              (Ok (LabelState (done_ ++ [acc]) p n)) items;
   py_alter_last (λ q, float_div q (num_slices st)) (patient_percentages st))
  = Ok (done_ ++ finish_runs p acc n (patient_runs items)).
Proof.
  revert done_ acc p n. induction items as [|[label q] items IH]; intros done_ acc p n Hn.
  - cbn. rewrite py_alter_last_snoc. unfold float_div.
    rewrite decide_False by lia. done.
  - cbn [foldl]. cbn [mbind result_bind]. unfold patients_label_step at 2.
    cbn [prev_patient patient_percentages num_slices].
    destruct (decide (q = p)) as [->|Hne].
    + rewrite py_alter_last_snoc. cbn [mbind result_bind mret result_ret].
      rewrite IH by lia. by rewrite finish_runs_same.
    + rewrite decide_True by (rewrite length_app; cbn; lia).
      rewrite py_alter_last_snoc. unfold float_div. rewrite decide_False by lia.
      cbn [mbind result_bind mret result_ret].
      rewrite IH by lia. rewrite finish_runs_other by done.
      by rewrite <-app_assoc.
Qed.

(** C10 as stated fails: the loop starts with [prev_patient = ""], so a
    first patient whose identifier is the empty string is taken for a
    continuation of a run that does not exist, and the function raises
    [IndexError] on a non-empty input. *)
Lemma calculate_patients_label_empty_name :
  length [1] = length [""] ∧ calculate_patients_label [1] [""] = Raise IndexError.
Proof. split; reflexivity. Qed.

(** C10, amended. On empty input the function raises [IndexError].  For
    non-empty inputs of equal length whose first patient identifier is not
    the empty string it returns one value per maximal run of equal patient
    identifiers, in the order of the runs, each the arithmetic mean of the
    labels of its run; a patient that comes back after another one starts
    a new run and so has an entry of its own. *)
Theorem calculate_patients_label_runs :
  calculate_patients_label [] [] = Raise IndexError ∧
  ∀ (slices_labels : list Z) (patients : list string),
    slices_labels ≠ [] →
    length slices_labels = length patients →
    head patients ≠ Some "" →
    maximal_runs (zip slices_labels patients) (patient_runs (zip slices_labels patients)) ∧
    calculate_patients_label slices_labels patients
    = Ok (mean ∘ snd <$> patient_runs (zip slices_labels patients)).
Proof.
  split; [reflexivity|].
  intros slices_labels patients Hne Hlen Hhead.
  split; [apply patient_runs_maximal|].
  destruct slices_labels as [|label labels]; [done|].
  destruct patients as [|p patients]; [done|].
  assert (p ≠ "") as Hp by (intros ->; by apply Hhead).
  unfold calculate_patients_label. cbn [zip zip_with foldl].
  cbn [mbind result_bind]. unfold patients_label_step at 2.
  cbn [prev_patient patient_percentages num_slices].
  rewrite decide_False by done. rewrite decide_False by (cbn; lia).
  cbn [mbind result_bind mret result_ret].
  rewrite (patients_label_loop _ [] (Qc_of_Z label) p 1) by lia.
  by rewrite finish_runs_start.
Qed.

Lemma calculate_patients_label_runs_witness :
  calculate_patients_label [1; 0; 1; 1; 0] ["a"; "a"; "b"; "a"; "a"]
  = Ok [(Qc_of_Z 1 / Qc_of_Z 2)%Qc; (Qc_of_Z 1 / Qc_of_Z 1)%Qc; (Qc_of_Z 1 / Qc_of_Z 2)%Qc].
Proof.
  refine (eq_trans (proj2 (proj2 calculate_patients_label_runs
                                 [1; 0; 1; 1; 0] ["a"; "a"; "b"; "a"; "a"] _ _ _)) _).
  - done.
  - reflexivity.
  - done.
  - vm_compute. reflexivity.
Defined.

(** ** Rounding *)

Lemma np_round_Z (z : Z) : np_round (Qc_of_Z z) = z.
Proof.
  unfold np_round. cbn. rewrite Z.div_1_r, Z.mod_1_r.
  by rewrite decide_True by lia.
Qed.

(** The rounded value is within one half of the number: for [q = n / d],
    [2 n - d ≤ 2 d (np_round q) ≤ 2 n + d]. *)
Lemma np_round_bounds (q : Qc) :
  let n := Qnum q in
  let d := Z.pos (Qden q) in
  2 * n - d ≤ 2 * d * np_round q ≤ 2 * n + d.
Proof.
  intros n d. unfold np_round. fold n. fold d.
  assert (0 < d) as Hd by (unfold d; lia).
  pose proof (Z.div_mod n d ltac:(lia)) as Hdm.
  pose proof (Z.mod_pos_bound n d Hd) as Hr.
  set (f := n `div` d) in *. set (r := n `mod` d) in *.
  repeat case_decide; try destruct (Z.even f); nia.
Qed.

Lemma Qcle_cross (q1 q2 : Qc) :
  (q1 ≤ q2)%Qc ↔ Qnum q1 * Z.pos (Qden q2) ≤ Qnum q2 * Z.pos (Qden q1).
Proof. reflexivity. Qed.

Lemma Qc_cross_eq (q1 q2 : Qc) :
  Qnum q1 * Z.pos (Qden q2) = Qnum q2 * Z.pos (Qden q1) → q1 = q2.
Proof. intros H. apply Qc_is_canon. exact H. Qed.

Lemma np_round_mono (q1 q2 : Qc) : (q1 ≤ q2)%Qc → np_round q1 ≤ np_round q2.
Proof.
  intros Hle. unfold Qcle, Qle in Hle.
  destruct (decide (np_round q1 ≤ np_round q2)) as [|Hgt]; [done|]. exfalso.
  pose proof (np_round_bounds q1) as B1. pose proof (np_round_bounds q2) as B2.
  cbv zeta in B1, B2.
  assert (Qnum q1 * Z.pos (Qden q2) = Qnum q2 * Z.pos (Qden q1)) as Heq.
  { set (n1 := Qnum q1) in *. set (n2 := Qnum q2) in *.
    set (d1 := Z.pos (Qden q1)) in *. set (d2 := Z.pos (Qden q2)) in *.
    assert (0 < d1) by (unfold d1; lia). assert (0 < d2) by (unfold d2; lia).
    set (R1 := np_round q1) in *. set (R2 := np_round q2) in *.
    assert (R2 + 1 ≤ R1) as HR by lia.
    assert (2 * ((d1 * d2) * R1) ≤ 2 * (n1 * d2) + d1 * d2) by nia.
    assert (2 * (n2 * d1) - d1 * d2 ≤ 2 * ((d1 * d2) * R2)) by nia.
    assert ((d1 * d2) * R2 + d1 * d2 ≤ (d1 * d2) * R1) by nia.
    lia. }
  apply Qc_cross_eq in Heq. subst q2. lia.
Qed.

(** ** The folds of the slice-level cross validation *)

Lemma slice_fold_bound_0 (n : nat) : slice_fold_bound n 0 = 0.
Proof.
  unfold slice_fold_bound. rewrite Z2Qc_inj_0, Qcmult_0_l, <-Z2Qc_inj_0.
  apply np_round_Z.
Qed.

Lemma slice_fold_bound_10 (n : nat) : slice_fold_bound n 10 = Z.of_nat n.
Proof.
  unfold slice_fold_bound.
  replace (Qc_of_Z 10 * (Qc_of_Z (Z.of_nat n) / Qc_of_Z 10))%Qc
    with (Qc_of_Z (Z.of_nat n)).
  - apply np_round_Z.
  - field. by apply Qc_of_Z_nonzero.
Qed.

Lemma slice_fold_bound_mono (n : nat) (i j : Z) :
  i ≤ j → slice_fold_bound n i ≤ slice_fold_bound n j.
Proof.
  intros Hij. unfold slice_fold_bound. apply np_round_mono.
  apply Qcmult_le_mono_nonneg_r; [|by rewrite <-Z2Qc_inj_le].
  replace 0%Qc with (Qc_of_Z 0 / Qc_of_Z 10)%Qc
    by (rewrite Z2Qc_inj_0; unfold Qcdiv; apply Qcmult_0_l).
  apply Qcdiv_le_cross; lia.
Qed.

(** ** Python slices *)

Lemma py_clamp_mono (len : nat) (a b : Z) :
  0 ≤ a ≤ b → (py_clamp len a ≤ py_clamp len b)%nat.
Proof. intros Hab. unfold py_clamp. rewrite !decide_False by lia. lia. Qed.

Lemma py_clamp_nonneg (len : nat) (a : Z) :
  0 ≤ a → py_clamp len a = (len `min` Z.to_nat a)%nat.
Proof. intros Ha. unfold py_clamp. rewrite decide_False by lia. lia. Qed.

(** [l[:a]], [l[a:b]] and [l[b:]] are three consecutive pieces of [l]. *)
Lemma py_slices_cover {A} (l : list A) (a b : Z) :
  0 ≤ a ≤ b → py_slice_to l a ++ py_slice l a b ++ py_slice_from l b = l.
Proof.
  intros Hab. unfold py_slice_to, py_slice, py_slice_from.
  pose proof (py_clamp_mono (length l) a b Hab) as Hle.
  set (a' := py_clamp (length l) a) in *. set (b' := py_clamp (length l) b) in *.
  rewrite <-(take_drop a' l) at 4. f_equal.
  rewrite <-(take_drop (b' - a') (drop a' l)) at 2. f_equal.
  rewrite drop_drop. f_equal. lia.
Qed.

Lemma py_slices_train_test {A} (l : list A) (a b : Z) :
  0 ≤ a ≤ b → (py_slice_to l a ++ py_slice_from l b) ++ py_slice l a b ≡ₚ l.
Proof.
  intros Hab. rewrite <-(py_slices_cover l a b Hab) at 4.
  rewrite <-app_assoc. apply Permutation_app_head, Permutation_app_comm.
Qed.

(** The elements of the test block are those at the indices from [a] up to
    [b]. *)
Lemma py_slice_lookup {A} (l : list A) (a b : Z) (k : nat) :
  0 ≤ a ≤ b → b ≤ Z.of_nat (length l) →
  py_slice l a b !! k = if decide (Z.of_nat k < b - a) then l !! (Z.to_nat a + k)%nat else None.
Proof.
  intros Hab Hb. unfold py_slice. rewrite !py_clamp_nonneg by lia.
  replace (length l `min` Z.to_nat a)%nat with (Z.to_nat a) by lia.
  replace (length l `min` Z.to_nat b)%nat with (Z.to_nat b) by lia.
  case_decide.
  - rewrite lookup_take_lt by lia. by rewrite lookup_drop.
  - apply lookup_take_ge. lia.
Qed.

Local Ltac in_fold c :=
  exists c; let s := eval compute in (c + 1) in change (c + 1) with s; lia.

(** C3. The test blocks of the slice-level cross validation with its 10
    folds partition the index range of the dataset: the bounds start at 0,
    end at the size and do not decrease, so every index lies in the test
    block of exactly one fold; and in every fold the split returns, with
    the training part and the test part together holding every sample of
    the whole set exactly once. *)
Theorem slice_level_folds_partition (n : nat) :
  slice_fold_bound n 0 = 0 ∧
  slice_fold_bound n 10 = Z.of_nat n ∧
  (∀ i j, i ≤ j → slice_fold_bound n i ≤ slice_fold_bound n j) ∧
  (∀ k, 0 ≤ k < Z.of_nat n →
     ∃ i, 0 ≤ i < 10 ∧ slice_fold_bound n i ≤ k < slice_fold_bound n (i + 1) ∧
          ∀ i', 0 ≤ i' < 10 →
                slice_fold_bound n i' ≤ k < slice_fold_bound n (i' + 1) → i' = i) ∧
  (∀ (X Y : Type) (x_whole : list X) (y_whole : list Y) (patients_whole : list string)
     (num_patients i : Z),
     length x_whole = n → 0 ≤ i < 10 →
     ∃ fold,
       cv_split x_whole y_whole patients_whole num_patients false i = Ok fold ∧
       x_test_cv fold
       = py_slice x_whole (slice_fold_bound n i) (slice_fold_bound n (i + 1)) ∧
       x_train_cv fold ++ x_test_cv fold ≡ₚ x_whole ∧
       y_train_cv fold ++ y_test_cv fold ≡ₚ y_whole ∧
       patients_whole_cv fold ++ patients_test_cv fold ≡ₚ patients_whole).
Proof.
  pose proof (slice_fold_bound_0 n) as H0.
  pose proof (slice_fold_bound_10 n) as H10.
  pose proof (slice_fold_bound_mono n) as Hmono.
  split_and!; [done|done|done| |].
  - intros k Hk.
    assert (∃ i, 0 ≤ i < 10 ∧ slice_fold_bound n i ≤ k < slice_fold_bound n (i + 1))
      as (i & Hi & Hin).
    { destruct (decide (k < slice_fold_bound n 1)); [in_fold 0|].
      destruct (decide (k < slice_fold_bound n 2)); [in_fold 1|].
      destruct (decide (k < slice_fold_bound n 3)); [in_fold 2|].
      destruct (decide (k < slice_fold_bound n 4)); [in_fold 3|].
      destruct (decide (k < slice_fold_bound n 5)); [in_fold 4|].
      destruct (decide (k < slice_fold_bound n 6)); [in_fold 5|].
      destruct (decide (k < slice_fold_bound n 7)); [in_fold 6|].
      destruct (decide (k < slice_fold_bound n 8)); [in_fold 7|].
      destruct (decide (k < slice_fold_bound n 9)); [in_fold 8|].
      in_fold 9. }
    exists i. split_and!; [lia..|].
    intros i' Hi' Hin'.
    destruct (Z.lt_trichotomy i' i) as [Hlt|[->|Hlt]]; [|done|].
    + pose proof (Hmono (i' + 1) i ltac:(lia)). lia.
    + pose proof (Hmono (i + 1) i' ltac:(lia)). lia.
  - intros X Y x_whole y_whole patients_whole num_patients i Hlen Hi.
    unfold cv_split, cv_bounds. cbn [negb]. rewrite Hlen.
    fold (slice_fold_bound n i). fold (slice_fold_bound n (i + 1)).
    cbn [mbind result_bind mret result_ret].
    eexists. split; [reflexivity|]. cbn.
    assert (0 ≤ slice_fold_bound n i ≤ slice_fold_bound n (i + 1)) as Hb.
    { split; [rewrite <-H0; apply Hmono; lia|apply Hmono; lia]. }
    split_and!; [done|by apply py_slices_train_test..].
Qed.

Lemma slice_level_folds_partition_witness :
  ∃ fold, cv_split (seq 0 25) (seq 100 25) (replicate 25 "p") 1 false 5 = Ok fold ∧
          x_test_cv fold = [12; 13; 14]%nat ∧
          x_train_cv fold ++ x_test_cv fold ≡ₚ seq 0 25.
Proof.
  destruct (slice_level_folds_partition 25) as (_ & _ & _ & _ & Hsplit).
  destruct (Hsplit nat nat (seq 0 25) (seq 100 25) (replicate 25 "p") 1 5)
    as (fold & E & Htest & Hperm & _); [reflexivity|lia|].
  exists fold. split_and!; [exact E| |exact Hperm].
  rewrite Htest. reflexivity.
Defined.

(** ** The folds of the patient-level cross validation *)

Lemma enumerate_snoc {A} (l : list A) (a : A) :
  enumerate (l ++ [a]) = enumerate l ++ [(Z.of_nat (length l), a)].
Proof.
  unfold enumerate. rewrite length_app. cbn [length].
  rewrite seq_app, fmap_app. cbn [seq fmap list_fmap].
  rewrite zip_with_app by (rewrite length_fmap, length_seq; done).
  done.
Qed.

Lemma patient_changes_at_snoc (l : list string) (p : string) (b : Z) :
  0 ≤ b ≤ Z.of_nat (length l) →
  patient_changes_at l b → patient_changes_at (l ++ [p]) b.
Proof.
  intros Hb (p1 & p2 & H1 & H2 & Hne). exists p1, p2.
  split_and!; [|  |done]; by apply lookup_app_l_Some.
Qed.

Lemma folds_step_invariant (nppf : Z) (l : list string) (p : string) (st : folds_state) :
  folds_invariant l st →
  folds_invariant (l ++ [p]) (folds_step nppf st (Z.of_nat (length l), p)).
Proof.
  intros (Hprev & Hall & Hsorted).
  assert (Forall (λ b, 0 ≤ b ≤ Z.of_nat (length (l ++ [p])) ∧
                       (b = 0 ∨ patient_changes_at (l ++ [p]) b))
                 (fs_folds_indices st)) as Hall'.
  { eapply Forall_impl; [exact Hall|]. intros b [Hb Hc]. rewrite length_app. cbn.
    split; [lia|]. destruct Hc as [?|Hc]; [by left|right].
    by apply patient_changes_at_snoc. }
  unfold folds_step.
  destruct (decide (p ≠ fs_prev_patient st)) as [Hne|Heq].
  - case_decide.
    + split_and!; cbn.
      * by rewrite last_snoc.
      * apply Forall_app. split; [done|]. apply Forall_singleton.
        rewrite length_app. cbn. split; [lia|].
        destruct l as [|p0 l0] using rev_ind; [by left|right]. clear IHl0.
        rewrite last_snoc in Hprev. cbn in Hprev.
        exists p0, p. rewrite !length_app. cbn. split_and!.
        -- replace (Z.to_nat (Z.of_nat (length l0 + 1) - 1)) with (length l0) by lia.
           apply lookup_app_l_Some. by rewrite list_lookup_middle.
        -- replace (Z.to_nat (Z.of_nat (length l0 + 1))) with (length (l0 ++ [p0]))
             by (rewrite length_app; cbn; lia).
           by rewrite list_lookup_middle.
        -- congruence.
      * intros i j b c Hij Hi Hj.
        apply lookup_snoc_Some in Hi as [[Hi Hlb]|[Hi <-]];
          apply lookup_snoc_Some in Hj as [[Hj Hlc]|[Hj <-]].
        -- by apply (Hsorted i j).
        -- rewrite Forall_lookup in Hall. destruct (Hall _ _ Hlb). lia.
        -- lia.
        -- lia.
    + split_and!; cbn; [by rewrite last_snoc|done|done].
  - split_and!; [|done|done].
    rewrite last_snoc. cbn. apply dec_stable in Heq. congruence.
Qed.

Lemma folds_loop_invariant (nppf : Z) (l : list string) :
  folds_invariant l (foldl (folds_step nppf) (FoldsState "" 0 [0]) (enumerate l)).
Proof.
  induction l as [|p l IH] using rev_ind.
  - split_and!; cbn; [done|repeat constructor; lia|].
    intros i j b c _ Hi Hj.
    apply list_lookup_singleton_Some in Hi as [_ <-].
    apply list_lookup_singleton_Some in Hj as [_ <-]. done.
  - rewrite enumerate_snoc, foldl_snoc. by apply folds_step_invariant.
Qed.

Lemma patient_folds_indices_spec (patients : list string) (num_patients : Z) :
  let folds_indices := patient_folds_indices patients num_patients in
  Forall (patient_boundary patients) folds_indices ∧
  Forall (λ b, 0 ≤ b ≤ Z.of_nat (length patients)) folds_indices ∧
  ∀ (i j : nat) b c, (i ≤ j)%nat →
    folds_indices !! i = Some b → folds_indices !! j = Some c → b ≤ c.
Proof.
  cbv zeta. unfold patient_folds_indices.
  set (nppf := np_ceil _).
  destruct (folds_loop_invariant nppf patients) as (_ & Hall & Hsorted).
  set (st := foldl _ _ _) in *.
  split_and!.
  - apply Forall_app. split; [|apply Forall_singleton; right; by left].
    eapply Forall_impl; [exact Hall|]. intros b [Hb [->|Hc]]; [by left|].
    unfold patient_boundary.
    destruct (decide (b = 0)) as [|]; [by left|].
    destruct (decide (b = Z.of_nat (length patients))); [right; by left|].
    right; right. split; [lia|done].
  - apply Forall_app. split; [|apply Forall_singleton; lia].
    eapply Forall_impl; [exact Hall|]. by intros b [Hb _].
  - intros i j b c Hij Hi Hj.
    apply lookup_snoc_Some in Hi as [[Hi Hlb]|[Hi <-]];
      apply lookup_snoc_Some in Hj as [[Hj Hlc]|[Hj <-]].
    + by apply (Hsorted i j).
    + rewrite Forall_lookup in Hall. destruct (Hall _ _ Hlb). lia.
    + lia.
    + lia.
Qed.

Lemma py_index_Ok {A} (l : list A) (i : Z) :
  0 ≤ i < Z.of_nat (length l) →
  ∃ a, py_index l i = Ok a ∧ l !! Z.to_nat i = Some a.
Proof.
  intros Hi. unfold py_index. cbv zeta.
  destruct (decide (i < 0)) as [|_]; [lia|].
  destruct (decide (0 ≤ i < Z.of_nat (length l))) as [_|]; [|lia].
  destruct (lookup_lt_is_Some_2 l (Z.to_nat i) ltac:(lia)) as [a Ha].
  rewrite Ha. by exists a.
Qed.

Lemma elem_of_py_slice {A} (l : list A) (a b : Z) (x : A) :
  0 ≤ a ≤ b → b ≤ Z.of_nat (length l) →
  x ∈ py_slice l a b → ∃ j : nat, a ≤ Z.of_nat j < b ∧ l !! j = Some x.
Proof.
  intros Hab Hb [k Hk]%list_elem_of_lookup.
  rewrite py_slice_lookup in Hk by done. case_decide; [|done].
  exists (Z.to_nat a + k)%nat. split; [lia|done].
Qed.

Lemma elem_of_py_slice_to {A} (l : list A) (a : Z) (x : A) :
  0 ≤ a → x ∈ py_slice_to l a → ∃ j : nat, Z.of_nat j < a ∧ l !! j = Some x.
Proof.
  intros Ha [k Hk]%list_elem_of_lookup. unfold py_slice_to in Hk.
  rewrite py_clamp_nonneg in Hk by done.
  apply lookup_take_Some in Hk as [Hk Hlt]. exists k. split; [lia|done].
Qed.

Lemma elem_of_py_slice_from {A} (l : list A) (b : Z) (x : A) :
  0 ≤ b ≤ Z.of_nat (length l) →
  x ∈ py_slice_from l b → ∃ j : nat, b ≤ Z.of_nat j ∧ l !! j = Some x.
Proof.
  intros Hb [k Hk]%list_elem_of_lookup. unfold py_slice_from in Hk.
  rewrite py_clamp_nonneg in Hk by lia. rewrite lookup_drop in Hk.
  eexists. split; [|exact Hk]. lia.
Qed.

(** A patient with a slice on each side of a boundary contradicts that the
    patient changes there. *)
Lemma boundary_separates (patients : list string) (b : Z) (j k : nat) (p : string) :
  contiguous_patients patients → patient_boundary patients b →
  Z.of_nat j < b ≤ Z.of_nat k →
  patients !! j = Some p → patients !! k = Some p → False.
Proof.
  intros Hcont [->|[->|[Hb (p1 & p2 & H1 & H2 & Hne)]]] Hjk Hj Hk.
  - lia.
  - apply lookup_lt_Some in Hk. lia.
  - rewrite (Hcont j (Z.to_nat (b - 1)) k p) in H1 by (done || lia).
    rewrite (Hcont j (Z.to_nat b) k p) in H2 by (done || lia).
    congruence.
Qed.

(** C1. In the patient-level cross validation over a dataset in which the
    slices of every patient are next to each other, every fold boundary is
    one of the two ends of the dataset or an index at which the patient
    identifier changes; and for every fold [i] that has its two boundaries
    in [folds_indices] (all 11 folds when it has 12 entries) the split
    returns and no patient has a slice both in the test block and in the
    training part: the slices of a patient are all inside or all outside
    the test block. *)
Theorem patient_level_folds_keep_patients (patients_whole : list string) (num_patients : Z) :
  contiguous_patients patients_whole →
  let folds_indices := patient_folds_indices patients_whole num_patients in
  Forall (patient_boundary patients_whole) folds_indices ∧
  ∀ (X Y : Type) (x_whole : list X) (y_whole : list Y) (i : Z),
    0 ≤ i → i + 1 < Z.of_nat (length folds_indices) →
    ∃ fold idx0 idx1,
      cv_split x_whole y_whole patients_whole num_patients true i = Ok fold ∧
      folds_indices !! Z.to_nat i = Some idx0 ∧
      folds_indices !! Z.to_nat (i + 1) = Some idx1 ∧
      x_test_cv fold = py_slice x_whole idx0 idx1 ∧
      patients_test_cv fold = py_slice patients_whole idx0 idx1 ∧
      patients_whole_cv fold
      = py_slice_to patients_whole idx0 ++ py_slice_from patients_whole idx1 ∧
      ∀ p, p ∈ patients_test_cv fold → p ∉ patients_whole_cv fold.
Proof.
  intros Hcont folds_indices.
  destruct (patient_folds_indices_spec patients_whole num_patients)
    as (Hbound & Hrange & Hsorted).
  fold folds_indices in Hbound, Hrange, Hsorted.
  split; [done|].
  intros X Y x_whole y_whole i Hi0 Hi1.
  destruct (py_index_Ok folds_indices i ltac:(lia)) as (idx0 & E0 & L0).
  destruct (py_index_Ok folds_indices (i + 1) ltac:(lia)) as (idx1 & E1 & L1).
  unfold cv_split, cv_bounds. cbn [negb]. fold folds_indices.
  rewrite E0. cbn [mbind result_bind]. rewrite E1.
  cbn [mbind result_bind mret result_ret].
  eexists _, idx0, idx1. split; [reflexivity|]. cbn.
  split_and!; [done..|].
  rewrite Forall_lookup in Hbound. rewrite Forall_lookup in Hrange.
  pose proof (Hbound _ _ L0) as B0. pose proof (Hbound _ _ L1) as B1.
  pose proof (Hrange _ _ L0) as R0. pose proof (Hrange _ _ L1) as R1.
  cbv beta in R0, R1.
  assert (idx0 ≤ idx1) as Hle
    by (apply (Hsorted (Z.to_nat i) (Z.to_nat (i + 1)) idx0 idx1); [lia|done|done]).
  intros p Htest Htrain.
  apply elem_of_py_slice in Htest as (j & Hj & Hpj); [|lia..].
  apply elem_of_app in Htrain as [Hlow|Hhigh].
  - apply elem_of_py_slice_to in Hlow as (k & Hk & Hpk); [|lia].
    apply (boundary_separates patients_whole idx0 k j p); (done || lia).
  - apply elem_of_py_slice_from in Hhigh as (k & Hk & Hpk); [|lia].
    apply (boundary_separates patients_whole idx1 j k p); (done || lia).
Qed.

Lemma patient_level_folds_keep_patients_witness :
  let patients_whole :=
    ["a"; "a"; "b"; "c"; "c"; "c"; "d"; "e"; "f"; "g"; "g"; "h"; "i"; "j"; "k"; "k"] in
  length (patient_folds_indices patients_whole 11) = 12%nat ∧
  ∃ fold, cv_split (seq 0 16) (seq 16 16) patients_whole 11 true 2 = Ok fold ∧
          patients_test_cv fold = ["c"; "c"; "c"] ∧
          ∀ p, p ∈ patients_test_cv fold → p ∉ patients_whole_cv fold.
Proof.
  intros patients_whole. split; [reflexivity|].
  assert (contiguous_patients patients_whole) as Hcont.
  { intros j m k p Hjmk Hj Hk.
    assert (k < 16)%nat by (apply lookup_lt_Some in Hk; cbn in Hk; lia).
    do 16 (destruct j as [|j]; [
      do 16 (destruct m as [|m]; [
        do 16 (destruct k as [|k]; [cbn in *; (congruence || lia)|]); lia|]); lia|]).
    lia. }
  destruct (patient_level_folds_keep_patients patients_whole 11 Hcont) as [_ Hfold].
  destruct (Hfold nat nat (seq 0 16) (seq 16 16) 2)
    as (fold & idx0 & idx1 & E & L0 & L1 & _ & Htest & _ & Hsep).
  - lia.
  - vm_compute. reflexivity.
  - exists fold. split_and!; [exact E| |exact Hsep].
    rewrite Htest. vm_compute in L0, L1.
    injection L0 as <-. injection L1 as <-. reflexivity.
Defined.

(** ** Loops in the error monad *)

Lemma foldl_result_Raise {S A} (step : S → A → result S) (e : exn) (l : list A) :
  foldl (λ acc a, st ← acc; step st a) (Raise e) l = Raise e.
Proof. induction l as [|a l IH]; [done|]. exact IH. Qed.

(** A property that every step keeps holds after a loop that returns. *)
Lemma foldl_result_preserves {S A} (step : S → A → result S) (P : S → Prop)
    (l : list A) (st st' : S) :
  (∀ st a st', P st → step st a = Ok st' → P st') →
  P st → foldl (λ acc a, st ← acc; step st a) (Ok st) l = Ok st' → P st'.
Proof.
  intros Hstep. revert st. induction l as [|a l IH]; intros st HP Hfold.
  - by injection Hfold as <-.
  - cbn [foldl] in Hfold. cbn [mbind result_bind] in Hfold.
    destruct (step st a) as [st1|e] eqn:E.
    + apply (IH st1); [by eapply Hstep|done].
    + by rewrite foldl_result_Raise in Hfold.
Qed.

(** A loop whose steps all return, with an invariant over the processed
    elements. *)
Lemma foldl_result_invariant {S A} (step : S → A → result S) (I : list A → S → Prop)
    (l : list A) (st : S) :
  I [] st →
  (∀ done_ a st, a ∈ l → I done_ st → ∃ st', step st a = Ok st' ∧ I (done_ ++ [a]) st') →
  ∃ st', foldl (λ acc a, st ← acc; step st a) (Ok st) l = Ok st' ∧ I l st'.
Proof.
  intros Hinit Hstep. induction l as [|a l IH] using rev_ind; [by exists st|].
  destruct IH as (st1 & E1 & I1).
  { intros done_ b st0 Hb. apply Hstep. apply elem_of_app. by left. }
  rewrite foldl_snoc, E1. cbn [mbind result_bind].
  apply Hstep; [|done]. apply elem_of_app. right. by apply list_elem_of_singleton.
Qed.

(** ** Parallel lists stay parallel *)

Lemma same_length4_snoc {A B C D} (a : list A) (b : list B) (c : list C) (d : list D)
    x y z w :
  same_length4 a b c d → same_length4 (a ++ [x]) (b ++ [y]) (c ++ [z]) (d ++ [w]).
Proof. unfold same_length4. rewrite !length_app. cbn. lia. Qed.

Lemma dataset_append_same_length {voxel label} (acc : @dataset voxel label) x y p m :
  dataset_same_length acc → dataset_same_length (dataset_append acc x y p m).
Proof. destruct acc as [[[a b] c] d]. apply same_length4_snoc. Qed.

Lemma trim_loop_same_length {voxel label} (sort_method : string) (val_left val_right : Z)
    (items : list (ndarray voxel * label * string * ndarray Z))
    (acc new : @dataset voxel label) :
  dataset_same_length acc →
  trim_loop sort_method val_left val_right items acc = Ok (Some new) →
  dataset_same_length new.
Proof.
  revert acc. induction items as [|[[[x y] p] m] items IH]; intros acc Hacc Hloop.
  - cbn in Hloop. by injection Hloop as <-.
  - cbn [trim_loop] in Hloop.
    destruct (len_x00 x) as [slices|e]; [|done]. cbn [mbind result_bind] in Hloop.
    destruct (get_size_mask m) as [dimensions_mask size].
    pose proof (dataset_append_same_length acc x y p m Hacc) as Happ.
    destruct (String.eqb sort_method "slices");
      [|destruct (String.eqb sort_method "sizes");
        [|destruct (String.eqb sort_method "sizes_masks"); [|done]]].
    all: match type of Hloop with
         | context [if ?c then _ else _] => destruct c
         end; first [exact (IH _ Happ Hloop)|exact (IH _ Hacc Hloop)].
Qed.

Lemma append_sample_balanced {voxel} (st st' : @locals voxel) image label mask_image
    patient r :
  locals_balanced st →
  append_sample st image label mask_image patient r = Ok st' →
  locals_balanced st'.
Proof.
  unfold locals_balanced, append_sample, append_sample_try, np_concatenate1.
  destruct st as [[x|] [y|] [m|] [p|]]; cbn; try done.
  - intros Hbal.
    destruct (decide (shape image = batch_shape x)); cbn; [|done].
    destruct (decide (shape mask_image = batch_shape m)); cbn; [|done].
    intros [= <-]. cbn. by apply same_length4_snoc.
  - intros _ [= <-]. done.
Qed.

Lemma slices_loop_balanced {voxel} (st st' : @locals voxel) slices_per_sample vol msk
    label patient r :
  locals_balanced st →
  slices_loop slices_per_sample vol msk label patient r st = Ok st' →
  locals_balanced st'.
Proof.
  unfold slices_loop. apply foldl_result_preserves.
  intros st0 idx st1. apply append_sample_balanced.
Qed.

Lemma rotations_loop_balanced {voxel} (st st' : @locals voxel) slices_per_sample
    rotations volume mask label patient :
  locals_balanced st →
  rotations_loop slices_per_sample rotations volume mask label patient st = Ok st' →
  locals_balanced st'.
Proof.
  unfold rotations_loop. apply foldl_result_preserves.
  intros st0 r st1. apply slices_loop_balanced.
Qed.

Lemma generate_2D_dataset_same_length {voxel} (voxel_max voxel_min : voxel → voxel → voxel)
    (voxel_normalize : voxel → voxel → voxel → voxel)
    samples labels patients masks slices_per_sample rotate_data normalize x y p m :
  generate_2D_dataset voxel_max voxel_min voxel_normalize samples labels patients masks
                      slices_per_sample rotate_data normalize = Ok (x, y, p, m) →
  same_length4 (batch_items x) y p (batch_items m).
Proof.
  unfold generate_2D_dataset. cbv zeta.
  destruct (foldl _ (Ok (Locals None None None None)) _) as [st|e] eqn:Eloop; [|done].
  assert (locals_balanced st) as Hbal.
  { revert Eloop. apply foldl_result_preserves; [|done].
    intros st0 [[[volume label] patient] mask] st1 Hst0. unfold volume_step.
    destruct (normalize_volume _ _ _ _ _) as [v|]; cbn; [|done].
    by apply rotations_loop_balanced. }
  cbn [mbind result_bind mret result_ret]. unfold locals_balanced in Hbal.
  destruct st as [[x0|] [y0|] [m0|] [p0|]]; cbn in *; try done.
  by intros [= <- <- <- <-].
Qed.

Section split_balanced.
Context {voxel : Type}.
Implicit Types st : @split_state voxel.

Lemma put_train_balanced st st' half label volume patient mask :
  split_balanced st → put_train st half label volume patient mask = Ok st' →
  split_balanced st'.
Proof.
  intros [Htrain Htest]. unfold put_train.
  destruct (incr2 _ _ _); cbn; [|done]. intros [= <-].
  split; cbn; [by apply same_length4_snoc|done].
Qed.

Lemma put_test_balanced st st' half label volume patient mask :
  split_balanced st → put_test st half label volume patient mask = Ok st' →
  split_balanced st'.
Proof.
  intros [Htrain Htest]. unfold put_test.
  destruct (incr2 _ _ _); cbn; [|done]. intros [= <-].
  split; cbn; [done|by apply same_length4_snoc].
Qed.

Lemma distribute_half_balanced ratio st st' half label volume patient mask :
  split_balanced st → distribute_half ratio st half label volume patient mask = Ok st' →
  split_balanced st'.
Proof.
  intros Hbal. unfold distribute_half.
  destruct (get2 (train_nums st) _ _); cbn [mbind result_bind]; [|done].
  destruct (get2 (test_nums st) _ _); cbn [mbind result_bind]; [|done].
  destruct (get_bucket _ _ _); cbn [mbind result_bind]; [|done].
  case_decide; [by apply put_train_balanced|by apply put_test_balanced].
Qed.

Lemma distribute_step_balanced ratio medians results3 st st' it :
  split_balanced st → distribute_step ratio medians results3 st it = Ok st' →
  split_balanced st'.
Proof.
  intros Hbal. destruct it as [i [[[label patient] volume] mask]].
  unfold distribute_step. cbn [mret result_ret].
  case_decide; [by intros [= <-]|].
  destruct (py_index results3 i); cbn [mbind result_bind]; [|done].
  case_decide; [by intros [= <-]|].
  destruct (py_index medians label); cbn; [|done].
  case_decide; [by apply distribute_half_balanced|].
  case_decide; [by apply distribute_half_balanced|].
  destruct (py_index (median_indices st) label); cbn; [|done].
  destruct (py_setitem _ _ _); cbn; [|done].
  by intros [= <-].
Qed.

Lemma distribute_loop_balanced ratio medians results3 items st st' :
  split_balanced st → distribute_loop ratio medians results3 items st = Ok st' →
  split_balanced st'.
Proof.
  unfold distribute_loop. apply foldl_result_preserves.
  intros st0 it st1. apply distribute_step_balanced.
Qed.

Lemma median_step_balanced ratio x_set patients masks st st' it :
  split_balanced st → median_step ratio x_set patients masks st it = Ok st' →
  split_balanced st'.
Proof.
  intros Hbal. destruct it as [label index]. unfold median_step.
  destruct (py_index x_set index); cbn [mbind result_bind]; [|done].
  destruct (py_index patients index); cbn [mbind result_bind]; [|done].
  destruct (py_index masks index); cbn [mbind result_bind]; [|done].
  destruct (get2 (train_nums st) 0 label); cbn [mbind result_bind]; [|done].
  destruct (get2 (train_nums st) 1 label); cbn [mbind result_bind]; [|done].
  destruct (get2 (test_nums st) 0 label); cbn [mbind result_bind]; [|done].
  destruct (get2 (test_nums st) 1 label); cbn [mbind result_bind]; [|done].
  destruct (get_bucket _ _ _); cbn [mbind result_bind]; [|done].
  case_decide; [by apply put_train_balanced|by apply put_test_balanced].
Qed.

Lemma median_loop_balanced ratio x_set patients masks work st st' :
  split_balanced st → median_loop ratio x_set patients masks work st = Ok st' →
  split_balanced st'.
Proof.
  unfold median_loop. apply foldl_result_preserves.
  intros st0 it st1. apply median_step_balanced.
Qed.

Lemma py_pop_length {A} (l l' : list A) (a : A) :
  py_pop l = Ok (l', a) → length l = S (length l').
Proof.
  unfold py_pop. destruct l as [|b l0] using rev_ind; [done|].
  rewrite last_snoc, removelast_last. intros [= <- <-].
  rewrite length_app. cbn. lia.
Qed.

Lemma rebalance_balanced ratio st st' :
  split_balanced st → rebalance ratio st = Ok st' → split_balanced st'.
Proof.
  intros [(T1 & T2 & T3) (S1 & S2 & S3)]. unfold rebalance. cbv zeta.
  destruct (py_truediv_float (Z.of_nat (length (train_set_x st))) _) as [q|];
    cbn [mbind result_bind]; [|done].
  destruct (py_truediv_float (Z.of_nat (length (train_set_x st)) + 1) _) as [q0|];
    cbn [mbind result_bind]; [|done].
  destruct (py_truediv_float (Z.of_nat (length (train_set_x st)) - 1) _) as [q1|];
    cbn [mbind result_bind]; [|done].
  cbn [mret result_ret].
  destruct (fltb (fabs (fsub q0 ratio)) (fabs (fsub q ratio)));
    [|destruct (fltb (fabs (fsub q1 ratio)) (fabs (fsub q ratio))); [|by intros [= <-]]].
  - destruct (py_pop (test_set_x st)) as [[tx x]|] eqn:Ex; cbn; [|done].
    destruct (py_pop (test_set_y st)) as [[ty y]|] eqn:Ey; cbn; [|done].
    destruct (py_pop (test_set_patients st)) as [[tp p]|] eqn:Ep; cbn; [|done].
    destruct (py_pop (test_set_masks st)) as [[tm m]|] eqn:Em; cbn; [|done].
    intros [= <-]. apply py_pop_length in Ex, Ey, Ep, Em.
    split; cbn; unfold same_length4; rewrite ?length_app; cbn; lia.
  - destruct (py_pop (train_set_x st)) as [[tx x]|] eqn:Ex; cbn; [|done].
    destruct (py_pop (train_set_y st)) as [[ty y]|] eqn:Ey; cbn; [|done].
    destruct (py_pop (train_set_patients st)) as [[tp p]|] eqn:Ep; cbn; [|done].
    destruct (py_pop (train_set_masks st)) as [[tm m]|] eqn:Em; cbn; [|done].
    intros [= <-]. apply py_pop_length in Ex, Ey, Ep, Em.
    split; cbn; unfold same_length4; rewrite ?length_app; cbn; lia.
Qed.

Lemma split_init_balanced : split_balanced (@split_init voxel).
Proof. by split. Qed.
End split_balanced.

(** C4. The operations that transform a dataset keep its parallel lists
    parallel: whenever [trim_edges] returns a dataset, its four lists have
    the same length; whenever [generate_2D_dataset] returns, its four
    outputs have the same length; and in the train/test distribution of
    [improved_save_data] the four training lists have the same length and
    so have the four test lists, after any number of rounds of the first
    loop, through the second loop, through the final move of one element,
    and so at the end. *)
Theorem parallel_lengths_preserved :
  (∀ (voxel label : Type) (array_sort : list Z) (sort_method : string)
     (x_set : list (ndarray voxel)) (y_set : list label) (patients : list string)
     (masks : list (ndarray Z)) (trim_pos : float * float) (new : dataset),
     trim_edges array_sort sort_method x_set y_set patients masks trim_pos = Ok (Some new) →
     dataset_same_length new) ∧
  (∀ (voxel : Type) (voxel_max voxel_min : voxel → voxel → voxel)
     (voxel_normalize : voxel → voxel → voxel → voxel)
     samples labels patients masks slices_per_sample rotate_data normalize x y p m,
     generate_2D_dataset voxel_max voxel_min voxel_normalize samples labels patients masks
                         slices_per_sample rotate_data normalize = Ok (x, y, p, m) →
     same_length4 (batch_items x) y p (batch_items m)) ∧
  (∀ (voxel : Type) ratio medians_by_label results3 items (st : @split_state voxel),
     distribute_loop ratio medians_by_label results3 items split_init = Ok st →
     split_balanced st) ∧
  (∀ (voxel : Type) ratio x_set patients masks work (st st' : @split_state voxel),
     split_balanced st → median_loop ratio x_set patients masks work st = Ok st' →
     split_balanced st') ∧
  (∀ (voxel : Type) ratio (st st' : @split_state voxel),
     split_balanced st → rebalance ratio st = Ok st' → split_balanced st') ∧
  (∀ (voxel : Type) trim_data (x_set : list (ndarray voxel)) y_set patients masks
     medians_by_label results3 st,
     improved_save_data_split trim_data x_set y_set patients masks medians_by_label
                              results3 = Ok st →
     split_balanced st).
Proof.
  split_and!.
  - intros voxel label array_sort sort_method x_set y_set patients masks trim_pos new.
    unfold trim_edges. cbv zeta.
    destruct (trim_num_left _ _) as [num_left|]; cbn [mbind result_bind]; [|done].
    destruct (trim_num_right _ _ _) as [num_right|]; cbn [mbind result_bind]; [|done].
    repeat (match goal with
            | |- context [py_index ?l ?k ≫= _] =>
                destruct (py_index l k); cbn [mbind result_bind]; [|done]
            end).
    by apply trim_loop_same_length.
  - intros voxel. apply generate_2D_dataset_same_length.
  - intros voxel ratio medians_by_label results3 items st.
    apply distribute_loop_balanced, split_init_balanced.
  - intros voxel. apply median_loop_balanced.
  - intros voxel. apply rebalance_balanced.
  - intros voxel trim_data x_set y_set patients masks medians_by_label results3 st.
    unfold improved_save_data_split. cbv zeta.
    destruct (distribute_loop _ _ _ _ _) as [st1|] eqn:E1; cbn [mbind result_bind]; [|done].
    destruct (median_loop _ _ _ _ _ _) as [st2|] eqn:E2; cbn [mbind result_bind]; [|done].
    apply rebalance_balanced. eapply median_loop_balanced; [|exact E2].
    eapply distribute_loop_balanced; [|exact E1]. apply split_init_balanced.
Qed.

Lemma parallel_lengths_preserved_witness :
  let keys : list nat := [5; 3; 8; 1; 9; 2; 7; 4; 10; 6]%nat in
  let x_set := (λ d, NDArray 2 2 d (λ i j z, Z.of_nat (i + j + z))) <$> keys in
  let masks := (λ d, NDArray 2 2 d (λ i j z, if decide (z < 3)%nat then 1 else 0)) <$> keys in
  let y_set : list Z := [0; 1; 0; 1; 0; 0; 1; 0; 0; 1] in
  let patients := ["a"; "b"; "c"; "d"; "e"; "f"; "g"; "h"; "i"; "j"] in
  let trim_pos := (float_lit 1 10, float_lit 9 10) in
  ∃ new, trim_edges (Z.of_nat <$> keys) "slices" x_set y_set patients masks trim_pos
         = Ok (Some new) ∧
         new.1.2 = ["a"; "b"; "c"; "e"; "f"; "g"; "h"; "j"] ∧
         dataset_same_length new.
Proof.
  intros keys x_set masks y_set patients trim_pos.
  destruct (trim_edges (Z.of_nat <$> keys) "slices" x_set y_set patients masks trim_pos)
    as [[new|]|e] eqn:E; [|vm_compute in E; discriminate..].
  exists new. split_and!; [reflexivity| |].
  - vm_compute in E. by injection E as <-.
  - exact (proj1 parallel_lengths_preserved _ _ _ _ _ _ _ _ _ _ E).
Defined.

(** The distribution on ten volumes, 63/77 of which should go to the
    training set: eight are placed by the first loop, one by the second,
    and the final move takes the last test volume to the training set. *)
Example improved_save_data_split_example :
  let depths : list nat := [5; 3; 8; 1; 9; 2; 7; 4; 10; 6]%nat in
  let x_set := (λ d, NDArray 2 2 d (λ i j z, Z.of_nat (i + j + z))) <$> depths in
  let masks := (λ d, NDArray 2 2 d (λ i j z, if decide (z < 3)%nat then 1 else 0)) <$> depths in
  let y_set : list Z := [0; 1; 0; 1; 0; 0; 1; 0; 0; 1] in
  let patients := ["a"; "b"; "c"; "d"; "e"; "f"; "g"; "h"; "i"; "j"] in
  ∃ st, improved_save_data_split false x_set y_set patients masks
          [Qc_of_Z 5; Qc_of_Z 4] [3; 3; 3; 1; 3; 2; 3; 3; 3; 3] = Ok st ∧
        train_set_patients st = ["b"; "c"; "g"; "h"; "i"; "a"; "j"] ∧
        train_set_y st = [1; 0; 1; 0; 0; 0; 1] ∧
        test_set_patients st = ["e"] ∧
        split_balanced st.
Proof.
  intros depths x_set masks y_set patients.
  destruct (improved_save_data_split false x_set y_set patients masks
              [Qc_of_Z 5; Qc_of_Z 4] [3; 3; 3; 1; 3; 2; 3; 3; 3; 3])
    as [st|e] eqn:E; [|vm_compute in E; discriminate].
  exists st. vm_compute in E. injection E as <-.
  split_and!; try reflexivity. by repeat split.
Qed.

(** The distances of the final move are compared as doubles.  With 2 of 25
    volumes in the training set and the ratio [0.1], the distances
    [|3/25 - 0.1|] and [|2/25 - 0.1|] are both [1/50] as rational numbers,
    but the first is the smaller double: the last test volume moves to the
    training set. *)
Example rebalance_compares_doubles :
  let volume := NDArray 0 0 0 (λ _ _ _, ()) in
  let mask := NDArray 0 0 0 (λ _ _ _, 0) in
  let st := SplitState [[2; 0]; [0; 0]] [[23; 0]; [0; 0]]
              (replicate 23 volume) (replicate 2 volume) (replicate 23 0) (replicate 2 0)
              (replicate 23 "p") (replicate 2 "q") (replicate 23 mask) (replicate 2 mask)
              [[]; []] in
  (Qcabs (Qc_of_Z 3 / Qc_of_Z 25 - Qc_of_Z 1 / Qc_of_Z 10)
   = Qcabs (Qc_of_Z 2 / Qc_of_Z 25 - Qc_of_Z 1 / Qc_of_Z 10))%Qc ∧
  ∃ st', rebalance (float_lit 1 10) st = Ok st' ∧
         train_set_patients st' = ["q"; "q"; "p"] ∧
         length (test_set_x st') = 22%nat.
Proof.
  cbv zeta. split; [apply Qc_is_canon; reflexivity|].
  eexists. split; [by vm_compute|]. split; reflexivity.
Qed.

(** ** [generate_2D_dataset] *)

Lemma append_sample_rep {voxel} (shp : nat * nat * nat) ys ps (st : @locals voxel)
    image label mask_image patient r :
  locals_rep shp ys ps st → shape image = shp → shape mask_image = shp →
  ∃ st', append_sample st image label mask_image patient r = Ok st' ∧
         locals_rep shp (ys ++ [label]) (ps ++ [rotated_name patient r]) st'.
Proof.
  intros [Hlen Hrep] Himg Hmsk.
  destruct ys as [|y ys].
  - subst st. destruct ps; [|done].
    eexists. split; [reflexivity|]. split; [done|]. cbn.
    exists [image], [mask_image]. unfold np_array1. rewrite Himg, Hmsk.
    split_and!; [done..| |]; by apply Forall_singleton.
  - destruct Hrep as (xs & ms & -> & Hxs & Hms & Fxs & Fms).
    unfold append_sample, append_sample_try, np_concatenate1. cbn.
    rewrite !decide_True by done. cbn.
    eexists. split; [reflexivity|]. split.
    { cbn in *. rewrite !length_app. cbn. lia. }
    cbn. exists (xs ++ [image]), (ms ++ [mask_image]).
    split_and!; [done| | | |].
    + cbn in *. rewrite !length_app. cbn. lia.
    + cbn in *. rewrite !length_app. cbn. lia.
    + apply Forall_app. split; [done|by apply Forall_singleton].
    + apply Forall_app. split; [done|by apply Forall_singleton].
Qed.

Lemma elem_of_py_range (n k : Z) : k ∈ py_range n ↔ 0 ≤ k < n.
Proof.
  unfold py_range. rewrite list_elem_of_fmap. split.
  - intros (i & -> & Hi%elem_of_seq). lia.
  - intros Hk. exists (Z.to_nat k). split; [lia|]. apply elem_of_seq. lia.
Qed.

Lemma length_py_range (n : Z) : length (py_range n) = Z.to_nat n.
Proof. unfold py_range. by rewrite length_fmap, length_seq. Qed.

Lemma slice_axis2_shape {A} (m : ndarray A) (idx sps : Z) :
  0 ≤ idx → 0 ≤ sps → idx + sps ≤ Z.of_nat (shape2 m) →
  shape (slice_axis2 m idx (idx + sps)) = (shape0 m, shape1 m, Z.to_nat sps).
Proof.
  intros Hidx Hsps Hle. unfold shape, slice_axis2. cbn.
  rewrite !py_clamp_nonneg by lia. do 2 f_equal. lia.
Qed.

Lemma slices_loop_rep {voxel} (s : nat) (sps : Z) ys ps (st : @locals voxel)
    (vol : ndarray voxel) (msk : ndarray Z) label patient r :
  0 ≤ sps → sps ≤ Z.of_nat (shape2 vol) →
  shape0 vol = s → shape1 vol = s → shape msk = shape vol →
  locals_rep (s, s, Z.to_nat sps) ys ps st →
  ∃ st', slices_loop sps vol msk label patient r st = Ok st' ∧
         locals_rep (s, s, Z.to_nat sps)
                    (ys ++ replicate (samples_per_rotation sps vol) label)
                    (ps ++ replicate (samples_per_rotation sps vol) (rotated_name patient r))
                    st'.
Proof.
  intros Hsps Hd H0 H1 Hmsk Hrep. unfold slices_loop, samples_per_rotation.
  rewrite <-(length_py_range (Z.of_nat (shape2 vol) - sps + 1)).
  apply (foldl_result_invariant
           (λ st idx, append_sample st (slice_axis2 vol idx (idx + sps)) label
                                    (slice_axis2 msk idx (idx + sps)) patient r)
           (λ done_ st, locals_rep (s, s, Z.to_nat sps)
                          (ys ++ replicate (length done_) label)
                          (ps ++ replicate (length done_) (rotated_name patient r)) st)).
  - cbn. by rewrite !app_nil_r.
  - intros done_ idx st0 Hidx%elem_of_py_range Hst0.
    rewrite length_app. cbn [length]. rewrite Nat.add_1_r, !replicate_S_end, !app_assoc.
    injection Hmsk as M0 M1 M2.
    apply append_sample_rep; [done| |].
    + rewrite slice_axis2_shape by lia. by rewrite H0, H1.
    + rewrite slice_axis2_shape by lia. by rewrite M0, M1, H0, H1.
Qed.

Lemma np_rot90_shape {A} (m : ndarray A) (k : Z) :
  shape0 m = shape1 m →
  shape0 (np_rot90 m k) = shape0 m ∧ shape1 (np_rot90 m k) = shape0 m ∧
  shape2 (np_rot90 m k) = shape2 m.
Proof.
  intros Hsq. unfold np_rot90.
  induction (Z.to_nat (k `mod` 4)) as [|n (IH0 & IH1 & IH2)]; cbn; auto.
Qed.

Lemma rotations_loop_rep {voxel} (s : nat) (sps rotations : Z) ys ps (st : @locals voxel)
    (volume : ndarray voxel) (mask : ndarray Z) label patient :
  0 ≤ sps → sps ≤ Z.of_nat (shape2 volume) →
  shape0 volume = s → shape1 volume = s → shape mask = shape volume →
  locals_rep (s, s, Z.to_nat sps) ys ps st →
  ∃ st', rotations_loop sps rotations volume mask label patient st = Ok st' ∧
         locals_rep (s, s, Z.to_nat sps)
           (ys ++ replicate (Z.to_nat rotations * samples_per_rotation sps volume) label)
           (ps ++ (r ← py_range rotations;
                   replicate (samples_per_rotation sps volume) (rotated_name patient r)))
           st'.
Proof.
  intros Hsps Hd H0 H1 Hmsk Hrep. unfold rotations_loop.
  rewrite <-(length_py_range rotations).
  apply (foldl_result_invariant
           (λ st r, slices_loop sps (np_rot90 volume r) (np_rot90 mask r) label patient r st)
           (λ done_ st, locals_rep (s, s, Z.to_nat sps)
              (ys ++ replicate (length done_ * samples_per_rotation sps volume) label)
              (ps ++ (r ← done_;
                      replicate (samples_per_rotation sps volume) (rotated_name patient r)))
              st)).
  - cbn. by rewrite !app_nil_r.
  - intros done_ r st0 _ Hst0.
    injection Hmsk as M0 M1 M2.
    destruct (np_rot90_shape volume r) as (V0 & V1 & V2); [congruence|].
    destruct (np_rot90_shape mask r) as (W0 & W1 & W2); [congruence|].
    assert (shape (np_rot90 mask r) = shape (np_rot90 volume r)) as Hshape
      by (unfold shape; congruence).
    destruct (slices_loop_rep s sps _ _ st0 (np_rot90 volume r) (np_rot90 mask r)
                label patient r Hsps ltac:(lia) ltac:(congruence) ltac:(congruence)
                Hshape Hst0) as (st1 & E & Hst1).
    exists st1. split; [done|].
    assert (samples_per_rotation sps (np_rot90 volume r) = samples_per_rotation sps volume)
      as Hn by (unfold samples_per_rotation; by rewrite V2).
    rewrite Hn in Hst1.
    rewrite length_app, bind_app, bind_singleton. cbn [length].
    rewrite Nat.mul_add_distr_r, Nat.mul_1_l, replicate_add, !app_assoc.
    by rewrite <-!app_assoc in Hst1 |- *.
Qed.

Section normalize.
Context {voxel : Type}.
Variables (voxel_max voxel_min : voxel → voxel → voxel).
Variable (voxel_normalize : voxel → voxel → voxel → voxel).

Lemma normalize_volume_returns (normalize : bool) (volume : ndarray voxel) :
  (normalize = true → indices volume ≠ []) →
  ∃ v, normalize_volume voxel_max voxel_min voxel_normalize normalize volume = Ok v ∧
       shape v = shape volume.
Proof.
  intros Hne. unfold normalize_volume. destruct normalize; [|by exists volume].
  specialize (Hne eq_refl). unfold np_max, np_min, np_reduce.
  destruct (indices volume) as [|t ts]; [done|]. cbn.
  eexists. split; [reflexivity|done].
Qed.
End normalize.

Lemma indices_nonempty {A} (m : ndarray A) :
  (0 < shape0 m)%nat → (0 < shape1 m)%nat → (0 < shape2 m)%nat → indices m ≠ [].
Proof.
  intros H0 H1 H2 Hnil.
  assert ((0, 0, 0)%nat ∈ indices m) as Hin by (by apply elem_of_indices).
  rewrite Hnil in Hin. by apply not_elem_of_nil in Hin.
Qed.

Lemma string_app_empty_r (s : string) : s +:+ "" = s.
Proof.
  induction s as [|a s IH]; [done|].
  change (String a (s +:+ "") = String a s). by rewrite IH.
Qed.

Lemma rotated_name_angles (patient : string) :
  rotated_name patient 0 = patient ∧ rotated_name patient 1 = patient +:+ "90" ∧
  rotated_name patient 2 = patient +:+ "180" ∧ rotated_name patient 3 = patient +:+ "270".
Proof.
  split_and!; [|reflexivity..]. unfold rotated_name.
  rewrite decide_False by (intros Hne; by apply Hne). apply string_app_empty_r.
Qed.

Lemma length_expected_labels {A} sps rotations
    (items : list (ndarray A * Z * string * ndarray Z)) :
  length (expected_labels sps rotations items) = expected_count sps rotations items.
Proof.
  unfold expected_labels, expected_count.
  induction items as [|it items IH]; [done|].
  cbn. by rewrite length_app, length_replicate, IH.
Qed.

Section generate_2D_dataset_facts.
Context {voxel : Type}.
Variables (voxel_max voxel_min : voxel → voxel → voxel).
Variable (voxel_normalize : voxel → voxel → voxel → voxel).

Lemma volume_step_rep (s : nat) (sps rotations : Z) (normalize : bool) ys ps
    (st : @locals voxel) (it : ndarray voxel * Z * string * ndarray Z) :
  0 ≤ sps → sps ≤ Z.of_nat (shape2 it.1.1.1) →
  shape0 it.1.1.1 = s → shape1 it.1.1.1 = s → shape it.2 = shape it.1.1.1 →
  (normalize = true → indices it.1.1.1 ≠ []) →
  locals_rep (s, s, Z.to_nat sps) ys ps st →
  ∃ st', volume_step voxel_max voxel_min voxel_normalize sps rotations normalize st it
         = Ok st' ∧
         locals_rep (s, s, Z.to_nat sps)
           (ys ++ replicate (Z.to_nat rotations * samples_per_rotation sps it.1.1.1) it.1.1.2)
           (ps ++ (r ← py_range rotations;
                   replicate (samples_per_rotation sps it.1.1.1) (rotated_name it.1.2 r)))
           st'.
Proof.
  destruct it as [[[volume label] patient] mask]. cbn [fst snd].
  intros Hsps Hd H0 H1 Hmsk Hne Hrep. unfold volume_step.
  destruct (normalize_volume_returns voxel_max voxel_min voxel_normalize normalize volume Hne)
    as (v & -> & Hv).
  cbn [mbind result_bind]. injection Hv as V0 V1 V2.
  assert (shape mask = shape v) as Hshape by (rewrite Hmsk; unfold shape; congruence).
  destruct (rotations_loop_rep s sps rotations ys ps st v mask label patient Hsps
              ltac:(lia) ltac:(congruence) ltac:(congruence) Hshape Hrep)
    as (st' & E & Hst').
  exists st'. split; [done|].
  assert (samples_per_rotation sps v = samples_per_rotation sps volume) as Hn
    by (unfold samples_per_rotation; by rewrite V2).
  by rewrite Hn in Hst'.
Qed.

Lemma volumes_loop_rep (s : nat) (sps rotations : Z) (normalize : bool)
    (items : list (ndarray voxel * Z * string * ndarray Z)) :
  0 ≤ sps → sample_shapes s sps items →
  (normalize = true → Forall (λ it, indices it.1.1.1 ≠ []) items) →
  ∃ st, foldl (λ acc it, st ← acc;
                 volume_step voxel_max voxel_min voxel_normalize sps rotations normalize st it)
              (Ok (Locals None None None None)) items = Ok st ∧
        locals_rep (s, s, Z.to_nat sps) (expected_labels sps rotations items)
                   (expected_patients sps rotations items) st.
Proof.
  intros Hsps Hshapes Hne.
  apply (foldl_result_invariant
           (volume_step voxel_max voxel_min voxel_normalize sps rotations normalize)
           (λ done_ st, locals_rep (s, s, Z.to_nat sps) (expected_labels sps rotations done_)
                                   (expected_patients sps rotations done_) st)).
  - by split.
  - intros done_ it st Hit Hst.
    unfold sample_shapes in Hshapes. rewrite Forall_forall in Hshapes.
    destruct (Hshapes _ Hit) as (H0 & H1 & Hd & Hmsk).
    unfold expected_labels, expected_patients.
    rewrite !bind_app, !bind_singleton.
    apply volume_step_rep; try done.
    intros Hn. specialize (Hne Hn). rewrite Forall_forall in Hne. by apply Hne.
Qed.
End generate_2D_dataset_facts.

(** C6 as stated fails: the inputs have equal length and every volume is
    square in its first two axes and deep enough, but the two volumes
    differ in their extent, so the second [np.concatenate] raises
    [ValueError] and nothing is returned. *)
Lemma generate_2D_dataset_mixed_extents :
  let small := NDArray 1 1 3 (λ _ _ z, Z.of_nat z) in
  let large := NDArray 2 2 3 (λ i j z, Z.of_nat (i + j + z)) in
  Forall (λ v, shape0 v = shape1 v ∧ 3 ≤ Z.of_nat (shape2 v)) [small; large] ∧
  generate_2D_dataset Z.max Z.min (λ v minv maxv, v - minv) [small; large] [0; 1]
                      ["a"; "b"] [small; large] 3 false true
  = Raise ValueError.
Proof.
  split; [|reflexivity]. repeat constructor; cbn; lia.
Qed.

(** C6, amended. For non-empty inputs of equal length in which all volumes
    have the same extent [s] in their first two axes and a depth of at least
    [slices_per_sample ≥ 0], every mask has the shape of its volume, and,
    when the volumes are normalised, none of them is without voxels:
    [generate_2D_dataset] returns; the number of samples is the sum over the
    volumes of [d - slices_per_sample + 1], times 4 with [rotate_data];
    every sample and mask sample has the shape
    [(s, s, slices_per_sample)]; the labels are those of the source volumes,
    and the patient names those of the source volumes, unchanged for the
    first rotation and followed by 90, 180 and 270 for the others. *)
Theorem generate_2D_dataset_samples {voxel} (voxel_max voxel_min : voxel → voxel → voxel)
    (voxel_normalize : voxel → voxel → voxel → voxel)
    (samples : list (ndarray voxel)) (labels : list Z) (patients : list string)
    (masks : list (ndarray Z)) (slices_per_sample : Z) (rotate_data normalize : bool)
    (s : nat) :
  samples ≠ [] →
  length labels = length samples → length patients = length samples →
  length masks = length samples →
  0 ≤ slices_per_sample →
  sample_shapes s slices_per_sample (zip4 samples labels patients masks) →
  (normalize = true → Forall (λ v, indices v ≠ []) samples) →
  let rotations := if rotate_data then 4 else 1 in
  let items := zip4 samples labels patients masks in
  ∃ x y p m,
    generate_2D_dataset voxel_max voxel_min voxel_normalize samples labels patients masks
                        slices_per_sample rotate_data normalize = Ok (x, y, p, m) ∧
    length (batch_items x) = expected_count slices_per_sample rotations items ∧
    length (batch_items m) = expected_count slices_per_sample rotations items ∧
    Forall (λ a, shape a = (s, s, Z.to_nat slices_per_sample)) (batch_items x) ∧
    Forall (λ a, shape a = (s, s, Z.to_nat slices_per_sample)) (batch_items m) ∧
    y = expected_labels slices_per_sample rotations items ∧
    p = expected_patients slices_per_sample rotations items ∧
    ∀ patient,
      rotated_name patient 0 = patient ∧ rotated_name patient 1 = patient +:+ "90" ∧
      rotated_name patient 2 = patient +:+ "180" ∧
      rotated_name patient 3 = patient +:+ "270".
Proof.
  intros Hne Hlabels Hpatients Hmasks Hsps Hshapes Hnorm rotations items.
  destruct (volumes_loop_rep voxel_max voxel_min voxel_normalize s slices_per_sample
              rotations normalize items Hsps Hshapes) as (st & Eloop & Hlen & Hrep).
  { intros Hn. specialize (Hnorm Hn). rewrite Forall_forall in Hnorm.
    rewrite Forall_forall.
    intros [[[v l] p] m] Hin. cbn. apply Hnorm.
    unfold items, zip4 in Hin.
    apply elem_of_zip_l, elem_of_zip_l, elem_of_zip_l in Hin. done. }
  unfold generate_2D_dataset. fold rotations. fold items. rewrite Eloop.
  cbn [mbind result_bind].
  assert (expected_labels slices_per_sample rotations items ≠ []) as Hys.
  { destruct samples as [|v samples]; [done|].
    destruct labels as [|l labels]; [done|]. destruct patients as [|p patients]; [done|].
    destruct masks as [|m masks]; [done|].
    unfold items, zip4. cbn [zip zip_with].
    unfold sample_shapes, zip4 in Hshapes. cbn [zip zip_with] in Hshapes.
    apply Forall_cons in Hshapes as [(_ & _ & Hd & _) _]. cbn [fst snd] in Hd.
    unfold expected_labels. cbn [mbind list_bind fst snd].
    intros [Habs _]%app_eq_nil.
    apply (f_equal length) in Habs. rewrite length_replicate in Habs. cbn in Habs.
    unfold samples_per_rotation, rotations in Habs. destruct rotate_data; lia. }
  destruct (expected_labels slices_per_sample rotations items) as [|y0 ys] eqn:Ey; [done|].
  destruct Hrep as (xs & ms & -> & Hxs & Hms & Fxs & Fms). cbn.
  exists (Batch (s, s, Z.to_nat slices_per_sample) xs), (y0 :: ys),
         (expected_patients slices_per_sample rotations items),
         (Batch (s, s, Z.to_nat slices_per_sample) ms).
  pose proof (length_expected_labels slices_per_sample rotations items) as Hcount.
  rewrite Ey in Hcount.
  split_and!; [done|cbn; congruence|cbn; congruence|done|done|done|done|].
  apply rotated_name_angles.
Qed.

Lemma generate_2D_dataset_samples_witness :
  let samples := (λ d, NDArray 2 2 d (λ i j z, Z.of_nat (i + j + z))) <$> [3; 5]%nat in
  let masks := (λ d, NDArray 2 2 d (λ i j z, if decide (z < 3)%nat then 1 else 0))
               <$> [3; 5]%nat in
  ∃ x y p m,
    generate_2D_dataset Z.max Z.min (λ v minv maxv, v - minv) samples [0; 1] ["a"; "b"]
                        masks 3 true true = Ok (x, y, p, m) ∧
    length (batch_items x) = 16%nat ∧
    y = [0; 0; 0; 0; 1; 1; 1; 1; 1; 1; 1; 1; 1; 1; 1; 1] ∧
    p = ["a"; "a90"; "a180"; "a270"; "b"; "b"; "b"; "b90"; "b90"; "b90";
         "b180"; "b180"; "b180"; "b270"; "b270"; "b270"].
Proof.
  intros samples masks.
  destruct (generate_2D_dataset_samples Z.max Z.min (λ v minv maxv, v - minv) samples
              [0; 1] ["a"; "b"] masks 3 true true 2)
    as (x & y & p & m & E & Hx & _ & _ & _ & Hy & Hp & _).
  - done.
  - reflexivity.
  - reflexivity.
  - reflexivity.
  - lia.
  - repeat constructor; cbn; lia.
  - intros _. repeat constructor; by vm_compute.
  - exists x, y, p, m. split_and!; [exact E|exact Hx|exact Hy|exact Hp].
Defined.

(** ** [trim_edges] *)

Lemma py_index_fmap {A B} (f : A → B) (l : list A) (k : Z) :
  py_index (f <$> l) k
  = match py_index l k with Ok a => Ok (f a) | Raise e => Raise e end.
Proof.
  unfold py_index. rewrite length_fmap. cbv zeta.
  case_decide; [|done]. rewrite list_lookup_fmap.
  by destruct (l !! _).
Qed.

Lemma py_index_lookup {A} (l : list A) (k : Z) (a : A) :
  py_index l k = Ok a →
  ∃ i : nat, l !! i = Some a ∧
    Z.of_nat i = if decide (k < 0) then k + Z.of_nat (length l) else k.
Proof.
  unfold py_index. cbv zeta.
  destruct (decide (k < 0)) as [Hk|Hk]; cbv iota;
    (destruct (decide (0 ≤ _ < _)) as [Hr|]; [|done]);
    (destruct (l !! _) as [a'|] eqn:E; [|done]); intros [= ->];
    (eexists; split; [exact E|]).
  all: lia.
Qed.

Lemma py_index_nat {A} (l : list A) (i : nat) (a : A) :
  l !! i = Some a → py_index l (Z.of_nat i) = Ok a.
Proof.
  intros Hi. unfold py_index. cbv zeta. apply lookup_lt_Some in Hi as Hlt.
  destruct (decide (Z.of_nat i < 0)) as [|_]; [lia|].
  destruct (decide (0 ≤ Z.of_nat i < Z.of_nat (length l))) as [_|]; [|lia].
  by rewrite Nat2Z.id, Hi.
Qed.

Section sorted_keys.
Variable arr : list Z.
Local Abbreviation pairs := (merge_sort key_le (zip arr (seq 0 (length arr)))).

Lemma sorted_pairs_lookup (v : Z) (i : nat) : (v, i) ∈ pairs → arr !! i = Some v.
Proof.
  rewrite merge_sort_Permutation.
  intros [k Hk]%list_elem_of_lookup.
  apply lookup_zip_Some in Hk as [Hv Hi]. apply lookup_seq in Hi as [-> _]. done.
Qed.

(** [array_sort[arr.argsort()[k]]] is the entry [k] of the sorted keys. *)
Lemma argsort_value (k : Z) :
  (i ← py_index (argsort arr) k; py_index arr i) = py_index (sorted_keys arr) k.
Proof.
  unfold argsort, sorted_keys. rewrite !py_index_fmap.
  destruct (py_index pairs k) as [[v i]|e] eqn:E; [|done]. cbn.
  apply py_index_lookup in E as (j & Hj & _).
  apply py_index_nat, sorted_pairs_lookup, list_elem_of_lookup. by exists j.
Qed.

Lemma sorted_keys_Permutation : sorted_keys arr ≡ₚ arr.
Proof.
  unfold sorted_keys. rewrite merge_sort_Permutation.
  by rewrite fst_zip by (rewrite length_seq; lia).
Qed.

Lemma sorted_keys_length : length (sorted_keys arr) = length arr.
Proof. by rewrite sorted_keys_Permutation. Qed.

Lemma sorted_keys_sorted : StronglySorted Z.le (sorted_keys arr).
Proof.
  unfold sorted_keys. apply (StronglySorted_fmap _ key_le); [done|].
  apply StronglySorted_merge_sort; apply _.
Qed.
End sorted_keys.

Lemma sort_key_slices {voxel} (x : ndarray voxel) (m : ndarray Z) :
  sort_key "slices" x m = Z.of_nat (shape2 x).
Proof. reflexivity. Qed.

Lemma dataset_extend_snoc {voxel label} (acc : @dataset voxel label) items it :
  dataset_extend acc (items ++ [it])
  = dataset_append (dataset_extend acc items) it.1.1.1 it.1.1.2 it.1.2 it.2.
Proof. unfold dataset_extend. by rewrite foldl_snoc. Qed.

Lemma dataset_extend_length {voxel label} (acc : @dataset voxel label) items :
  length (dataset_extend acc items).1.1.1 = (length acc.1.1.1 + length items)%nat.
Proof.
  induction items as [|it items IH] using rev_ind; [cbn; lia|].
  rewrite dataset_extend_snoc, length_app. cbn [length].
  destruct (dataset_extend acc items) as [[[a b] c] d]. cbn in *.
  rewrite length_app. cbn. lia.
Qed.

Lemma dataset_extend_same_length {voxel label} (acc : @dataset voxel label) items :
  dataset_same_length acc → dataset_same_length (dataset_extend acc items).
Proof.
  intros Hacc. induction items as [|it items IH] using rev_ind; [done|].
  rewrite dataset_extend_snoc. by apply dataset_append_same_length.
Qed.

(** The loop of [trim_edges] keeps the elements whose key lies strictly
    between the two thresholds. *)
Lemma trim_loop_kept {voxel label} (sort_method : string) (val_left val_right : Z)
    (items : list (ndarray voxel * label * string * ndarray Z)) (acc : dataset) :
  sort_method ∈ ["slices"; "sizes"; "sizes_masks"] →
  Forall (λ it, shape0 it.1.1.1 ≠ 0%nat ∧ shape1 it.1.1.1 ≠ 0%nat) items →
  trim_loop sort_method val_left val_right items acc
  = Ok (Some (dataset_extend acc (kept sort_method val_left val_right items))).
Proof.
  intros Hmethod Hshape. revert acc.
  induction items as [|[[[x y] p] m] items IH]; intros acc; [done|].
  apply Forall_cons in Hshape as [[H0 H1] Hshape]. cbn [fst snd] in H0, H1.
  cbn [trim_loop]. unfold len_x00. rewrite !decide_False by done.
  cbn [mbind result_bind]. unfold kept. rewrite filter_cons. cbn [fst snd].
  fold (kept sort_method val_left val_right items).
  unfold sort_key.
  destruct (get_size_mask m) as [dimensions_mask size]. cbn [fst snd].
  assert (∀ v : Z,
    (if bool_decide (v > val_left) && bool_decide (v < val_right)
     then trim_loop sort_method val_left val_right items (dataset_append acc x y p m)
     else trim_loop sort_method val_left val_right items acc)
    = Ok (Some (dataset_extend acc
                  (if decide (val_left < v < val_right)
                   then (x, y, p, m) :: kept sort_method val_left val_right items
                   else kept sort_method val_left val_right items)))) as Hkeep.
  { intros v. destruct (decide (val_left < v < val_right)) as [Hv|Hv].
    - rewrite !bool_decide_eq_true_2 by lia. cbn. by rewrite IH.
    - rewrite IH by done.
      destruct (bool_decide (v > val_left)) eqn:E1; [|by rewrite IH].
      destruct (bool_decide (v < val_right)) eqn:E2; [|by rewrite IH].
      apply bool_decide_eq_true in E1, E2. lia. }
  destruct (String.eqb sort_method "slices") eqn:E1; [apply Hkeep|].
  destruct (String.eqb sort_method "sizes") eqn:E2; [apply Hkeep|].
  destruct (String.eqb sort_method "sizes_masks") eqn:E3; [apply Hkeep|].
  exfalso.
  repeat (apply elem_of_cons in Hmethod as [->|Hmethod];
          [vm_compute in E1, E2, E3; congruence|]).
  by apply not_elem_of_nil in Hmethod.
Qed.

(** ** Counting between two entries of a sorted list *)

Lemma StronglySorted_lookup_rel {A} (R : relation A) (l : list A) (i j : nat) (x y : A) :
  StronglySorted R l → (i < j)%nat → l !! i = Some x → l !! j = Some y → R x y.
Proof.
  intros Hsorted. revert i j. induction Hsorted as [|a l Hl IH Hall]; intros i j Hij Hi Hj.
  - done.
  - destruct j as [|j]; [lia|]. destruct i as [|i].
    + injection Hi as <-. rewrite Forall_lookup in Hall. by apply (Hall j).
    + apply (IH i j); [lia|done..].
Qed.

Lemma filter_all {A} (P : A → Prop) `{∀ x, Decision (P x)} (l : list A) :
  Forall P l → filter P l = l.
Proof.
  induction 1 as [|x l Hx Hl IH]; [done|]. rewrite filter_cons_True by done. by rewrite IH.
Qed.

Lemma filter_none {A} (P : A → Prop) `{∀ x, Decision (P x)} (l : list A) :
  Forall (λ x, ¬ P x) l → filter P l = [].
Proof.
  induction 1 as [|x l Hx Hl IH]; [done|]. by rewrite filter_cons_False.
Qed.

Lemma length_filter_between_fmap {A} (f : A → Z) (lo hi : Z) (l : list A) :
  length (filter (λ a, lo < f a < hi) l) = length (filter (λ k, lo < k < hi) (f <$> l)).
Proof.
  induction l as [|a l IH]; [done|]. cbn [fmap list_fmap].
  rewrite !filter_cons. destruct (decide (lo < f a < hi)); cbn; by rewrite IH.
Qed.

Lemma length_filter_all {A} (P : A → Prop) `{∀ x, Decision (P x)} (l : list A) :
  length (filter P l) = length l → Forall P l.
Proof.
  induction l as [|x l IH]; [by constructor|].
  rewrite filter_cons. destruct (decide (P x)) as [Hx|Hx]; cbn [length].
  - intros [= Hl]. constructor; [done|by apply IH].
  - intros Hl. pose proof (length_filter P l). lia.
Qed.

Lemma length_filter_none {A} (P : A → Prop) `{∀ x, Decision (P x)} (l : list A) :
  length (filter P l) = 0%nat → Forall (λ x, ¬ P x) l.
Proof.
  induction l as [|x l IH]; [by constructor|].
  rewrite filter_cons. destruct (decide (P x)) as [Hx|Hx]; cbn [length]; [done|].
  intros Hl. constructor; [done|by apply IH].
Qed.

(** In a sorted list, the entries strictly between the entries at [a] and
    at [b] are among those at the indices between; they are all of them
    exactly when no entry outside the first [a + 1] is at most the entry at
    [a] and no entry outside the last [length l - b] is at least the entry
    at [b]. *)
Lemma length_filter_between_sorted (l : list Z) (a b : nat) (lo hi : Z) :
  StronglySorted Z.le l → (a < b)%nat →
  l !! a = Some lo → l !! b = Some hi →
  (length (filter (λ k, (lo < k < hi)%Z) l) ≤ b - a - 1)%nat ∧
  (length (filter (λ k, lo < k < hi) l) = (b - a - 1)%nat ↔
   b = S a ∨
   (length (filter (λ k, k ≤ lo) l) = S a ∧
    length (filter (λ k, hi ≤ k) l) = (length l - b)%nat)).
Proof.
  intros Hsorted Hab Ha Hb.
  pose proof (lookup_lt_Some _ _ _ Hb) as Hlen.
  set (mid := take (b - a - 1) (drop (S a) l)).
  assert (l = take (S a) l ++ mid ++ drop b l) as Hl.
  { unfold mid. rewrite <-(take_drop (S a) l) at 1. f_equal.
    rewrite <-(take_drop (b - a - 1) (drop (S a) l)) at 1. f_equal.
    rewrite drop_drop. f_equal. lia. }
  assert (length mid = (b - a - 1)%nat) as Hmid.
  { unfold mid. rewrite length_take, length_drop. lia. }
  assert (Forall (λ k, k ≤ lo) (take (S a) l)) as Hleft.
  { apply Forall_lookup. intros i x Hi. apply lookup_take_Some in Hi as [Hi Hlt].
    destruct (decide (i = a)) as [->|]; [assert (x = lo) by congruence; lia|].
    apply (StronglySorted_lookup_rel Z.le l i a x lo); [done|lia|done..]. }
  assert (Forall (λ k, hi ≤ k) (drop b l)) as Hright.
  { apply Forall_lookup. intros i x Hi. rewrite lookup_drop in Hi.
    destruct i as [|i]; [rewrite Nat.add_0_r in Hi; assert (x = hi) by congruence; lia|].
    apply (StronglySorted_lookup_rel Z.le l b (b + S i) hi x); [done|lia|done..]. }
  assert (Forall (λ k, lo ≤ k ≤ hi) mid) as Hbetween.
  { apply Forall_lookup. intros i x Hi. unfold mid in Hi.
    apply lookup_take_Some in Hi as [Hi Hlt]. rewrite lookup_drop in Hi. split.
    - apply (StronglySorted_lookup_rel Z.le l a (S a + i) lo x); [done|lia|done..].
    - apply (StronglySorted_lookup_rel Z.le l (S a + i) b x hi); [done|lia|done..]. }
  assert (length (filter (λ k, lo < k < hi) l) = length (filter (λ k, lo < k < hi) mid))
    as Hcount.
  { rewrite Hl at 1. rewrite !filter_app, !length_app.
    rewrite (filter_none _ (take (S a) l)), (filter_none _ (drop b l)); [cbn; lia| |].
    - eapply Forall_impl; [exact Hright|]. cbn. lia.
    - eapply Forall_impl; [exact Hleft|]. cbn. lia. }
  assert (length (filter (λ k, k ≤ lo) l)
          = (S a + length (filter (λ k, (k ≤ lo)%Z) mid)
             + length (filter (λ k, (k ≤ lo)%Z) (drop b l)))%nat) as HcountL.
  { rewrite Hl at 1. rewrite !filter_app, !length_app.
    rewrite (filter_all _ (take (S a) l)) by done. rewrite length_take. lia. }
  assert (length (filter (λ k, hi ≤ k) l)
          = (length (filter (λ k, (hi ≤ k)%Z) (take (S a) l))
             + length (filter (λ k, (hi ≤ k)%Z) mid) + (length l - b))%nat) as HcountR.
  { rewrite Hl at 1. rewrite !filter_app, !length_app.
    rewrite (filter_all _ (drop b l)) by done. rewrite length_drop. lia. }
  split.
  { rewrite Hcount, <-Hmid. apply length_filter. }
  rewrite Hcount, <-Hmid. split.
  - intros Hall. destruct (decide (b = S a)) as [|Hne]; [by left|right].
    apply length_filter_all in Hall.
    assert (lo < hi) as Hlohi.
    { destruct mid as [|m mid'] eqn:Em; [cbn in Hmid; lia|].
      apply Forall_cons in Hall as [Hm _]. lia. }
    rewrite HcountL, HcountR.
    rewrite (filter_none _ mid), (filter_none _ (drop b l)), (filter_none _ mid),
      (filter_none _ (take (S a) l)); [cbn; lia|..].
    + eapply Forall_impl; [exact Hleft|]. cbn. lia.
    + eapply Forall_impl; [exact Hall|]. cbn. lia.
    + eapply Forall_impl; [exact Hright|]. cbn. lia.
    + eapply Forall_impl; [exact Hall|]. cbn. lia.
  - intros [->|[HL HR]].
    + assert (mid = []) as -> by (apply length_zero_iff_nil; lia). reflexivity.
    + rewrite HcountL in HL. rewrite HcountR in HR.
      assert (length (filter (λ k, k ≤ lo) mid) = 0%nat) as HL0 by lia.
      assert (length (filter (λ k, hi ≤ k) mid) = 0%nat) as HR0 by lia.
      apply length_filter_none in HL0, HR0.
      rewrite filter_all; [done|].
      apply Forall_lookup. intros i x Hi.
      rewrite Forall_lookup in HL0, HR0.
      specialize (HL0 i x Hi). specialize (HR0 i x Hi). cbn in HL0, HR0. lia.
Qed.

Lemma result_bind_assoc {A B C} (m : result A) (f : A → result B) (g : B → result C) :
  (m ≫= f) ≫= g = m ≫= (λ a, f a ≫= g).
Proof. by destruct m. Qed.

Lemma py_index_from_end {A} (l : list A) (k : Z) (a : A) :
  1 ≤ k ≤ Z.of_nat (length l) → l !! Z.to_nat (Z.of_nat (length l) - k) = Some a →
  py_index l (- k) = Ok a.
Proof.
  intros Hk Ha. unfold py_index. cbv zeta.
  destruct (decide (- k < 0)) as [_|]; [|lia].
  destruct (decide (0 ≤ - k + Z.of_nat (length l) < Z.of_nat (length l))) as [_|]; [|lia].
  replace (- k + Z.of_nat (length l)) with (Z.of_nat (length l) - k) by lia.
  by rewrite Ha.
Qed.

(** C2 as stated fails: ten volumes of 5 slices each, trimmed by slices
    with the default percentiles, should leave [10 - 1 - 1 = 8] elements,
    but the thresholds are the key values 5 and 5 and nothing lies strictly
    between them.  It also fails, with distinct keys, when one of the two
    counts is 0, because the index [num_left - 1 = -1] or [-num_right = 0]
    then reads the other end of the sorted keys: four volumes with the
    default percentiles should leave [4 - 0 - 1 = 3] elements, and ten
    volumes with the percentiles [(0.3, 1.0)] should leave [10 - 3 - 0 = 7];
    both leave none. *)
Lemma trim_edges_ties :
  let x_set := replicate 10 (NDArray 2 2 5 (λ i j z, Z.of_nat (i + j + z))) in
  let masks := replicate 10 (NDArray 2 2 5 (λ i j z, if decide (z < 3)%nat then 1 else 0)) in
  let y_set : list Z := [0; 1; 0; 1; 0; 0; 1; 0; 0; 1] in
  let patients := ["a"; "b"; "c"; "d"; "e"; "f"; "g"; "h"; "i"; "j"] in
  let trim_pos := (float_lit 1 10, float_lit 9 10) in
  let array_sort := (λ it, sort_key "slices" it.1.1.1 it.2) <$> zip4 x_set y_set patients masks in
  let depths := [5; 3; 8; 1; 9; 2; 7; 4; 10; 6]%nat in
  let volumes := λ n, (λ d, NDArray 2 2 d (λ i j z, Z.of_nat (i + j + z))) <$> take n depths in
  let ones := λ n, (λ d, NDArray 2 2 d (λ i j z, 1)) <$> take n depths in
  (array_sort = replicate 10 5 ∧
   trim_num_left 10 trim_pos = Ok 1 ∧
   trim_num_right 10 trim_pos 1 = Ok 1 ∧
   Z.of_nat (length array_sort) - 1 - 1 = 8 ∧
   trim_edges array_sort "slices" x_set y_set patients masks trim_pos
   = Ok (Some ([], [], [], []))) ∧
  (trim_num_left 4 trim_pos = Ok 0 ∧
   trim_num_right 4 trim_pos 0 = Ok 1 ∧
   trim_edges (Z.of_nat <$> take 4 depths) "slices" (volumes 4%nat) (take 4 y_set)
              (take 4 patients) (ones 4%nat) trim_pos
   = Ok (Some ([], [], [], []))) ∧
  (trim_num_left 10 (float_lit 3 10, float_lit 1 1) = Ok 3 ∧
   trim_num_right 10 (float_lit 3 10, float_lit 1 1) 3 = Ok 0 ∧
   trim_edges (Z.of_nat <$> depths) "slices" (volumes 10%nat) y_set patients (ones 10%nat)
              (float_lit 3 10, float_lit 1 1)
   = Ok (Some ([], [], [], []))).
Proof. split_and!; reflexivity. Qed.

(** C2, amended. For equal-length inputs whose volumes have at least one
    row and one column, with [sort_method] one of the three methods and
    [array_sort] holding the sort key of every element, let
    [num_left = int(np.round(n * p_lo))] and
    [num_right = int(np.round(n * (1 - p_hi + p_lo)) - num_left)] be the two
    counts as the code computes them on doubles.  When at least one element
    is to be cut at each end ([num_left ≥ 1], [num_right ≥ 1]) and
    [num_left + num_right ≤ n], [trim_edges] returns the elements whose key
    lies strictly between the [num_left]-th smallest and the [num_right]-th
    largest key, four lists of the same length with at most
    [n - num_left - num_right] elements; it returns exactly that many if
    and only if nothing is to stay ([num_left + num_right = n]) or the
    thresholds are not tied with a key that should stay (exactly [num_left]
    keys are at most the first threshold, exactly [num_right] at least the
    second). *)
Theorem trim_edges_size {voxel label} (array_sort : list Z) (sort_method : string)
    (x_set : list (ndarray voxel)) (y_set : list label) (patients : list string)
    (masks : list (ndarray Z)) (trim_pos : float * float) (num_left num_right : Z) :
  let n := length array_sort in
  let items := zip4 x_set y_set patients masks in
  sort_method ∈ ["slices"; "sizes"; "sizes_masks"] →
  length x_set = n → length y_set = n → length patients = n → length masks = n →
  Forall (λ x, shape0 x ≠ 0%nat ∧ shape1 x ≠ 0%nat) x_set →
  array_sort = (λ it, sort_key sort_method it.1.1.1 it.2) <$> items →
  trim_num_left n trim_pos = Ok num_left →
  trim_num_right n trim_pos num_left = Ok num_right →
  1 ≤ num_left → 1 ≤ num_right → num_left + num_right ≤ Z.of_nat n →
  ∃ val_left val_right new,
    sorted_keys array_sort !! Z.to_nat (num_left - 1) = Some val_left ∧
    sorted_keys array_sort !! Z.to_nat (Z.of_nat n - num_right) = Some val_right ∧
    trim_edges array_sort sort_method x_set y_set patients masks trim_pos = Ok (Some new) ∧
    new = dataset_extend ([], [], [], []) (kept sort_method val_left val_right items) ∧
    dataset_same_length new ∧
    Z.of_nat (length new.1.1.1) ≤ Z.of_nat n - num_left - num_right ∧
    (Z.of_nat (length new.1.1.1) = Z.of_nat n - num_left - num_right ↔
     num_left + num_right = Z.of_nat n ∨
     thresholds_untied array_sort val_left val_right num_left num_right).
Proof.
  intros n items Hmethod Hx Hy Hp Hm Hshape Hkeys Enl Enr Hl Hr Hlr.
  pose proof (sorted_keys_length array_sort) as Hlen. fold n in Hlen.
  destruct (lookup_lt_is_Some_2 (sorted_keys array_sort) (Z.to_nat (num_left - 1)))
    as [val_left Hvl]; [lia|].
  destruct (lookup_lt_is_Some_2 (sorted_keys array_sort) (Z.to_nat (Z.of_nat n - num_right)))
    as [val_right Hvr]; [lia|].
  exists val_left, val_right,
    (dataset_extend ([], [], [], []) (kept sort_method val_left val_right items)).
  assert (trim_edges array_sort sort_method x_set y_set patients masks trim_pos
          = Ok (Some (dataset_extend ([], [], [], [])
                                     (kept sort_method val_left val_right items)))) as Etrim.
  { unfold trim_edges. cbv zeta. fold n. rewrite Enl. cbn [mbind result_bind].
    rewrite Enr. cbn [mbind result_bind]. fold items.
    rewrite <-result_bind_assoc, argsort_value.
    rewrite <-(Z2Nat.id (num_left - 1)) by lia.
    rewrite (py_index_nat _ _ _ Hvl). cbn [mbind result_bind].
    rewrite <-result_bind_assoc, argsort_value.
    rewrite (py_index_from_end _ num_right val_right) by (rewrite ?Hlen; (lia || done)).
    cbn [mbind result_bind].
    apply trim_loop_kept; [done|].
    apply Forall_lookup. intros i [[[x y] p] m] Hi. cbn [fst snd].
    unfold items, zip4 in Hi.
    apply lookup_zip_Some in Hi as [Hi _]. apply lookup_zip_Some in Hi as [Hi _].
    apply lookup_zip_Some in Hi as [Hi _].
    rewrite Forall_lookup in Hshape. by apply (Hshape i). }
  split_and!; [done|done|done|done|by apply dataset_extend_same_length|..].
  all: rewrite dataset_extend_length; cbn [fst length]; rewrite Nat.add_0_l.
  all: unfold kept, thresholds_untied.
  all: assert (length (filter (λ it, val_left < sort_key sort_method it.1.1.1 it.2 < val_right)
                              items)
               = length (filter (λ k, val_left < k < val_right) array_sort)) as ->
         by (rewrite Hkeys;
             apply (length_filter_between_fmap (λ it, sort_key sort_method it.1.1.1 it.2))).
  all: rewrite <-(sorted_keys_Permutation array_sort).
  all: destruct (length_filter_between_sorted (sorted_keys array_sort)
                   (Z.to_nat (num_left - 1)) (Z.to_nat (Z.of_nat n - num_right))
                   val_left val_right (sorted_keys_sorted array_sort) ltac:(lia) Hvl Hvr)
         as [Hle Hiff].
  - lia.
  - rewrite Hlen in Hiff. split.
    + intros Hcount. destruct (proj1 Hiff ltac:(lia)) as [Hb|[HL HR]]; [left; lia|right].
      split; lia.
    + intros [Hn|[HL HR]].
      * rewrite (proj2 Hiff); [lia|]. left. lia.
      * rewrite (proj2 Hiff); [lia|]. right. split; lia.
Qed.

Lemma trim_edges_size_witness :
  let keys : list nat :=
    [5; 3; 8; 1; 9; 2; 7; 4; 10; 6; 13; 11; 15; 13; 25; 14; 17; 16; 19; 18; 21; 20; 23; 22;
     24]%nat in
  let x_set := (λ d, NDArray 1 1 d (λ i j z, Z.of_nat (i + j + z))) <$> keys in
  let masks := (λ d, NDArray 1 1 d (λ i j z, if decide (z < 3)%nat then 1 else 0)) <$> keys in
  let y_set : list Z := replicate 25 0 in
  let patients := replicate 25 "p" in
  let trim_pos := (float_lit 11 100, float_lit 89 100) in
  trim_num_left 25 trim_pos = Ok 3 ∧ trim_num_right 25 trim_pos 3 = Ok 2 ∧
  ∃ new, trim_edges (Z.of_nat <$> keys) "slices" x_set y_set patients masks trim_pos
         = Ok (Some new) ∧
         Z.of_nat (length new.1.1.1) = 20.
Proof.
  intros keys x_set masks y_set patients trim_pos.
  split; [reflexivity|]. split; [reflexivity|].
  destruct (trim_edges_size (Z.of_nat <$> keys) "slices" x_set y_set patients masks trim_pos
              3 2)
    as (val_left & val_right & new & Hvl & Hvr & E & _ & _ & _ & Hcount).
  - set_solver.
  - reflexivity.
  - reflexivity.
  - reflexivity.
  - reflexivity.
  - apply Forall_forall. intros x [d [-> _]]%list_elem_of_fmap. cbn. lia.
  - reflexivity.
  - reflexivity.
  - reflexivity.
  - lia.
  - lia.
  - by vm_compute.
  - exists new. split; [exact E|].
    vm_compute in Hvl, Hvr. injection Hvl as <-. injection Hvr as <-.
    rewrite (proj2 Hcount); [reflexivity|]. right.
    split; by vm_compute.
Defined.

(** ** The number of folds of the patient-level cross validation *)

Lemma patient_changes_count_snoc (prev : string) (l : list string) (p : string) :
  patient_changes_count prev (l ++ [p]) =
  patient_changes_count prev l + (if decide (p ≠ default prev (last l)) then 1 else 0).
Proof.
  revert prev. induction l as [|q l IH]; intros prev.
  - cbn. lia.
  - cbn [app patient_changes_count]. rewrite IH.
    replace (default prev (last (q :: l))) with (default q (last l)); [lia|].
    destruct l as [|q' l]; [done|]. rewrite last_cons_cons. 
    by destruct (last (q' :: l)) eqn:E; [|apply last_None in E].
Qed.

Lemma patient_changes_count_nonneg (prev : string) (l : list string) :
  0 ≤ patient_changes_count prev l.
Proof.
  revert prev. induction l as [|q l IH]; intros prev; cbn; [lia|].
  specialize (IH q). destruct (decide _); lia.
Qed.

(** The counter and the number of boundaries after the patients [l]. *)
Lemma folds_loop_count (nppf : Z) (l : list string) :
  1 ≤ nppf →
  let st := foldl (folds_step nppf) (FoldsState "" 0 [0]) (enumerate l) in
  let r := patient_changes_count "" l in
  fs_prev_patient st = default "" (last l) ∧
  (r = 0 → fs_patient_num st = 0 ∧ length (fs_folds_indices st) = 1%nat) ∧
  (1 ≤ r → fs_patient_num st = (r - 1) `mod` nppf + 1 ∧
           Z.of_nat (length (fs_folds_indices st)) = 1 + (r - 1) `div` nppf).
Proof.
  intros Hn. cbv zeta.
  induction l as [|p l IH] using rev_ind.
  - cbn. split_and!; [done|done|lia].
  - rewrite enumerate_snoc, foldl_snoc, patient_changes_count_snoc.
    pose proof (patient_changes_count_nonneg "" l) as Hr.
    set (r := patient_changes_count "" l) in *.
    set (st := foldl _ _ _) in *.
    destruct IH as (Hprev & H0 & H1).
    rewrite last_snoc. cbn [default].
    unfold folds_step. rewrite Hprev.
    destruct (decide (p ≠ default "" (last l))) as [Hp|Hp].
    + destruct (decide (r = 0)) as [Hr0|Hr0].
      * destruct (H0 Hr0) as [Hpn Hlen]. rewrite Hpn, Hr0.
        destruct (decide (0 + 1 > nppf)) as [|_]; [lia|]. cbn.
        split_and!; [done|intros ?; lia|]. intros _.
        rewrite Hlen. change (0 + 1 - 1) with 0.
        rewrite Z.mod_0_l, Z.div_0_l by lia. lia.
      * destruct (H1 ltac:(lia)) as [Hpn Hlen]. rewrite Hpn.
        replace (r + 1 - 1) with (r - 1 + 1) by lia.
        pose proof (Z.mod_pos_bound (r - 1) nppf ltac:(lia)) as Hm.
        pose proof (Z.div_mod (r - 1) nppf ltac:(lia)) as Hdm.
        destruct (decide ((r - 1) `mod` nppf + 1 + 1 > nppf)) as [Hgt|Hle]; cbn.
        -- assert ((r - 1) `mod` nppf = nppf - 1) as Hmod by lia.
           assert (r - 1 + 1 = nppf * ((r - 1) `div` nppf + 1) + 0) as Heq by lia.
           split_and!; [done|intros ?; lia|]. intros _.
           rewrite length_app. cbn [length].
           rewrite <-(Z.mod_unique_pos _ nppf _ 0 ltac:(lia) Heq).
           rewrite <-(Z.div_unique_pos _ nppf _ 0 ltac:(lia) Heq). lia.
        -- assert (r - 1 + 1 = nppf * ((r - 1) `div` nppf) + ((r - 1) `mod` nppf + 1))
             as Heq by lia.
           split_and!; [done|intros ?; lia|]. intros _.
           rewrite <-(Z.mod_unique_pos _ nppf _ ((r - 1) `mod` nppf + 1) ltac:(lia) Heq).
           rewrite <-(Z.div_unique_pos _ nppf _ ((r - 1) `mod` nppf + 1) ltac:(lia) Heq).
           lia.
    + apply dec_stable in Hp. rewrite Z.add_0_r. by rewrite Hp.
Qed.

Lemma Qc_of_Z_div_1 (c : Z) : Qc_of_Z c = (Qc_of_Z c / Qc_of_Z 1)%Qc.
Proof.
  replace (Qc_of_Z 1) with 1%Qc by (by apply Qc_is_canon).
  unfold Qcdiv. replace (/ 1)%Qc with 1%Qc by (by apply Qc_is_canon).
  by rewrite Qcmult_1_r.
Qed.

(** [np_ceil] of a quotient of integers is the ceiling of the division. *)
Lemma np_ceil_div (a b : Z) :
  0 < b →
  let c := np_ceil (Qc_of_Z a / Qc_of_Z b)%Qc in
  b * (c - 1) < a ≤ b * c.
Proof.
  intros Hb. cbv zeta. unfold np_ceil.
  set (q := (Qc_of_Z a / Qc_of_Z b)%Qc).
  pose proof (Qle_ceiling q) as Hle. pose proof (Qceiling_lt q) as Hlt.
  set (c := Qceiling q) in *.
  change (q ≤ Qc_of_Z c)%Qc in Hle. change (Qc_of_Z (c - 1) < q)%Qc in Hlt.
  rewrite (Qc_of_Z_div_1 c) in Hle. rewrite (Qc_of_Z_div_1 (c - 1)) in Hlt.
  unfold q in Hle, Hlt.
  rewrite Qcdiv_le_cross in Hle by lia. rewrite Qcdiv_lt_cross in Hlt by lia.
  lia.
Qed.

Lemma py_index_IndexError {A} (l : list A) (k : Z) :
  Z.of_nat (length l) ≤ k → py_index l k = Raise IndexError.
Proof.
  intros Hk. unfold py_index. cbv zeta.
  destruct (decide (k < 0)) as [|_]; [lia|].
  destruct (decide (0 ≤ k < Z.of_nat (length l))) as [|_]; [lia|]. done.
Qed.

(** X1. In the patient-level cross validation, [folds_indices] has
    [2 + (r - 1) div n] entries, where [r] counts the positions of
    [patients_whole] at which the patient changes (the first non-empty
    patient included) and [n = ceil(num_patients / 11)] is the number of
    patients per fold: fold [i] is computed for [i] up to [(r - 1) div n],
    and a later fold raises [IndexError] when it reads its bounds.  So the
    eleven folds of the loop all exist only if [(r - 1) div n = 10]. *)
Theorem patient_level_fold_count (patients_whole : list string) (num_patients : Z) :
  1 ≤ num_patients →
  let r := patient_changes_count "" patients_whole in
  let n := np_ceil (Qc_of_Z num_patients / Qc_of_Z 11)%Qc in
  let last_fold := Z.max 0 ((r - 1) `div` n) in
  Z.of_nat (length (patient_folds_indices patients_whole num_patients)) = 2 + last_fold ∧
  (r ≤ num_patients → last_fold ≤ 10) ∧
  ∀ (X Y : Type) (x_whole : list X) (y_whole : list Y) (i : Z), 0 ≤ i →
    (i ≤ last_fold →
       ∃ f, cv_split x_whole y_whole patients_whole num_patients true i = Ok f) ∧
    (last_fold < i →
       cv_split x_whole y_whole patients_whole num_patients true i = Raise IndexError).
Proof.
  intros Hnum. cbv zeta.
  pose proof (np_ceil_div num_patients 11 ltac:(lia)) as Hceil. cbv zeta in Hceil.
  set (n := np_ceil _) in *.
  assert (1 ≤ n) as Hn by lia.
  pose proof (patient_changes_count_nonneg "" patients_whole) as Hr.
  set (r := patient_changes_count "" patients_whole) in *.
  set (last_fold := Z.max 0 ((r - 1) `div` n)).
  assert (Z.of_nat (length (patient_folds_indices patients_whole num_patients))
          = 2 + last_fold) as Hlen.
  { unfold patient_folds_indices. cbv zeta. fold n.
    destruct (folds_loop_count n patients_whole Hn) as (_ & H0 & H1).
    fold r in H0, H1. rewrite length_app. cbn [length].
    destruct (decide (r = 0)) as [Hr0|Hr0].
    - destruct (H0 Hr0) as [_ ->]. unfold last_fold. rewrite Hr0.
      replace ((0 - 1) `div` n) with (-1); [lia|].
      apply (Z.div_unique_pos (0 - 1) n (-1) (n - 1)); lia.
    - destruct (H1 ltac:(lia)) as [_ Hl].
      pose proof (Z.div_pos (r - 1) n ltac:(lia) ltac:(lia)). lia. }
  split; [exact Hlen|]. split.
  - intros Hrn. unfold last_fold.
    assert ((r - 1) `div` n < 11); [|lia].
    apply Z.div_lt_upper_bound; lia.
  - intros X Y x_whole y_whole i Hi.
    unfold cv_split, cv_bounds. cbn [negb].
    set (folds_indices := patient_folds_indices patients_whole num_patients) in *.
    split.
    + intros Hle.
      destruct (py_index_Ok folds_indices i ltac:(lia)) as (idx0 & E0 & _).
      destruct (py_index_Ok folds_indices (i + 1) ltac:(lia)) as (idx1 & E1 & _).
      rewrite E0. cbn [mbind result_bind]. rewrite E1. cbn. eauto.
    + intros Hlt.
      destruct (decide (i = last_fold + 1)) as [->|Hne].
      * destruct (py_index_Ok folds_indices (last_fold + 1) ltac:(lia)) as (idx0 & E0 & _).
        rewrite E0. cbn [mbind result_bind].
        by rewrite (py_index_IndexError folds_indices (last_fold + 1 + 1)) by lia.
      * rewrite (py_index_IndexError folds_indices i) by lia. reflexivity.
Qed.

Lemma patient_level_fold_count_witness :
  let patients := ["a"; "b"; "c"; "d"; "e"; "f"; "g"; "h"; "i"; "j"; "k"; "l"]%string in
  Z.of_nat (length (patient_folds_indices patients 12)) = 7 ∧
  cv_split (replicate 12 0) (replicate 12 1) patients 12 true 6 = Raise IndexError.
Proof.
  cbv zeta.
  destruct (patient_level_fold_count
              ["a"; "b"; "c"; "d"; "e"; "f"; "g"; "h"; "i"; "j"; "k"; "l"]%string 12
              ltac:(lia)) as (Hlen & _ & Hfold).
  split; [exact Hlen|].
  apply (Hfold Z Z (replicate 12 0) (replicate 12 1) 6 ltac:(lia)).
  by vm_compute.
Defined.

(** ** [trim_edges]: the thresholds and what is kept, in general *)

(** The two thresholds are entries of the sorted keys. *)
Lemma trim_edges_thresholds {voxel label} (array_sort : list Z) (sort_method : string)
    (x_set : list (ndarray voxel)) (y_set : list label) (patients : list string)
    (masks : list (ndarray Z)) (trim_pos : float * float) :
  trim_edges array_sort sort_method x_set y_set patients masks trim_pos
  = (num_left ← trim_num_left (length array_sort) trim_pos;
     num_right ← trim_num_right (length array_sort) trim_pos num_left;
     val_left ← py_index (sorted_keys array_sort) (num_left - 1);
     val_right ← py_index (sorted_keys array_sort) (- num_right);
     trim_loop sort_method val_left val_right (zip4 x_set y_set patients masks)
               ([], [], [], [])).
Proof.
  unfold trim_edges. cbv zeta.
  destruct (trim_num_left _ _) as [num_left|e]; [|done]. cbn [mbind result_bind].
  destruct (trim_num_right _ _ _) as [num_right|e]; [|done]. cbn [mbind result_bind].
  rewrite <-result_bind_assoc, argsort_value.
  destruct (py_index (sorted_keys array_sort) _) as [val_left|e]; [|done].
  cbn [mbind result_bind].
  by rewrite <-result_bind_assoc, argsort_value.
Qed.

Lemma sorted_keys_proper (a b : list Z) : a ≡ₚ b → sorted_keys a = sorted_keys b.
Proof.
  intros Hab. apply (StronglySorted_unique Z.le); [apply sorted_keys_sorted..|].
  by rewrite !sorted_keys_Permutation.
Qed.

Lemma py_index_elem_of {A} (l : list A) (k : Z) (a : A) : py_index l k = Ok a → a ∈ l.
Proof. intros (i & Hi & _)%py_index_lookup. by eapply list_elem_of_lookup_2. Qed.

(** Whatever the loop returns is the accumulator extended by the kept
    elements. *)
Lemma trim_loop_returns {voxel label} (sort_method : string) (val_left val_right : Z)
    (items : list (ndarray voxel * label * string * ndarray Z)) (acc new : dataset) :
  trim_loop sort_method val_left val_right items acc = Ok (Some new) →
  new = dataset_extend acc (kept sort_method val_left val_right items).
Proof.
  revert acc. induction items as [|[[[x y] p] m] items IH]; intros acc.
  { cbn. by intros [= <-]. }
  cbn [trim_loop]. destruct (len_x00 x) as [slices|e] eqn:Ex; [|done].
  cbn [mbind result_bind].
  assert (slices = Z.of_nat (shape2 x)) as ->.
  { unfold len_x00 in Ex. repeat destruct (decide _); congruence. }
  unfold kept. rewrite filter_cons. cbn [fst snd].
  fold (kept sort_method val_left val_right items).
  unfold sort_key.
  destruct (get_size_mask m) as [dimensions_mask size]. cbn [fst snd].
  assert (∀ v : Z,
    (if bool_decide (v > val_left) && bool_decide (v < val_right)
     then trim_loop sort_method val_left val_right items (dataset_append acc x y p m)
     else trim_loop sort_method val_left val_right items acc) = Ok (Some new) →
    new = dataset_extend acc
            (if decide (val_left < v < val_right)
             then (x, y, p, m) :: kept sort_method val_left val_right items
             else kept sort_method val_left val_right items)) as Hkeep.
  { intros v. destruct (decide (val_left < v < val_right)) as [Hv|Hv].
    - rewrite !bool_decide_eq_true_2 by lia. cbn. apply IH.
    - destruct (bool_decide (v > val_left)) eqn:E1; [|apply IH].
      destruct (bool_decide (v < val_right)) eqn:E2; [|apply IH].
      apply bool_decide_eq_true in E1, E2. lia. }
  destruct (String.eqb sort_method "slices") eqn:E1; [apply Hkeep|].
  destruct (String.eqb sort_method "sizes") eqn:E2; [apply Hkeep|].
  destruct (String.eqb sort_method "sizes_masks") eqn:E3; [apply Hkeep|]. done.
Qed.

Lemma dataset_extend_fmap {voxel label} (acc : @dataset voxel label) items :
  dataset_extend acc items
  = (acc.1.1.1 ++ items.*1.*1.*1, acc.1.1.2 ++ items.*1.*1.*2,
     acc.1.2 ++ items.*1.*2, acc.2 ++ items.*2).
Proof.
  induction items as [|it items IH] using rev_ind.
  - cbn. rewrite !app_nil_r. by destruct acc as [[[??]?]?].
  - rewrite dataset_extend_snoc, IH. rewrite !fmap_app. cbn.
    by rewrite !app_assoc.
Qed.

Lemma zip4_fmap {X Y P M} (x_set : list X) (y_set : list Y) (patients : list P)
    (masks : list M) :
  let items := zip4 x_set y_set patients masks in
  items.*1.*1.*1 `sublist_of` x_set ∧ items.*1.*1.*2 `sublist_of` y_set ∧
  items.*1.*2 `sublist_of` patients ∧ items.*2 `sublist_of` masks.
Proof.
  cbv zeta. unfold zip4.
  assert (∀ (A B : Type) (a : list A) (b : list B), (zip a b).*1 `sublist_of` a) as H1.
  { intros A B a. induction a as [|u a IH]; intros [|v b]; cbn;
      [done|done|apply sublist_nil_l|]. by apply sublist_skip. }
  assert (∀ (A B : Type) (a : list A) (b : list B), (zip a b).*2 `sublist_of` b) as H2.
  { intros A B a. induction a as [|u a IH]; intros [|v b]; cbn;
      [done|apply sublist_nil_l|done|]. by apply sublist_skip. }
  split_and!.
  - etrans; [|apply (H1 _ _ x_set y_set)].
    apply fmap_sublist. etrans; [|apply (H1 _ _ _ patients)].
    apply fmap_sublist, H1.
  - etrans; [|apply (H2 _ _ x_set y_set)].
    apply fmap_sublist. etrans; [|apply (H1 _ _ _ patients)].
    apply fmap_sublist, H1.
  - etrans; [|apply (H2 _ _ (zip x_set y_set) patients)]. apply fmap_sublist, H1.
  - apply H2.
Qed.

(** X2. [trim_edges] reads [array_sort] only through its sorted values:
    two lists of keys that are permutations of each other give the same
    result (the same value, the same exception or the same early [None]),
    so the order in which the caller collected the keys does not matter. *)
Theorem trim_edges_array_sort_order {voxel label} (array_sort array_sort' : list Z)
    (sort_method : string) (x_set : list (ndarray voxel)) (y_set : list label)
    (patients : list string) (masks : list (ndarray Z)) (trim_pos : float * float) :
  array_sort ≡ₚ array_sort' →
  trim_edges array_sort sort_method x_set y_set patients masks trim_pos
  = trim_edges array_sort' sort_method x_set y_set patients masks trim_pos.
Proof.
  intros Hperm. rewrite !trim_edges_thresholds.
  by rewrite (sorted_keys_proper _ _ Hperm), (Permutation_length Hperm).
Qed.

Lemma trim_edges_array_sort_order_witness :
  let x_set := (λ d, NDArray 2 2 d (λ i j z, Z.of_nat (i + j + z))) <$> [5; 3; 8; 1; 9]%nat in
  let masks := (λ d, NDArray 2 2 d (λ i j z, 1)) <$> [5; 3; 8; 1; 9]%nat in
  let trim_pos := (float_lit 1 5, float_lit 4 5) in
  trim_edges [5; 3; 8; 1; 9] "slices" x_set [0; 1; 0; 1; 0] ["a"; "b"; "c"; "d"; "e"] masks
             trim_pos
  = trim_edges [3; 1; 5; 8; 9] "slices" x_set [0; 1; 0; 1; 0] ["a"; "b"; "c"; "d"; "e"] masks
               trim_pos.
Proof.
  cbv zeta. apply trim_edges_array_sort_order.
  apply (bool_decide_unpack ([5; 3; 8; 1; 9] ≡ₚ [3; 1; 5; 8; 9])). by vm_compute.
Defined.

(** X3. Whenever [trim_edges] returns a dataset, there are two entries
    [val_left] and [val_right] of [array_sort] such that the dataset holds
    exactly the input elements whose own key lies strictly between them, in
    the input order: its four lists are parallel and each is a sublist of
    the corresponding input.  No precondition on the inputs is needed, and
    an element whose key equals a threshold is never kept. *)
Theorem trim_edges_returns {voxel label} (array_sort : list Z) (sort_method : string)
    (x_set : list (ndarray voxel)) (y_set : list label) (patients : list string)
    (masks : list (ndarray Z)) (trim_pos : float * float) (new : dataset) :
  trim_edges array_sort sort_method x_set y_set patients masks trim_pos = Ok (Some new) →
  ∃ val_left val_right,
    val_left ∈ array_sort ∧ val_right ∈ array_sort ∧
    new = dataset_extend ([], [], [], [])
            (kept sort_method val_left val_right (zip4 x_set y_set patients masks)) ∧
    dataset_same_length new ∧
    new.1.1.1 `sublist_of` x_set ∧ new.1.1.2 `sublist_of` y_set ∧
    new.1.2 `sublist_of` patients ∧ new.2 `sublist_of` masks.
Proof.
  rewrite trim_edges_thresholds.
  destruct (trim_num_left _ _) as [num_left|e]; [|by cbn]. cbn [mbind result_bind].
  destruct (trim_num_right _ _ _) as [num_right|e]; [|by cbn]. cbn [mbind result_bind].
  destruct (py_index (sorted_keys array_sort) (num_left - 1))
    as [val_left|e] eqn:El; [|by cbn].
  cbn [mbind result_bind].
  destruct (py_index (sorted_keys array_sort) (- num_right)) as [val_right|e] eqn:Er;
    [|by cbn].
  cbn [mbind result_bind].
  intros ->%trim_loop_returns.
  exists val_left, val_right.
  apply py_index_elem_of in El, Er.
  rewrite sorted_keys_Permutation in El. rewrite sorted_keys_Permutation in Er.
  split_and!; [done|done|done|by apply dataset_extend_same_length|..].
  all: rewrite dataset_extend_fmap; cbn [fst snd app].
  all: destruct (zip4_fmap x_set y_set patients masks) as (Hx & Hy & Hp & Hm).
  all: unfold kept.
  - etrans; [|exact Hx]. do 3 apply fmap_sublist. apply sublist_filter.
  - etrans; [|exact Hy]. do 3 apply fmap_sublist. apply sublist_filter.
  - etrans; [|exact Hp]. do 2 apply fmap_sublist. apply sublist_filter.
  - etrans; [|exact Hm]. apply fmap_sublist. apply sublist_filter.
Qed.

Lemma trim_edges_returns_witness :
  let x_set := (λ d, NDArray 2 2 d (λ i j z, Z.of_nat (i + j + z))) <$> [5; 3; 8; 1; 9]%nat in
  let masks := (λ d, NDArray 2 2 d (λ i j z, 1)) <$> [5; 3; 8; 1; 9]%nat in
  let trim_pos := (float_lit 1 5, float_lit 4 5) in
  ∃ new val_left val_right,
    new.1.2 = ["a"; "b"; "c"] ∧
    new = dataset_extend ([], [], [], [])
            (kept "slices" val_left val_right
                  (zip4 x_set [0; 1; 0; 1; 0] ["a"; "b"; "c"; "d"; "e"] masks)).
Proof.
  cbv zeta.
  set (x_set := (λ d, NDArray 2 2 d (λ i j z, Z.of_nat (i + j + z))) <$> [5; 3; 8; 1; 9]%nat).
  set (masks := (λ d, NDArray 2 2 d (λ i j z, 1)) <$> [5; 3; 8; 1; 9]%nat).
  set (trim_pos := (float_lit 1 5, float_lit 4 5)).
  destruct (trim_edges [5; 3; 8; 1; 9] "slices" x_set [0; 1; 0; 1; 0]
                       ["a"; "b"; "c"; "d"; "e"] masks trim_pos) as [[new|]|e] eqn:E;
    [|by vm_compute in E..].
  destruct (trim_edges_returns _ _ _ _ _ _ _ _ E) as (vl & vr & _ & _ & Hnew & _).
  exists new, vl, vr. split; [|exact Hnew].
  vm_compute in E. by injection E as <-.
Defined.

Lemma py_index_in_range {A} (l : list A) (k : Z) :
  - Z.of_nat (length l) ≤ k < Z.of_nat (length l) → ∃ a, py_index l k = Ok a.
Proof.
  intros Hk. unfold py_index. cbv zeta.
  destruct (decide (k < 0)) as [Hneg|Hneg]; cbv iota.
  - destruct (decide (0 ≤ k + Z.of_nat (length l) < Z.of_nat (length l))) as [_|]; [|lia].
    destruct (lookup_lt_is_Some_2 l (Z.to_nat (k + Z.of_nat (length l))) ltac:(lia))
      as [a ->]. by exists a.
  - destruct (decide (0 ≤ k < Z.of_nat (length l))) as [_|]; [|lia].
    destruct (lookup_lt_is_Some_2 l (Z.to_nat k) ltac:(lia)) as [a ->]. by exists a.
Qed.

(** The last entry of a sorted list bounds every entry. *)
Lemma sorted_last_max (l : list Z) (v x : Z) :
  StronglySorted Z.le l → l !! (length l - 1)%nat = Some v → x ∈ l → x ≤ v.
Proof.
  intros Hsorted Hv [i Hi]%list_elem_of_lookup.
  apply lookup_lt_Some in Hi as Hlt.
  destruct (decide (i = (length l - 1)%nat)) as [->|Hne]; [by simplify_eq|].
  apply (StronglySorted_lookup_rel Z.le l i (length l - 1) x v); [done|lia|done..].
Qed.

(** X4. When [round(n * p_lo)] is [0] (with the default percentiles, for
    up to five elements), the index [num_left - 1 = -1] wraps around to the
    largest key, so no key lies above the left threshold and [trim_edges]
    returns four empty lists: a small dataset is trimmed away entirely. *)
Theorem trim_edges_left_wraps {voxel label} (array_sort : list Z) (sort_method : string)
    (x_set : list (ndarray voxel)) (y_set : list label) (patients : list string)
    (masks : list (ndarray Z)) (trim_pos : float * float) (num_right : Z) :
  let n := length array_sort in
  let items := zip4 x_set y_set patients masks in
  sort_method ∈ ["slices"; "sizes"; "sizes_masks"] →
  Forall (λ x, shape0 x ≠ 0%nat ∧ shape1 x ≠ 0%nat) x_set →
  Forall (λ it, sort_key sort_method it.1.1.1 it.2 ∈ array_sort) items →
  array_sort ≠ [] →
  trim_num_left n trim_pos = Ok 0 →
  trim_num_right n trim_pos 0 = Ok num_right →
  - Z.of_nat n < num_right ≤ Z.of_nat n →
  trim_edges array_sort sort_method x_set y_set patients masks trim_pos
  = Ok (Some ([], [], [], [])).
Proof.
  intros n items Hmethod Hshape Hkeys Hne Hleft Eright Hright.
  pose proof (sorted_keys_length array_sort) as Hlen. fold n in Hlen.
  assert (0 < n)%nat as Hn by (destruct array_sort; [done|cbn; lia]).
  rewrite trim_edges_thresholds. fold n. fold items. rewrite Hleft.
  cbn [mbind result_bind]. rewrite Eright. cbn [mbind result_bind].
  destruct (lookup_lt_is_Some_2 (sorted_keys array_sort) (n - 1)%nat ltac:(lia))
    as [val_left Hvl].
  change (0 - 1) with (- (1)).
  rewrite (py_index_from_end _ 1 val_left);
    [|lia|by replace (Z.to_nat _) with (n - 1)%nat by lia].
  cbn [mbind result_bind].
  destruct (py_index_in_range (sorted_keys array_sort) (- num_right) ltac:(lia))
    as [val_right ->].
  cbn [mbind result_bind].
  rewrite trim_loop_kept; [|done|].
  - unfold kept. rewrite filter_none; [done|].
    eapply Forall_impl; [exact Hkeys|]. intros it Hit.
    cbv beta in Hit.
    assert (sort_key sort_method it.1.1.1 it.2 ∈ sorted_keys array_sort) as Hit'
      by (by rewrite sorted_keys_Permutation).
    rewrite <-Hlen in Hvl.
    pose proof (sorted_last_max _ _ _ (sorted_keys_sorted array_sort) Hvl Hit'). lia.
  - apply Forall_lookup. intros i [[[x y] p] m] Hi. cbn [fst snd].
    unfold items, zip4 in Hi.
    apply lookup_zip_Some in Hi as [Hi _]. apply lookup_zip_Some in Hi as [Hi _].
    apply lookup_zip_Some in Hi as [Hi _].
    rewrite Forall_lookup in Hshape. by apply (Hshape i).
Qed.

Lemma trim_edges_left_wraps_witness :
  let x_set := (λ d, NDArray 2 2 d (λ i j z, Z.of_nat (i + j + z))) <$> [5; 3; 8; 1]%nat in
  let masks := (λ d, NDArray 2 2 d (λ i j z, 1)) <$> [5; 3; 8; 1]%nat in
  let trim_pos := (float_lit 1 10, float_lit 9 10) in
  trim_edges [5; 3; 8; 1] "slices" x_set [0; 1; 0; 1] ["a"; "b"; "c"; "d"] masks trim_pos
  = Ok (Some ([], [], [], [])).
Proof.
  cbv zeta. apply (trim_edges_left_wraps _ _ _ _ _ _ _ 1).
  - repeat constructor.
  - apply Forall_forall. intros x [d [-> _]]%list_elem_of_fmap. cbn. lia.
  - unfold zip4. cbn [fmap list_fmap zip zip_with].
    repeat (apply Forall_cons; split; [vm_compute; repeat constructor|]). apply Forall_nil_2.
  - done.
  - reflexivity.
  - reflexivity.
  - cbn [length]. lia.
Defined.

(** ** The loop of [analyze_data] *)

Lemma py_index_snoc_last {A} (l : list A) (v : A) : py_index (l ++ [v]) (-1) = Ok v.
Proof.
  apply (py_index_from_end _ 1 v).
  - rewrite length_app. cbn. lia.
  - rewrite length_app. cbn [length].
    replace (Z.to_nat _) with (length l) by lia.
    by rewrite lookup_app_r, Nat.sub_diag by lia.
Qed.

Lemma with_slices_snoc {voxel} (items : list (Z * string * ndarray voxel * ndarray Z)) it :
  with_slices (items ++ [it])
  = with_slices items ++ (if decide (3 ≤ Z.of_nat (shape2 it.1.2)) then [it] else []).
Proof.
  unfold with_slices. rewrite filter_app. f_equal.
Qed.

Lemma analysed_snoc {voxel} (label : Z)
    (items : list (Z * string * ndarray voxel * ndarray Z)) it :
  analysed label (items ++ [it])
  = analysed label items ++
    (if decide (3 ≤ Z.of_nat (shape2 it.1.2) ∧ 3 ≤ box_depth it.2 ∧ it.1.1.1 = label)
     then [it] else []).
Proof.
  unfold analysed. rewrite with_slices_snoc, !filter_app. f_equal.
  destruct (decide (3 ≤ Z.of_nat (shape2 it.1.2))) as [H1|H1].
  - rewrite (filter_cons _ it []).
    destruct (decide (3 ≤ box_depth it.2)) as [H2|H2].
    + rewrite (filter_cons _ it []).
      destruct (decide (it.1.1.1 = label)) as [H3|H3].
      * by rewrite decide_True by done.
      * rewrite decide_False by tauto. done.
    + rewrite decide_False by tauto. done.
  - rewrite decide_False by tauto. done.
Qed.

Lemma py_index_pair_0 {A} (a b : A) : py_index [a; b] 0 = Ok a.
Proof. reflexivity. Qed.
Lemma py_index_pair_1 {A} (a b : A) : py_index [a; b] 1 = Ok b.
Proof. reflexivity. Qed.
Lemma py_setitem_pair_0 {A} (a b v : A) : py_setitem [a; b] 0 v = Ok [v; b].
Proof. reflexivity. Qed.
Lemma py_setitem_pair_1 {A} (a b v : A) : py_setitem [a; b] 1 v = Ok [a; v].
Proof. reflexivity. Qed.
Lemma py_append_at_pair_0 {A} (a b : list A) (v : A) :
  py_append_at [a; b] 0 v = Ok [a ++ [v]; b].
Proof. reflexivity. Qed.
Lemma py_append_at_pair_1 {A} (a b : list A) (v : A) :
  py_append_at [a; b] 1 v = Ok [a; b ++ [v]].
Proof. reflexivity. Qed.

Lemma analyze_step_summary {voxel} (items : list (Z * string * ndarray voxel * ndarray Z))
    (it : Z * string * ndarray voxel * ndarray Z) :
  it.1.1.1 ∈ [0; 1] →
  analyze_step (analyze_summary items) it = Ok (analyze_summary (items ++ [it])).
Proof.
  destruct it as [[[label patient] volume] mask]. cbn [fst snd]. intros Hlabel.
  unfold analyze_step, analyze_summary. cbv zeta.
  rewrite !analysed_snoc, with_slices_snoc. cbn [fst snd].
  cbn [abs_num_slices num_labels sizes_masks all_sizes_masks all_sizes all_slices].
  unfold box_depth.
  destruct (decide (Z.of_nat (shape2 volume) < 3)) as [Hs|Hs].
  { destruct (decide (3 ≤ Z.of_nat (shape2 volume))) as [|_]; [lia|].
    rewrite !decide_False by (intros (? & ? & ?); lia). rewrite !app_nil_r. done. }
  destruct (decide (3 ≤ Z.of_nat (shape2 volume))) as [Hs'|]; [|lia].
  rewrite (fmap_app _ (with_slices items)). cbn [fmap list_fmap fst snd].
  destruct (get_size_mask mask) as [size_mask granular_volume] eqn:Em. cbn [fst snd].
  rewrite py_index_snoc_last. cbn [mbind result_bind].
  destruct (decide (size_mask.2 < 3)) as [Hd|Hd].
  { rewrite !decide_False by (intros (? & ? & ?); lia). rewrite !app_nil_r. reflexivity. }
  assert (label = 0 ∨ label = 1) as [->| ->].
  { apply elem_of_cons in Hlabel as [->|Hlabel]; [by left|].
    apply elem_of_cons in Hlabel as [->|Hlabel]; [by right|].
    by apply not_elem_of_nil in Hlabel. }
  - rewrite (decide_True (P := _ ∧ _ ∧ 0 = 0)) by lia.
    rewrite (decide_False (P := _ ∧ _ ∧ 0 = 1)) by lia.
    rewrite ?py_append_at_pair_0, ?py_append_at_pair_1, ?py_index_pair_0,
      ?py_index_pair_1, ?py_setitem_pair_0, ?py_setitem_pair_1.
    cbn [mbind result_bind mret result_ret].
    rewrite ?py_append_at_pair_0, ?py_append_at_pair_1, ?py_index_pair_0,
      ?py_index_pair_1, ?py_setitem_pair_0, ?py_setitem_pair_1.
    cbn [mbind result_bind mret result_ret].
    rewrite !app_nil_r, !fmap_app, !length_app, !foldl_app.
    cbn [fmap list_fmap foldl length fst snd].
    repeat f_equal; rewrite ?Em; (done || lia).
  - rewrite (decide_True (P := _ ∧ _ ∧ 1 = 1)) by lia.
    rewrite (decide_False (P := _ ∧ _ ∧ 1 = 0)) by lia.
    rewrite ?py_append_at_pair_0, ?py_append_at_pair_1, ?py_index_pair_0,
      ?py_index_pair_1, ?py_setitem_pair_0, ?py_setitem_pair_1.
    cbn [mbind result_bind mret result_ret].
    rewrite ?py_append_at_pair_0, ?py_append_at_pair_1, ?py_index_pair_0,
      ?py_index_pair_1, ?py_setitem_pair_0, ?py_setitem_pair_1.
    cbn [mbind result_bind mret result_ret].
    rewrite !app_nil_r, !fmap_app, !length_app, !foldl_app.
    cbn [fmap list_fmap foldl length fst snd].
    repeat f_equal; rewrite ?Em; (done || lia).
Qed.

(** A property of the visited elements and the state that every step
    keeps holds after a loop that returns. *)
Lemma foldl_result_Ok_invariant {S A} (step : S → A → result S) (I : list A → S → Prop)
    (l : list A) (st st' : S) :
  I [] st →
  (∀ done_ a s s', I done_ s → step s a = Ok s' → I (done_ ++ [a]) s') →
  foldl (λ acc a, st ← acc; step st a) (Ok st) l = Ok st' → I l st'.
Proof.
  intros Hinit Hstep. revert st'. induction l as [|a l IH] using rev_ind; intros st'.
  - cbn. by intros [= <-].
  - rewrite foldl_snoc.
    destruct (foldl _ (Ok st) l) as [s1|e]; [|done]. cbn [mbind result_bind].
    intros E. by apply (Hstep l a s1 st'); [apply IH|].
Qed.

(** Every step of a loop that returns has returned. *)
Lemma foldl_result_Ok_steps {S A} (step : S → A → result S) (l : list A) (st st' : S) :
  foldl (λ acc a, st ← acc; step st a) (Ok st) l = Ok st' →
  Forall (λ a, ∃ s s', step s a = Ok s') l.
Proof.
  apply (foldl_result_Ok_invariant step (λ done_ _, Forall (λ a, ∃ s s', step s a = Ok s') done_)).
  - constructor.
  - intros done_ a s s' Hdone E. apply Forall_app. split; [done|].
    apply Forall_singleton. eauto.
Qed.

(** An exception of a loop is an exception of one of its steps. *)
Lemma foldl_result_raises {S A} (step : S → A → result S) (P : exn → Prop)
    (l : list A) (st : S) (e : exn) :
  (∀ s a e, step s a = Raise e → P e) →
  foldl (λ acc a, st ← acc; step st a) (Ok st) l = Raise e → P e.
Proof.
  intros Hstep. induction l as [|a l IH] using rev_ind; [done|].
  rewrite foldl_snoc.
  destruct (foldl _ (Ok st) l) as [s1|e1]; cbn [mbind result_bind].
  - apply Hstep.
  - intros [= <-]. by apply IH.
Qed.

Lemma analyze_fold_summary {voxel} (items : list (Z * string * ndarray voxel * ndarray Z)) :
  Forall (λ it, it.1.1.1 ∈ [0; 1]) items →
  foldl (λ acc it, st ← acc; analyze_step st it) (Ok analyze_init) items
  = Ok (analyze_summary items).
Proof.
  induction items as [|it items IH] using rev_ind; intros Hitems; [done|].
  apply Forall_app in Hitems as [Hitems Hit]. rewrite Forall_singleton in Hit.
  rewrite foldl_snoc, (IH Hitems). cbn [mbind result_bind].
  by apply analyze_step_summary.
Qed.

Lemma analyze_loop_summary {voxel} (labels : list Z) (patients : list string)
    (volumes : list (ndarray voxel)) (masks : list (ndarray Z)) :
  Forall (λ label, label ∈ [0; 1]) labels →
  analyze_loop labels patients volumes masks
  = Ok (analyze_summary (zip4 labels patients volumes masks)).
Proof.
  intros Hlabels. unfold analyze_loop. apply analyze_fold_summary.
  destruct (zip4_fmap labels patients volumes masks) as (Hsub & _).
  apply sublist_subseteq in Hsub.
  apply Forall_forall. intros it Hit. rewrite Forall_forall in Hlabels.
  apply Hlabels, Hsub. by do 3 apply list_elem_of_fmap_2.
Qed.

(** Whatever the labels are, [abs_num_slices] gets the depth of the mask
    box of every volume with at least 3 slices. *)
Lemma analyze_loop_abs_num_slices {voxel} (labels : list Z) (patients : list string)
    (volumes : list (ndarray voxel)) (masks : list (ndarray Z)) (st : analyze_state) :
  analyze_loop labels patients volumes masks = Ok st →
  abs_num_slices st
  = (λ it, box_depth it.2) <$> with_slices (zip4 labels patients volumes masks).
Proof.
  unfold analyze_loop.
  apply (foldl_result_Ok_invariant analyze_step
           (λ done_ s, abs_num_slices s = (λ it, box_depth it.2) <$> with_slices done_)).
  - done.
  - intros done_ [[[label patient] volume] mask] s s' Hs. rewrite with_slices_snoc.
    cbn [fst snd]. unfold analyze_step.
    destruct (decide (Z.of_nat (shape2 volume) < 3)) as [H3|H3].
    + intros [= <-]. rewrite decide_False by lia. by rewrite app_nil_r.
    + rewrite decide_True by lia. rewrite fmap_app. cbn [fmap list_fmap snd].
      unfold box_depth at 2. rewrite <-Hs.
      destruct (get_size_mask mask) as [size_mask granular_volume]. cbn [fst snd].
      rewrite py_index_snoc_last. cbn [mbind result_bind].
      cbn [abs_num_slices num_labels sizes_masks all_sizes_masks all_sizes all_slices].
      destruct (decide (size_mask.2 < 3)) as [|_]; [by intros [= <-]|].
      repeat (match goal with
              | |- (?m ≫= _) = Ok _ → _ => destruct m; cbn [mbind result_bind]; [|done]
              end).
      by intros [= <-].
Qed.

(** ** [plot_histogram] and [calculate_shared_axis] *)

Lemma py_sorted_length (l : list Z) : length (py_sorted l) = length l.
Proof. unfold py_sorted. by rewrite merge_sort_Permutation. Qed.

Lemma py_max_nonempty (l : list Z) : l ≠ [] → ∃ v, py_max l = Ok v.
Proof. destruct l; [done|]. intros _. cbn. eauto. Qed.
Lemma py_min_nonempty (l : list Z) : l ≠ [] → ∃ v, py_min l = Ok v.
Proof. destruct l; [done|]. intros _. cbn. eauto. Qed.

Lemma foldl_max_spec (v : Z) (l : list Z) :
  let m := foldl Z.max v l in
  (m = v ∨ m ∈ l) ∧ v ≤ m ∧ Forall (λ x, x ≤ m) l.
Proof.
  cbv zeta. revert v. induction l as [|a l IH]; intros v; cbn [foldl].
  - split_and!; [by left|lia|constructor].
  - destruct (IH (Z.max v a)) as ([E|E] & Hv & Hall).
    + split_and!; [|lia|constructor; [lia|done]].
      rewrite E. destruct (Z.max_spec v a) as [[_ Hm]|[_ Hm]]; rewrite Hm.
      * right. by left.
      * by left.
    + split_and!; [right; by right|lia|constructor; [lia|done]].
Qed.

Lemma foldl_min_spec (v : Z) (l : list Z) :
  let m := foldl Z.min v l in
  (m = v ∨ m ∈ l) ∧ m ≤ v ∧ Forall (λ x, m ≤ x) l.
Proof.
  cbv zeta. revert v. induction l as [|a l IH]; intros v; cbn [foldl].
  - split_and!; [by left|lia|constructor].
  - destruct (IH (Z.min v a)) as ([E|E] & Hv & Hall).
    + split_and!; [|lia|constructor; [lia|done]].
      rewrite E. destruct (Z.min_spec v a) as [[_ Hm]|[_ Hm]]; rewrite Hm.
      * by left.
      * right. by left.
    + split_and!; [right; by right|lia|constructor; [lia|done]].
Qed.

Lemma py_max_spec (l : list Z) (m : Z) :
  py_max l = Ok m → m ∈ l ∧ Forall (λ x, x ≤ m) l.
Proof.
  destruct l as [|v l]; [done|]. cbn. intros [= <-].
  destruct (foldl_max_spec v l) as ([E|E] & Hv & Hall).
  - split; [rewrite E; by left|]. by constructor.
  - split; [by right|]. by constructor.
Qed.

Lemma py_min_spec (l : list Z) (m : Z) :
  py_min l = Ok m → m ∈ l ∧ Forall (λ x, m ≤ x) l.
Proof.
  destruct l as [|v l]; [done|]. cbn. intros [= <-].
  destruct (foldl_min_spec v l) as ([E|E] & Hv & Hall).
  - split; [rewrite E; by left|]. by constructor.
  - split; [by right|]. by constructor.
Qed.

Lemma Qc_of_Z_mul_div (n a b : Z) :
  (Qc_of_Z n * (Qc_of_Z a / Qc_of_Z b) = Qc_of_Z (n * a) / Qc_of_Z b)%Qc.
Proof. unfold Qcdiv. by rewrite Qcmult_assoc, <-Z2Qc_inj_mul. Qed.

(** [round(n * a / b)] lies between two integers that bound [n * a / b]. *)
Lemma np_round_between (n a b lo hi : Z) :
  0 < b → lo * b ≤ n * a → n * a ≤ hi * b →
  lo ≤ np_round (Qc_of_Z n * (Qc_of_Z a / Qc_of_Z b))%Qc ≤ hi.
Proof.
  intros Hb Hlo Hhi. rewrite Qc_of_Z_mul_div.
  rewrite <-(np_round_Z lo), <-(np_round_Z hi).
  split; apply np_round_mono.
  - rewrite (Qc_of_Z_div_1 lo). apply Qcdiv_le_cross; lia.
  - rewrite (Qc_of_Z_div_1 hi). apply Qcdiv_le_cross; lia.
Qed.

Lemma py_sorted_sorted (l : list Z) : StronglySorted Z.le (py_sorted l).
Proof. apply (Sorted_StronglySorted _), (Sorted_merge_sort Z.le). Qed.

Lemma py_sorted_le (l : list Z) (i j : nat) (x y : Z) :
  (i ≤ j)%nat → py_sorted l !! i = Some x → py_sorted l !! j = Some y → x ≤ y.
Proof.
  intros Hij Hi Hj. destruct (decide (i = j)) as [->|Hne].
  - simplify_eq. lia.
  - apply (StronglySorted_lookup_rel Z.le (py_sorted l) i j x y);
      [apply py_sorted_sorted|lia|done..].
Qed.

(** The positions of the four default lines for at least five elements. *)
Lemma default_positions (n : Z) :
  5 ≤ n →
  let pos (a b : Z) := np_round (Qc_of_Z n * (Qc_of_Z a / Qc_of_Z b))%Qc in
  0 ≤ pos 1 10 ∧ pos 1 10 ≤ pos 1 4 ∧ pos 1 4 ≤ pos 3 4 ∧ pos 3 4 ≤ pos 9 10 ∧
  pos 9 10 < n.
Proof.
  intros Hn. cbv zeta.
  assert (∀ a b c d : Z, 0 < b → 0 < d → a * d ≤ c * b →
            np_round (Qc_of_Z n * (Qc_of_Z a / Qc_of_Z b))%Qc
            ≤ np_round (Qc_of_Z n * (Qc_of_Z c / Qc_of_Z d))%Qc) as Hmono.
  { intros a b c d Hb Hd Hle. apply np_round_mono. rewrite !Qc_of_Z_mul_div.
    apply Qcdiv_le_cross; [done..|]. nia. }
  split_and!.
  - apply (np_round_between n 1 10 0 n); lia.
  - apply Hmono; lia.
  - apply Hmono; lia.
  - apply Hmono; lia.
  - destruct (decide (10 ≤ n)) as [Hbig|Hsmall].
    + pose proof (np_round_between n 9 10 0 (n - 1)). lia.
    + assert (n = 5 ∨ n = 6 ∨ n = 7 ∨ n = 8 ∨ n = 9) as Hcases by lia.
      destruct Hcases as [->|[->|[->|[->| ->]]]]; by vm_compute.
Qed.

Lemma plot_histogram_small (data : list Z) :
  (length data < 5)%nat → plot_histogram data default_percentages = Raise IndexError.
Proof.
  pose proof (py_sorted_length data) as Hlen. unfold plot_histogram. cbv zeta.
  intros Hn.
  destruct (py_sorted data) as [|a [|b [|c [|d [|e s]]]]]; cbn [length] in Hlen;
    [by vm_compute..|lia].
Qed.

Lemma plot_histogram_enough (data : list Z) :
  (5 ≤ length data)%nat →
  ∃ a b c d, plot_histogram data default_percentages = Ok [a; b; c; d] ∧
    a ≤ b ≤ c ∧ c ≤ d ∧ a ∈ data ∧ b ∈ data ∧ c ∈ data ∧ d ∈ data.
Proof.
  pose proof (py_sorted_length data) as Hlen. unfold plot_histogram. cbv zeta.
  intros Hn.
  destruct (default_positions (Z.of_nat (length (py_sorted data))) ltac:(lia))
    as (H1 & H2 & H3 & H4 & H5).
  cbv zeta in H1, H2, H3, H4, H5. unfold default_percentages. cbn [foldl].
  set (n := Qc_of_Z (Z.of_nat (length (py_sorted data)))) in *.
  set (k1 := np_round (n * (Qc_of_Z 1 / Qc_of_Z 10))%Qc) in *.
  set (k2 := np_round (n * (Qc_of_Z 1 / Qc_of_Z 4))%Qc) in *.
  set (k3 := np_round (n * (Qc_of_Z 3 / Qc_of_Z 4))%Qc) in *.
  set (k4 := np_round (n * (Qc_of_Z 9 / Qc_of_Z 10))%Qc) in *.
  destruct (py_index_Ok (py_sorted data) k1 ltac:(lia)) as (a & Ea & La).
  destruct (py_index_Ok (py_sorted data) k2 ltac:(lia)) as (b & Eb & Lb).
  destruct (py_index_Ok (py_sorted data) k3 ltac:(lia)) as (c & Ec & Lc).
  destruct (py_index_Ok (py_sorted data) k4 ltac:(lia)) as (d & Ed & Ld).
  exists a, b, c, d. cbn [mbind result_bind].
  rewrite Ea. cbn [mbind result_bind mret result_ret app].
  rewrite Eb. cbn [mbind result_bind mret result_ret app].
  rewrite Ec. cbn [mbind result_bind mret result_ret app].
  rewrite Ed. cbn [mbind result_bind mret result_ret app].
  split; [done|].
  assert (∀ x i, py_sorted data !! i = Some x → x ∈ data) as Hin.
  { intros x i Hx. apply list_elem_of_lookup_2 in Hx. unfold py_sorted in Hx.
    by rewrite merge_sort_Permutation in Hx. }
  split_and!; [| | |by eapply Hin..].
  + apply (py_sorted_le data (Z.to_nat k1) (Z.to_nat k2)); [lia|done..].
  + apply (py_sorted_le data (Z.to_nat k2) (Z.to_nat k3)); [lia|done..].
  + apply (py_sorted_le data (Z.to_nat k3) (Z.to_nat k4)); [lia|done..].
Qed.

(** X5. With the default percentages, [plot_histogram] reads the sorted
    data at the positions [round(n/10)], [round(n/4)], [round(3n/4)] and
    [round(9n/10)].  For fewer than five elements one of them is past the
    end and the function raises [IndexError]; from five elements on, the
    four lines are drawn at entries of the data, in ascending order. *)
Theorem plot_histogram_default (data : list Z) :
  ((length data < 5)%nat → plot_histogram data default_percentages = Raise IndexError) ∧
  ((5 ≤ length data)%nat →
     ∃ a b c d, plot_histogram data default_percentages = Ok [a; b; c; d] ∧
       a ≤ b ≤ c ∧ c ≤ d ∧ a ∈ data ∧ b ∈ data ∧ c ∈ data ∧ d ∈ data).
Proof. split; [apply plot_histogram_small|apply plot_histogram_enough]. Qed.

Lemma calculate_shared_axis_Ok (data1 data2 : list Z) (constant_factor : Qc) :
  data1 ≠ [] → data2 ≠ [] →
  ∃ axis, calculate_shared_axis data1 data2 constant_factor = Ok axis.
Proof.
  intros H1 H2. unfold calculate_shared_axis.
  destruct (py_max_nonempty data1 H1) as [m1 ->].
  destruct (py_max_nonempty data2 H2) as [m2 ->].
  destruct (py_min_nonempty data1 H1) as [n1 ->].
  destruct (py_min_nonempty data2 H2) as [n2 ->].
  cbn. eauto.
Qed.

(** X6. For two lists that are not empty and a factor that is not
    negative, [calculate_shared_axis] returns an interval that contains
    every entry of both lists.  The margins are not equal: the upper one is
    [factor] times the range of the data, the lower one [factor * (1 +
    factor)] times, because the lower bound is computed from the upper bound
    that has been raised already.  An empty list raises [ValueError]. *)
Theorem calculate_shared_axis_contains (data1 data2 : list Z) (constant_factor : Qc) :
  (data1 = [] ∨ data2 = [] →
     calculate_shared_axis data1 data2 constant_factor = Raise ValueError) ∧
  (data1 ≠ [] → data2 ≠ [] →
     ∃ lo hi : Z, lo ∈ data1 ++ data2 ∧ hi ∈ data1 ++ data2 ∧
       Forall (λ x, lo ≤ x ≤ hi) (data1 ++ data2) ∧
       let range := (Qc_of_Z hi - Qc_of_Z lo)%Qc in
       calculate_shared_axis data1 data2 constant_factor
       = Ok (Qc_of_Z lo - range * constant_factor * (1 + constant_factor),
             Qc_of_Z hi + range * constant_factor)%Qc ∧
       ((0 ≤ constant_factor)%Qc →
          (Qc_of_Z lo - range * constant_factor * (1 + constant_factor) ≤ Qc_of_Z lo)%Qc ∧
          (Qc_of_Z hi ≤ Qc_of_Z hi + range * constant_factor)%Qc)).
Proof.
  unfold calculate_shared_axis. split.
  - intros [->| ->]; [done|]. destruct data1; [done|]. done.
  - intros H1 H2.
    destruct (py_max_nonempty data1 H1) as [m1 Em1].
    destruct (py_max_nonempty data2 H2) as [m2 Em2].
    destruct (py_min_nonempty data1 H1) as [n1 En1].
    destruct (py_min_nonempty data2 H2) as [n2 En2].
    rewrite Em1, Em2, En1, En2. cbn [mbind result_bind mret result_ret].
    apply py_max_spec in Em1 as [I1 A1]. apply py_max_spec in Em2 as [I2 A2].
    apply py_min_spec in En1 as [J1 B1]. apply py_min_spec in En2 as [J2 B2].
    exists (Z.min n1 n2), (Z.max m1 m2).
    assert (Z.min n1 n2 ≤ Z.max m1 m2) as Hrange.
    { rewrite Forall_forall in A1. specialize (A1 _ J1). lia. }
    split_and!.
    + apply elem_of_app. destruct (Z.min_spec n1 n2) as [[_ ->]|[_ ->]]; [by left|by right].
    + apply elem_of_app. destruct (Z.max_spec m1 m2) as [[_ ->]|[_ ->]]; [by right|by left].
    + apply Forall_app. split.
      * apply Forall_forall. intros x Hx. rewrite Forall_forall in A1, B1.
        specialize (A1 _ Hx). specialize (B1 _ Hx). lia.
      * apply Forall_forall. intros x Hx. rewrite Forall_forall in A2, B2.
        specialize (A2 _ Hx). specialize (B2 _ Hx). lia.
    + cbv zeta. f_equal. f_equal. ring.
    + cbv zeta. intros Hc.
      assert (0 ≤ Qc_of_Z (Z.max m1 m2) - Qc_of_Z (Z.min n1 n2))%Qc as Hr.
      { rewrite <-Z2Qc_inj_sub. rewrite <-Z2Qc_inj_0. rewrite <-Z2Qc_inj_le. lia. }
      set (r := (Qc_of_Z (Z.max m1 m2) - Qc_of_Z (Z.min n1 n2))%Qc) in *.
      assert (0 ≤ r * constant_factor)%Qc as Hrc by (by apply Qcmult_nonneg_nonneg).
      assert (0 ≤ r * constant_factor * (1 + constant_factor))%Qc as Hrcc.
      { apply Qcmult_nonneg_nonneg; [done|]. by apply Qcplus_nonneg_nonneg. }
      split; apply Qcle_minus_iff.
      * by replace (Qc_of_Z (Z.min n1 n2)
                    + - (Qc_of_Z (Z.min n1 n2) - r * constant_factor * (1 + constant_factor)))%Qc
          with (r * constant_factor * (1 + constant_factor))%Qc by ring.
      * by replace (Qc_of_Z (Z.max m1 m2) + r * constant_factor + - Qc_of_Z (Z.max m1 m2))%Qc
          with (r * constant_factor)%Qc by ring.
Qed.

(** ** [analyze_data] *)

Lemma print_statistics_Ok (st : analyze_state) (label : Z) (boxes slices sizes : list Z) :
  py_index (all_sizes_masks st) label = Ok boxes →
  py_index (all_slices st) label = Ok slices →
  py_index (all_sizes st) label = Ok sizes →
  boxes ≠ [] → slices ≠ [] → sizes ≠ [] →
  print_statistics st label = Ok ().
Proof.
  unfold print_statistics. intros -> -> -> Hb Hs Hz. cbn [mbind result_bind].
  destruct (py_min_nonempty boxes Hb) as [? ->]. destruct (py_max_nonempty boxes Hb) as [? ->].
  destruct (py_min_nonempty slices Hs) as [? ->].
  destruct (py_max_nonempty slices Hs) as [? ->].
  destruct (py_min_nonempty sizes Hz) as [? ->]. destruct (py_max_nonempty sizes Hz) as [? ->].
  reflexivity.
Qed.

Lemma print_statistics_empty (st : analyze_state) (label : Z) :
  py_index (all_sizes_masks st) label = Ok [] →
  print_statistics st label = Raise ValueError.
Proof. unfold print_statistics. by intros ->. Qed.

Lemma plot_histograms_Ok (d0 d1 : list Z) :
  (5 ≤ length d0)%nat → (5 ≤ length d1)%nat → plot_histograms [d0; d1] = Ok ().
Proof.
  intros H0 H1. unfold plot_histograms.
  rewrite py_index_pair_0, py_index_pair_1. cbn [mbind result_bind].
  destruct (calculate_shared_axis_Ok d0 d1 (Qc_of_Z 1 / Qc_of_Z 20)%Qc) as [? ->];
    [intros ->; cbn in H0; lia|intros ->; cbn in H1; lia|].
  cbn [mbind result_bind].
  destruct (plot_histogram_enough d0 H0) as (? & ? & ? & ? & -> & _).
  destruct (plot_histogram_enough d1 H1) as (? & ? & ? & ? & -> & _).
  destruct (plot_histogram_enough (d0 ++ d1)) as (? & ? & ? & ? & -> & _);
    [rewrite length_app; lia|].
  reflexivity.
Qed.

Lemma plot_histograms_small (d0 d1 : list Z) :
  d0 ≠ [] → d1 ≠ [] → (length d0 < 5 ∨ length d1 < 5)%nat →
  plot_histograms [d0; d1] = Raise IndexError.
Proof.
  intros H0 H1 Hsmall. unfold plot_histograms.
  rewrite py_index_pair_0, py_index_pair_1. cbn [mbind result_bind].
  destruct (calculate_shared_axis_Ok d0 d1 (Qc_of_Z 1 / Qc_of_Z 20)%Qc) as [? ->];
    [done..|].
  cbn [mbind result_bind].
  destruct (decide (length d0 < 5)%nat) as [Hd0|Hd0].
  - rewrite (plot_histogram_small d0) by done. reflexivity.
  - destruct (plot_histogram_enough d0 ltac:(lia)) as (? & ? & ? & ? & -> & _).
    cbn [mbind result_bind]. rewrite (plot_histogram_small d1) by lia. reflexivity.
Qed.

Lemma plot_boxplots_Ok (d0 d1 : list Z) :
  d0 ≠ [] → d1 ≠ [] → plot_boxplots [d0; d1] = Ok ().
Proof.
  intros H0 H1. unfold plot_boxplots.
  rewrite py_index_pair_0, py_index_pair_1. cbn [mbind result_bind].
  by destruct (calculate_shared_axis_Ok d0 d1 (Qc_of_Z 1 / Qc_of_Z 20)%Qc) as [? ->].
Qed.

Lemma np_median_is_Some (l : list Z) : l ≠ [] → is_Some (np_median l).
Proof.
  intros Hl. unfold np_median. cbv zeta.
  pose proof (py_sorted_length l) as Hlen.
  assert (length l ≠ 0%nat) by (by destruct l).
  destruct (decide (length (py_sorted l) = 0%nat)) as [|Hn]; [lia|].
  set (n := length (py_sorted l)) in *.
  pose proof (Nat.div_mod_eq n 2) as Hdm.
  pose proof (Nat.mod_upper_bound n 2 ltac:(lia)) as Hm.
  destruct (Nat.even n) eqn:Heven.
  - apply Nat.even_spec in Heven as [k Hk].
    destruct (lookup_lt_is_Some_2 (py_sorted l) (n `div` 2 - 1)%nat ltac:(fold n; lia))
      as [a ->].
    destruct (lookup_lt_is_Some_2 (py_sorted l) (n `div` 2)%nat ltac:(fold n; lia))
      as [b ->].
    cbn. eauto.
  - destruct (lookup_lt_is_Some_2 (py_sorted l) (n `div` 2)%nat ltac:(fold n; lia))
      as [b ->].
    cbn. eauto.
Qed.

Lemma print_statistics_summary {voxel}
    (items : list (Z * string * ndarray voxel * ndarray Z)) (label : Z) :
  label = 0 ∨ label = 1 → analysed label items ≠ [] →
  print_statistics (analyze_summary items) label = Ok ().
Proof.
  intros Hlabel Hne.
  assert (∀ f : Z * string * ndarray voxel * ndarray Z → Z,
            f <$> analysed label items ≠ []) as Hfmap.
  { intros f. by destruct (analysed label items). }
  destruct Hlabel as [->| ->].
  - eapply print_statistics_Ok;
      [unfold analyze_summary; cbv zeta; cbn [all_sizes_masks all_slices all_sizes];
       apply py_index_pair_0..|apply Hfmap|apply Hfmap|apply Hfmap].
  - eapply print_statistics_Ok;
      [unfold analyze_summary; cbv zeta; cbn [all_sizes_masks all_slices all_sizes];
       apply py_index_pair_1..|apply Hfmap|apply Hfmap|apply Hfmap].
Qed.

Lemma print_statistics_summary_empty {voxel}
    (items : list (Z * string * ndarray voxel * ndarray Z)) (label : Z) :
  label = 0 ∨ label = 1 → analysed label items = [] →
  print_statistics (analyze_summary items) label = Raise ValueError.
Proof.
  intros Hlabel He. apply print_statistics_empty.
  unfold analyze_summary. cbv zeta. cbn [all_sizes_masks].
  destruct Hlabel as [->| ->]; [rewrite py_index_pair_0|rewrite py_index_pair_1];
    by rewrite He.
Qed.

(** X7. For labels 0 and 1 and at least five analysed volumes of each
    label (volumes with at least 3 slices whose mask box is at least 3
    deep), [analyze_data] returns: the number of analysed volumes of each
    label, the medians of their slice counts (both defined), and for each
    label the slice counts, tumour volumes and box sizes of its analysed
    volumes in input order.  The last list, [abs_num_slices], has one entry
    for every volume with at least 3 slices, analysed or not. *)
Theorem analyze_data_returns {voxel} (volumes : list (ndarray voxel)) (labels : list Z)
    (patients : list string) (masks : list (ndarray Z)) :
  let items := zip4 labels patients volumes masks in
  let slices (label : Z) := (λ it, Z.of_nat (shape2 it.1.2)) <$> analysed label items in
  let sizes (label : Z) := (λ it, (get_size_mask it.2).2) <$> analysed label items in
  let boxes (label : Z) := (λ it, np_prod3 (get_size_mask it.2).1) <$> analysed label items in
  Forall (λ label, label ∈ [0; 1]) labels →
  (5 ≤ length (analysed 0 items))%nat → (5 ≤ length (analysed 1 items))%nat →
  analyze_data volumes labels patients masks
  = Ok ((Z.of_nat (length (analysed 0 items)), Z.of_nat (length (analysed 1 items))),
        (np_median (slices 0), np_median (slices 1)),
        ([slices 0; slices 1], [sizes 0; sizes 1], [boxes 0; boxes 1],
         (λ it, box_depth it.2) <$> with_slices items)) ∧
  is_Some (np_median (slices 0)) ∧ is_Some (np_median (slices 1)).
Proof.
  intros items slices sizes boxes Hlabels H0 H1.
  assert (∀ (f : Z * string * ndarray voxel * ndarray Z → Z) label,
            (5 ≤ length (analysed label items))%nat →
            (5 ≤ length (f <$> analysed label items))%nat ∧ f <$> analysed label items ≠ [])
    as Hfmap.
  { intros f label H. rewrite length_fmap. split; [done|].
    destruct (analysed label items); [cbn in H; lia|done]. }
  split; [|split; apply np_median_is_Some; by apply Hfmap].
  unfold analyze_data. rewrite (analyze_loop_summary _ _ _ _ Hlabels). fold items.
  cbn [mbind result_bind].
  assert (∀ label, (5 ≤ length (analysed label items))%nat → analysed label items ≠ [])
    as Hne.
  { intros label H. destruct (analysed label items); [cbn in H; lia|done]. }
  rewrite (print_statistics_summary items 1) by (by auto).
  rewrite (print_statistics_summary items 0) by (by auto).
  cbn [mbind result_bind].
  unfold analyze_summary. cbv zeta.
  cbn [abs_num_slices num_labels sizes_masks all_sizes_masks all_sizes all_slices].
  rewrite !plot_histograms_Ok by (by apply Hfmap). cbn [mbind result_bind].
  rewrite !plot_boxplots_Ok by (by apply Hfmap). cbn [mbind result_bind].
  reflexivity.
Qed.

(** X8. For labels 0 and 1, [analyze_data] does not return when a label
    has fewer than five analysed volumes: with none, the statistics printed
    for that label take the minimum of an empty list and raise
    [ValueError]; with one to four, the first histogram of that label looks
    past the end of its data and raises [IndexError]. *)
Theorem analyze_data_small_label {voxel} (volumes : list (ndarray voxel)) (labels : list Z)
    (patients : list string) (masks : list (ndarray Z)) :
  let items := zip4 labels patients volumes masks in
  Forall (λ label, label ∈ [0; 1]) labels →
  (analysed 0 items = [] ∨ analysed 1 items = [] →
     analyze_data volumes labels patients masks = Raise ValueError) ∧
  (analysed 0 items ≠ [] → analysed 1 items ≠ [] →
   (length (analysed 0 items) < 5 ∨ length (analysed 1 items) < 5)%nat →
     analyze_data volumes labels patients masks = Raise IndexError).
Proof.
  intros items Hlabels.
  unfold analyze_data. rewrite (analyze_loop_summary _ _ _ _ Hlabels). fold items.
  cbn [mbind result_bind].
  assert (∀ (f : Z * string * ndarray voxel * ndarray Z → Z) label,
            analysed label items ≠ [] → f <$> analysed label items ≠ []) as Hfmap.
  { intros f label H. by destruct (analysed label items). }
  split.
  - intros Hempty.
    destruct (decide (analysed 1 items = [])) as [E1|E1].
    + by rewrite (print_statistics_summary_empty items 1) by (by auto).
    + destruct Hempty as [E0|]; [|done].
      rewrite (print_statistics_summary items 1) by (by auto).
      cbn [mbind result_bind].
      by rewrite (print_statistics_summary_empty items 0) by (by auto).
  - intros E0 E1 Hsmall.
    rewrite (print_statistics_summary items 1) by (by auto).
    rewrite (print_statistics_summary items 0) by (by auto).
    cbn [mbind result_bind].
    unfold analyze_summary. cbv zeta.
    cbn [abs_num_slices num_labels sizes_masks all_sizes_masks all_sizes all_slices].
    rewrite (plot_histograms_small
               ((λ it : Z * string * ndarray voxel * ndarray Z, Z.of_nat (shape2 it.1.2))
                  <$> analysed 0 items)
               ((λ it : Z * string * ndarray voxel * ndarray Z, Z.of_nat (shape2 it.1.2))
                  <$> analysed 1 items));
      [reflexivity|by apply Hfmap..|].
    by rewrite !length_fmap.
Qed.

(** ** [abs_num_slices] in the loop of [improved_save_data] *)

(** If every volume with at least 3 slices stands at a position below
    their number, these volumes are a prefix of the list. *)
Lemma with_slices_prefix {voxel} (items : list (Z * string * ndarray voxel * ndarray Z)) :
  (∀ (i : nat) it, items !! i = Some it → 3 ≤ Z.of_nat (shape2 it.1.2) →
                   (i < length (with_slices items))%nat) →
  ∀ (i : nat) it, items !! i = Some it → (i < length (with_slices items))%nat →
                  3 ≤ Z.of_nat (shape2 it.1.2).
Proof.
  intros Hpos i it Hi Hlt.
  set (c := length (with_slices items)) in *.
  assert (with_slices (drop c items) = []) as Hdrop.
  { unfold with_slices. apply filter_none. apply Forall_lookup. intros k x Hk Hx.
    rewrite lookup_drop in Hk. specialize (Hpos _ _ Hk Hx). lia. }
  assert (length (with_slices (take c items)) = c) as Htake.
  { unfold c at 2. rewrite <-(take_drop c items) at 2.
    unfold with_slices in *. rewrite filter_app, Hdrop, app_nil_r. done. }
  destruct (decide (3 ≤ Z.of_nat (shape2 it.1.2))) as [|Hshort]; [done|]. exfalso.
  assert (it ∈ take c items) as Hin.
  { apply list_elem_of_lookup. exists i. by rewrite lookup_take_lt. }
  pose proof (length_filter_lt (λ it : Z * string * ndarray voxel * ndarray Z,
                                  3 ≤ Z.of_nat (shape2 it.1.2)) _ _ Hin Hshort) as Hlen.
  unfold with_slices in Htake. rewrite Htake in Hlen.
  pose proof (length_take_le items c). rewrite length_take in Hlen. lia.
Qed.

Lemma py_index_raises {A} (l : list A) (k : Z) (e : exn) :
  py_index l k = Raise e → e = IndexError.
Proof.
  unfold py_index. cbv zeta. intros E. repeat case_match; congruence.
Qed.

Lemma py_setitem_raises {A} (l : list A) (k : Z) (v : A) (e : exn) :
  py_setitem l k v = Raise e → e = IndexError.
Proof. unfold py_setitem. cbv zeta. intros E. repeat case_match; congruence. Qed.

Lemma bind_raises {A B} (P : exn → Prop) (m : result A) (f : A → result B) (e : exn) :
  (∀ e, m = Raise e → P e) → (∀ a, f a = Raise e → P e) → m ≫= f = Raise e → P e.
Proof.
  intros Hm Hf. destruct m as [a|e']; cbn.
  - apply Hf.
  - intros [= ->]. by apply Hm.
Qed.

Local Abbreviation is_IndexError := (λ e : exn, e = IndexError).

Lemma get2_raises (nums : list (list Z)) (a b : Z) (e : exn) :
  get2 nums a b = Raise e → e = IndexError.
Proof.
  unfold get2.
  apply (bind_raises is_IndexError); [apply py_index_raises|intros row].
  apply py_index_raises.
Qed.

Lemma incr2_raises (nums : list (list Z)) (a b : Z) (e : exn) :
  incr2 nums a b = Raise e → e = IndexError.
Proof.
  unfold incr2.
  apply (bind_raises is_IndexError); [apply py_index_raises|intros row].
  apply (bind_raises is_IndexError); [apply py_index_raises|intros cur].
  apply (bind_raises is_IndexError); [apply py_setitem_raises|intros row'].
  apply py_setitem_raises.
Qed.

Section distribute_raises.
Context {voxel : Type}.
Implicit Types st : @split_state voxel.

Lemma distribute_half_raises ratio st half label volume patient mask e :
  distribute_half ratio st half label volume patient mask = Raise e → e = IndexError.
Proof.
  unfold distribute_half.
  apply (bind_raises is_IndexError); [apply get2_raises|intros b0].
  apply (bind_raises is_IndexError); [apply get2_raises|intros b1].
  rewrite get_bucket_fill_ratio. cbn [mbind result_bind].
  destruct (decide _); unfold put_train, put_test;
    (apply (bind_raises is_IndexError); [apply incr2_raises|intros ?; done]).
Qed.

Lemma distribute_step_raises ratio medians results3 st it e :
  distribute_step ratio medians results3 st it = Raise e → e = IndexError.
Proof.
  destruct it as [i [[[label patient] volume] mask]]. unfold distribute_step.
  destruct (decide (Z.of_nat (shape2 volume) < 3)); [done|].
  apply (bind_raises is_IndexError); [apply py_index_raises|intros a].
  destruct (decide (a < 3)); [done|].
  apply (bind_raises is_IndexError); [apply py_index_raises|intros median].
  destruct (decide _); [apply distribute_half_raises|].
  apply (bind_raises is_IndexError); [apply py_index_raises|intros median'].
  destruct (decide _); [apply distribute_half_raises|].
  apply (bind_raises is_IndexError); [apply py_index_raises|intros row].
  apply (bind_raises is_IndexError); [apply py_setitem_raises|intros ?; done].
Qed.

Lemma distribute_step_reads_abs ratio medians results3 st st' (i : nat) label patient
    volume mask :
  distribute_step ratio medians results3 st (Z.of_nat i, (label, patient, volume, mask))
  = Ok st' →
  3 ≤ Z.of_nat (shape2 volume) → (i < length results3)%nat.
Proof.
  unfold distribute_step. intros E H3.
  destruct (decide (Z.of_nat (shape2 volume) < 3)); [lia|].
  destruct (py_index results3 (Z.of_nat i)) as [a|] eqn:Ea; [|done].
  apply py_index_lookup in Ea as (k & Hk & Hik).
  destruct (decide (Z.of_nat i < 0)); [lia|].
  apply lookup_lt_Some in Hk. lia.
Qed.
End distribute_raises.

Lemma enumerate_lookup {A} (l : list A) (i : nat) (a : A) :
  l !! i = Some a → enumerate l !! i = Some (Z.of_nat i, a).
Proof.
  intros Hi. unfold enumerate. apply lookup_zip_Some. split; [|done].
  rewrite list_lookup_fmap, lookup_seq_lt by (by eapply lookup_lt_Some). done.
Qed.

Lemma zip4_lookup_volume {X Y P M} (x_set : list X) (y_set : list Y) (patients : list P)
    (masks : list M) (i : nat) (x : X) :
  length y_set = length x_set → length patients = length x_set →
  length masks = length x_set → x_set !! i = Some x →
  ∃ y p m, zip4 y_set patients x_set masks !! i = Some (y, p, x, m).
Proof.
  intros Hy Hp Hm Hx. apply lookup_lt_Some in Hx as Hlt.
  destruct (lookup_lt_is_Some_2 y_set i ltac:(lia)) as [y Ey].
  destruct (lookup_lt_is_Some_2 patients i ltac:(lia)) as [p Ep].
  destruct (lookup_lt_is_Some_2 masks i ltac:(lia)) as [m Em].
  exists y, p, m. unfold zip4. by repeat (apply lookup_zip_Some; split).
Qed.

(** X9. [improved_save_data] reads [abs_num_slices] at the position of a
    volume in the dataset, but [analyze_data] has filled it with one entry
    for every volume with at least 3 slices only.  So when the dataset holds
    a volume with fewer than 3 slices somewhere before a volume with at
    least 3 slices, the distribution over the training and the test set does
    not skip the short volume as intended: it raises [IndexError],
    whatever the labels and the medians are. *)
Theorem improved_save_data_short_volume {voxel} (trim_data : bool)
    (x_set : list (ndarray voxel)) (y_set : list Z) (patients : list string)
    (masks : list (ndarray Z)) (medians_by_label : list Qc) (st : analyze_state)
    (j i : nat) (short long : ndarray voxel) :
  analyze_loop y_set patients x_set masks = Ok st →
  length y_set = length x_set → length patients = length x_set →
  length masks = length x_set →
  x_set !! j = Some short → x_set !! i = Some long → (j < i)%nat →
  Z.of_nat (shape2 short) < 3 → 3 ≤ Z.of_nat (shape2 long) →
  improved_save_data_split trim_data x_set y_set patients masks medians_by_label
                           (abs_num_slices st)
  = Raise IndexError.
Proof.
  intros Hst Hy Hp Hm Hj Hi Hji Hshort Hlong.
  apply analyze_loop_abs_num_slices in Hst as Habs.
  set (items := zip4 y_set patients x_set masks) in *.
  unfold improved_save_data_split. cbv zeta. fold items.
  set (ratio := if negb trim_data then (_ / _)%Qc else _).
  destruct (distribute_loop ratio medians_by_label (abs_num_slices st) (enumerate items)
              split_init) as [st1|e] eqn:E.
  - exfalso. unfold distribute_loop in E.
    apply foldl_result_Ok_steps in E. rewrite Forall_lookup in E.
    assert (∀ (p : nat) it, items !! p = Some it → 3 ≤ Z.of_nat (shape2 it.1.2) →
                            (p < length (with_slices items))%nat) as Hpos.
    { intros p [[[label patient] volume] mask] Hp' H3. cbn [fst snd] in H3.
      destruct (E p _ (enumerate_lookup _ _ _ Hp')) as (s & s' & Estep).
      apply distribute_step_reads_abs in Estep; [|done].
      by rewrite Habs, length_fmap in Estep. }
    destruct (zip4_lookup_volume x_set y_set patients masks i long Hy Hp Hm Hi)
      as (yi & pi & mi & Ei).
    destruct (zip4_lookup_volume x_set y_set patients masks j short Hy Hp Hm Hj)
      as (yj & pj & mj & Ej).
    fold items in Ei, Ej.
    pose proof (Hpos i _ Ei Hlong) as Hic.
    pose proof (with_slices_prefix items Hpos j _ Ej ltac:(lia)) as Hjl.
    cbn [fst snd] in Hjl. lia.
  - cbn [mbind result_bind]. f_equal.
    unfold distribute_loop in E.
    apply (foldl_result_raises _ is_IndexError) in E; [done|].
    intros s a e'. apply distribute_step_raises.
Qed.

Lemma analyze_data_returns_witness :
  let labels := [0; 1; 0; 1; 0; 1; 0; 1; 0; 1] in
  let volumes := (λ d, NDArray 1 1 d (λ i j z, Z.of_nat z)) <$> [3; 4; 5; 6; 7; 8; 9; 10; 11; 12]%nat in
  let masks := replicate 10 (NDArray 1 1 3 (λ i j z, 1)) in
  let patients := replicate 10 "p" in
  ∃ medians results,
    analyze_data volumes labels patients masks = Ok ((5, 5), medians, results) ∧
    medians = (Some (Qc_of_Z 7), Some (Qc_of_Z 8)).
Proof.
  cbv zeta.
  destruct (analyze_data_returns
              ((λ d, NDArray 1 1 d (λ i j z, Z.of_nat z)) <$> [3; 4; 5; 6; 7; 8; 9; 10; 11; 12]%nat)
              [0; 1; 0; 1; 0; 1; 0; 1; 0; 1] (replicate 10 "p")
              (replicate 10 (NDArray 1 1 3 (λ i j z, 1))))
    as (E & _ & _).
  - repeat (apply Forall_cons; split; [repeat constructor|]). apply Forall_nil_2.
  - vm_compute. lia.
  - vm_compute. lia.
  - eexists _, _. split; [exact E|].
    f_equal; (apply (f_equal Some), Qc_is_canon; reflexivity).
Defined.

Lemma analyze_data_small_label_witness :
  let volumes := replicate 6 (NDArray 1 1 4 (λ i j z, Z.of_nat z)) in
  let masks := replicate 6 (NDArray 1 1 4 (λ i j z, 1)) in
  analyze_data volumes [0; 0; 0; 0; 0; 0] (replicate 6 "p") masks = Raise ValueError ∧
  analyze_data volumes [0; 0; 0; 0; 0; 1] (replicate 6 "p") masks = Raise IndexError.
Proof.
  cbv zeta. split.
  - apply analyze_data_small_label.
    + repeat (apply Forall_cons; split; [repeat constructor|]). apply Forall_nil_2.
    + right. reflexivity.
  - apply analyze_data_small_label.
    + repeat (apply Forall_cons; split; [repeat constructor|]). apply Forall_nil_2.
    + by vm_compute.
    + by vm_compute.
    + right. vm_compute. lia.
Defined.

Lemma improved_save_data_short_volume_witness :
  let short := NDArray 1 1 2 (λ i j z, Z.of_nat z) in
  let long := NDArray 1 1 5 (λ i j z, Z.of_nat z) in
  let mask := NDArray 1 1 5 (λ i j z, 1) in
  improved_save_data_split false [short; long] [0; 1] ["a"; "b"] [mask; mask]
                           [Qc_of_Z 4; Qc_of_Z 4] [5]
  = Raise IndexError.
Proof.
  cbv zeta.
  apply (improved_save_data_short_volume false
           [NDArray 1 1 2 (λ i j z, Z.of_nat z); NDArray 1 1 5 (λ i j z, Z.of_nat z)]
           [0; 1] ["a"; "b"] [NDArray 1 1 5 (λ i j z, 1); NDArray 1 1 5 (λ i j z, 1)]
           [Qc_of_Z 4; Qc_of_Z 4]
           (AnalyzeState [0; 1] [(0, 0, 0); (1, 1, 5)] [[]; [5]] [[]; [5]] [[]; [5]] [5])
           0 1 (NDArray 1 1 2 (λ i j z, Z.of_nat z)) (NDArray 1 1 5 (λ i j z, Z.of_nat z)));
    [reflexivity..|lia|cbn; lia|cbn; lia].
Defined.

(** ** The distribution places every volume once *)

Lemma zip4_snoc {X Y P M} (xs : list X) (ys : list Y) (ps : list P) (ms : list M) x y p m :
  length xs = length ys → length xs = length ps → length xs = length ms →
  zip4 (xs ++ [x]) (ys ++ [y]) (ps ++ [p]) (ms ++ [m]) = zip4 xs ys ps ms ++ [(x, y, p, m)].
Proof.
  intros Hy Hp Hm. unfold zip4.
  rewrite (zip_with_app _ xs [x] ys [y]) by done.
  rewrite (zip_with_app _ (zip xs ys) _ ps [p]) by (rewrite length_zip_with; lia).
  rewrite (zip_with_app _ (zip (zip xs ys) ps) _ ms [m])
    by (rewrite !length_zip_with; lia).
  done.
Qed.

Lemma py_index_nonneg_lookup {A} (l : list A) (k : Z) (a : A) :
  0 ≤ k → py_index l k = Ok a → l !! Z.to_nat k = Some a.
Proof.
  intros Hk (i & Hi & Hik)%py_index_lookup.
  destruct (decide (k < 0)); [lia|]. by replace (Z.to_nat k) with i by lia.
Qed.

Lemma enumerate_elem_of {A} (l : list A) (i : Z) (a : A) :
  (i, a) ∈ enumerate l → 0 ≤ i ∧ l !! Z.to_nat i = Some a.
Proof.
  intros [k Hk]%list_elem_of_lookup. unfold enumerate in Hk.
  apply lookup_zip_Some in Hk as [Hi Ha].
  rewrite list_lookup_fmap in Hi.
  destruct (seq 0 (length l) !! k) as [j|] eqn:Ej; [|done].
  apply lookup_seq in Ej as [-> _]. cbn in Hi. injection Hi as <-.
  split; [lia|]. by rewrite Nat2Z.id.
Qed.

Lemma placed_of_snoc {voxel} (results3 : list Z)
    (eitems : list (Z * (Z * string * ndarray voxel * ndarray Z))) eit :
  placed_of results3 (eitems ++ [eit])
  = placed_of results3 eitems ++
    (if decide (3 ≤ Z.of_nat (shape2 eit.2.1.2) ∧
                3 ≤ default 0 (results3 !! Z.to_nat eit.1))
     then [eit.2] else []).
Proof.
  unfold placed_of. rewrite filter_app, fmap_app. f_equal.
  rewrite (filter_cons _ eit []). by destruct (decide _).
Qed.

Lemma foldl_result_Ok_invariant_elem {S A} (step : S → A → result S)
    (I : list A → S → Prop) (l : list A) (st st' : S) :
  I [] st →
  (∀ done_ a s s', a ∈ l → I done_ s → step s a = Ok s' → I (done_ ++ [a]) s') →
  foldl (λ acc a, st ← acc; step st a) (Ok st) l = Ok st' → I l st'.
Proof.
  intros Hinit. revert st'. induction l as [|a l IH] using rev_ind; intros st' Hstep.
  - cbn. by intros [= <-].
  - rewrite foldl_snoc.
    destruct (foldl _ (Ok st) l) as [s1|e] eqn:E; [|done]. cbn [mbind result_bind].
    intros E'. apply (Hstep l a s1 st'); [apply elem_of_app; right; by left| |done].
    apply IH; [|done]. intros done_ b s s' Hb. apply Hstep. apply elem_of_app. by left.
Qed.

Section partition.
Context {voxel : Type}.
Implicit Types st : @split_state voxel.
Implicit Types items : list (Z * string * ndarray voxel * ndarray Z).

Lemma put_train_items st st' half label volume patient mask :
  split_balanced st → put_train st half label volume patient mask = Ok st' →
  train_items st' = train_items st ++ [(label, patient, volume, mask)] ∧
  test_items st' = test_items st ∧ median_indices st' = median_indices st.
Proof.
  intros [(T1 & T2 & T3) _]. unfold put_train.
  destruct (incr2 _ _ _); cbn [mbind result_bind mret result_ret]; [|done].
  intros [= <-]. unfold train_items, test_items. cbn.
  split; [|done]. apply zip4_snoc; lia.
Qed.

Lemma put_test_items st st' half label volume patient mask :
  split_balanced st → put_test st half label volume patient mask = Ok st' →
  test_items st' = test_items st ++ [(label, patient, volume, mask)] ∧
  train_items st' = train_items st ∧ median_indices st' = median_indices st.
Proof.
  intros [_ (T1 & T2 & T3)]. unfold put_test.
  destruct (incr2 _ _ _); cbn [mbind result_bind mret result_ret]; [|done].
  intros [= <-]. unfold train_items, test_items. cbn.
  split; [|done]. apply zip4_snoc; lia.
Qed.

Lemma distribute_half_items ratio st st' half label volume patient mask :
  split_balanced st →
  distribute_half ratio st half label volume patient mask = Ok st' →
  train_items st' ++ test_items st'
    ≡ₚ train_items st ++ test_items st ++ [(label, patient, volume, mask)] ∧
  median_indices st' = median_indices st.
Proof.
  intros Hbal. unfold distribute_half.
  destruct (get2 (train_nums st) _ _); cbn [mbind result_bind]; [|done].
  destruct (get2 (test_nums st) _ _); cbn [mbind result_bind]; [|done].
  destruct (get_bucket _ _ _); cbn [mbind result_bind]; [|done].
  case_decide.
  - intros (-> & -> & ->)%put_train_items; [|done]. split; [|done].
    rewrite <-!app_assoc. apply Permutation_app_head, Permutation_app_comm.
  - intros (-> & -> & ->)%put_test_items; [|done]. by split.
Qed.

Lemma median_work_pair (r0 r1 : list Z) :
  median_work [r0; r1] = ((λ index, (0, index)) <$> r0) ++ ((λ index, (1, index)) <$> r1).
Proof. unfold median_work. cbn. by rewrite app_nil_r. Qed.

Lemma distribute_step_invariant ratio medians results3 items done_ st st' i it :
  (i, it) ∈ enumerate items → 0 ≤ it.1.1.1 →
  distribute_invariant results3 items done_ st →
  distribute_step ratio medians results3 st (i, it) = Ok st' →
  distribute_invariant results3 items (done_ ++ [(i, it)]) st'.
Proof.
  intros [Hi Hit]%enumerate_elem_of Hlabel (Hbal & (r0 & r1 & Hrows) & Hok & Hperm) Hstep.
  pose proof (distribute_step_balanced _ _ _ _ _ _ Hbal Hstep) as Hbal'.
  unfold distribute_invariant. rewrite placed_of_snoc. cbn [fst snd].
  destruct it as [[[label patient] volume] mask]. cbn [fst snd] in *.
  unfold distribute_step in Hstep. cbn [mret result_ret] in Hstep.
  destruct (decide (Z.of_nat (shape2 volume) < 3)) as [H3|H3].
  { injection Hstep as <-.
    destruct (decide _) as [[Hc1 Hc2]|Hc]; [exfalso; clear -H3 Hc1; lia|].
    rewrite app_nil_r. eauto 10. }
  destruct (py_index results3 i) as [a|] eqn:Ea; cbn [mbind result_bind] in Hstep; [|done].
  apply py_index_nonneg_lookup in Ea; [|done]. rewrite Ea. cbn [default].
  destruct (decide (a < 3)) as [Ha|Ha].
  { injection Hstep as <-.
    destruct (decide _) as [[Hc1 Hc2]|Hc]; [exfalso; cbn in Hc2; clear -Ha Hc2; lia|].
    rewrite app_nil_r. eauto 10. }
  destruct (decide _) as [_|Hc]; [|exfalso; cbn in Hc; clear -H3 Ha Hc; lia].
  destruct (py_index medians label) as [median|]; cbn [mbind result_bind] in Hstep; [|done].
  destruct (decide (Qc_of_Z (Z.of_nat (shape2 volume)) < median)%Qc) as [Hlt|Hlt].
  { apply distribute_half_items in Hstep as [Hitems Hmi]; [|done]. rewrite Hmi.
    split_and!; [done|eauto|done|].
    rewrite app_assoc, Hitems, <-Hperm, <-!app_assoc.
    do 2 apply Permutation_app_head. apply Permutation_app_comm. }
  destruct (decide (median < Qc_of_Z (Z.of_nat (shape2 volume)))%Qc) as [Hgt|Hgt].
  { apply distribute_half_items in Hstep as [Hitems Hmi]; [|done]. rewrite Hmi.
    split_and!; [done|eauto|done|].
    rewrite app_assoc, Hitems, <-Hperm, <-!app_assoc.
    do 2 apply Permutation_app_head. apply Permutation_app_comm. }
  rewrite Hrows in Hstep, Hok, Hperm. rewrite median_work_pair in Hok, Hperm.
  assert (label = 0 ∨ label = 1) as Hl.
  { destruct (py_index [r0; r1] label) eqn:E; [|done].
    apply py_index_lookup in E as (k & Hk & Hkl). apply lookup_lt_Some in Hk. cbn in Hk.
    destruct (decide (label < 0)); lia. }
  assert (set_aside_ok items [(label, i)]) as Hnew.
  { apply Forall_singleton. cbn. split; [done|]. eauto. }
  assert (set_aside items [(label, i)] = [(label, patient, volume, mask)]) as Hset.
  { unfold set_aside. cbn. by rewrite Hit. }
  destruct Hl as [->| ->]; cbn in Hstep; injection Hstep as <-; cbn [median_indices
    train_items test_items train_set_x train_set_y train_set_patients train_set_masks
    test_set_x test_set_y test_set_patients test_set_masks].
  - split_and!; [done|eauto|..]; rewrite median_work_pair, fmap_app.
    + unfold set_aside_ok in *. rewrite !Forall_app in *. cbn [fmap list_fmap]. tauto.
    + unfold train_items, test_items in *. cbn.
      unfold set_aside in *. rewrite !omap_app in *. cbn [fmap list_fmap].
      rewrite Hset, <-Hperm.
      rewrite <-!app_assoc. do 3 apply Permutation_app_head. apply Permutation_app_comm.
  - split_and!; [done|eauto|..]; rewrite median_work_pair, fmap_app.
    + unfold set_aside_ok in *. rewrite !Forall_app in *. cbn [fmap list_fmap]. tauto.
    + unfold train_items, test_items in *. cbn.
      unfold set_aside in *. rewrite !omap_app in *. cbn [fmap list_fmap].
      rewrite Hset, <-Hperm.
      by rewrite <-!app_assoc.
Qed.

Lemma distribute_loop_invariant ratio medians results3 items st :
  Forall (λ it, 0 ≤ it.1.1.1) items →
  distribute_loop ratio medians results3 (enumerate items) split_init = Ok st →
  distribute_invariant results3 items (enumerate items) st.
Proof.
  intros Hlabels. unfold distribute_loop.
  apply (foldl_result_Ok_invariant_elem (distribute_step ratio medians results3)
           (distribute_invariant results3 items)).
  - split_and!; [apply split_init_balanced|by exists [], []|by constructor|done].
  - intros done_ [i it] s s' Hin. apply distribute_step_invariant; [done|].
    apply enumerate_elem_of in Hin as [_ Hin].
    rewrite Forall_lookup in Hlabels. by apply (Hlabels _ _ Hin).
Qed.

Lemma median_step_items ratio x_set y_set patients masks st st' (w : Z * Z) :
  set_aside_ok (zip4 y_set patients x_set masks) [w] →
  split_balanced st →
  median_step ratio x_set patients masks st w = Ok st' →
  train_items st' ++ test_items st'
    ≡ₚ train_items st ++ test_items st ++ set_aside (zip4 y_set patients x_set masks) [w] ∧
  median_indices st' = median_indices st.
Proof.
  destruct w as [label index].
  intros [[Hidx ([[[y p] x] m] & Hit & Hl)] _]%Forall_cons Hbal. cbn [fst snd] in *.
  subst label.
  unfold set_aside. cbn [omap list_omap snd]. rewrite Hit.
  unfold zip4 in Hit.
  apply lookup_zip_Some in Hit as [Hit Hm]. apply lookup_zip_Some in Hit as [Hit Hx].
  apply lookup_zip_Some in Hit as [Hy Hp].
  unfold median_step.
  destruct (py_index x_set index) as [volume|] eqn:Ex; cbn [mbind result_bind]; [|done].
  destruct (py_index patients index) as [patient|] eqn:Ep; cbn [mbind result_bind]; [|done].
  destruct (py_index masks index) as [mask|] eqn:Em; cbn [mbind result_bind]; [|done].
  apply py_index_nonneg_lookup in Ex, Ep, Em; [|done..]. simplify_eq.
  destruct (get2 (train_nums st) 0 y); cbn [mbind result_bind]; [|done].
  destruct (get2 (train_nums st) 1 y); cbn [mbind result_bind]; [|done].
  destruct (get2 (test_nums st) 0 y); cbn [mbind result_bind]; [|done].
  destruct (get2 (test_nums st) 1 y); cbn [mbind result_bind]; [|done].
  destruct (get_bucket _ _ _); cbn [mbind result_bind]; [|done].
  case_decide.
  - intros (-> & -> & ->)%put_train_items; [|done]. split; [|done].
    rewrite <-!app_assoc. apply Permutation_app_head, Permutation_app_comm.
  - intros (-> & -> & ->)%put_test_items; [|done]. by split.
Qed.

Lemma median_loop_items ratio x_set y_set patients masks work st st' :
  set_aside_ok (zip4 y_set patients x_set masks) work →
  split_balanced st →
  median_loop ratio x_set patients masks work st = Ok st' →
  train_items st' ++ test_items st'
    ≡ₚ train_items st ++ test_items st ++ set_aside (zip4 y_set patients x_set masks) work.
Proof.
  intros Hok Hbal. unfold median_loop.
  intros E.
  apply (foldl_result_Ok_invariant_elem (median_step ratio x_set patients masks)
           (λ done_ s, split_balanced s ∧
              train_items s ++ test_items s
              ≡ₚ train_items st ++ test_items st
                 ++ set_aside (zip4 y_set patients x_set masks) done_)) in E; [by destruct E| |].
  - split; [done|]. unfold set_aside. cbn. by rewrite app_nil_r.
  - intros done_ w s s' Hw [Hbs Hperm] Hstep.
    split; [by eapply median_step_balanced|].
    apply (median_step_items _ _ y_set) in Hstep as [Hstep _]; [|split_and?|done].
    + rewrite Hstep, app_assoc, Hperm. unfold set_aside. rewrite omap_app.
      by rewrite <-!app_assoc.
    + apply Forall_singleton. unfold set_aside_ok in Hok. rewrite Forall_forall in Hok.
      by apply Hok.
Qed.

Lemma py_pop_snoc {A} (l l' : list A) (a : A) : py_pop l = Ok (l', a) → l = l' ++ [a].
Proof.
  unfold py_pop. destruct l as [|b l0 _] using rev_ind; [done|].
  rewrite last_snoc, removelast_last. by intros [= <- <-].
Qed.

Lemma rebalance_items ratio st st' :
  split_balanced st → rebalance ratio st = Ok st' →
  train_items st' ++ test_items st' ≡ₚ train_items st ++ test_items st.
Proof.
  intros [(T1 & T2 & T3) (S1 & S2 & S3)]. unfold rebalance. cbv zeta.
  destruct (py_truediv_float (Z.of_nat (length (train_set_x st))) _) as [q|];
    cbn [mbind result_bind]; [|done].
  destruct (py_truediv_float (Z.of_nat (length (train_set_x st)) + 1) _) as [q0|];
    cbn [mbind result_bind]; [|done].
  destruct (py_truediv_float (Z.of_nat (length (train_set_x st)) - 1) _) as [q1|];
    cbn [mbind result_bind]; [|done].
  cbn [mret result_ret].
  destruct (fltb (fabs (fsub q0 ratio)) (fabs (fsub q ratio)));
    [|destruct (fltb (fabs (fsub q1 ratio)) (fabs (fsub q ratio))); [|by intros [= <-]]].
  - destruct (py_pop (test_set_x st)) as [[tx x]|] eqn:Ex; cbn; [|done].
    destruct (py_pop (test_set_y st)) as [[ty y]|] eqn:Ey; cbn; [|done].
    destruct (py_pop (test_set_patients st)) as [[tp p]|] eqn:Ep; cbn; [|done].
    destruct (py_pop (test_set_masks st)) as [[tm m]|] eqn:Em; cbn; [|done].
    intros [= <-]. apply py_pop_snoc in Ex, Ey, Ep, Em.
    unfold train_items, test_items.
    cbn [train_set_x train_set_y train_set_patients train_set_masks
         test_set_x test_set_y test_set_patients test_set_masks].
    rewrite Ex, Ey, Ep, Em in *.
    rewrite !length_app in *. cbn [length] in *.
    rewrite !zip4_snoc by lia. rewrite <-!app_assoc.
    apply Permutation_app_head, Permutation_app_comm.
  - destruct (py_pop (train_set_x st)) as [[tx x]|] eqn:Ex; cbn; [|done].
    destruct (py_pop (train_set_y st)) as [[ty y]|] eqn:Ey; cbn; [|done].
    destruct (py_pop (train_set_patients st)) as [[tp p]|] eqn:Ep; cbn; [|done].
    destruct (py_pop (train_set_masks st)) as [[tm m]|] eqn:Em; cbn; [|done].
    intros [= <-]. apply py_pop_snoc in Ex, Ey, Ep, Em.
    unfold train_items, test_items.
    cbn [train_set_x train_set_y train_set_patients train_set_masks
         test_set_x test_set_y test_set_patients test_set_masks].
    rewrite Ex, Ey, Ep, Em in *.
    rewrite !length_app in *. cbn [length] in *.
    rewrite !zip4_snoc by lia. rewrite <-!app_assoc.
    apply Permutation_app_head, Permutation_app_comm.
Qed.
End partition.

(** X10. When the labels are not negative and the distribution of
    [improved_save_data] returns, the training set and the test set
    together hold exactly the volumes that were to be placed (at least 3
    slices and an [abs_num_slices] entry of at least 3), each one once and
    with its own label, patient and mask: no volume is lost, duplicated or
    paired with the data of another one. *)
Theorem improved_save_data_split_partition {voxel} (trim_data : bool)
    (x_set : list (ndarray voxel)) (y_set : list Z) (patients : list string)
    (masks : list (ndarray Z)) (medians_by_label : list Qc) (results3 : list Z)
    (st : split_state) :
  Forall (λ label, 0 ≤ label) y_set →
  improved_save_data_split trim_data x_set y_set patients masks medians_by_label results3
  = Ok st →
  train_items st ++ test_items st ≡ₚ placed results3 (zip4 y_set patients x_set masks).
Proof.
  intros Hlabels. unfold improved_save_data_split. cbv zeta.
  set (ratio := if negb trim_data then (_ / _)%Qc else _).
  set (items := zip4 y_set patients x_set masks).
  assert (Forall (λ it : Z * string * ndarray voxel * ndarray Z, 0 ≤ it.1.1.1) items)
    as Hitems.
  { destruct (zip4_fmap y_set patients x_set masks) as (Hsub & _).
    apply sublist_subseteq in Hsub.
    apply Forall_forall. intros it Hit. rewrite Forall_forall in Hlabels.
    apply Hlabels, Hsub. by do 3 apply list_elem_of_fmap_2. }
  destruct (distribute_loop ratio medians_by_label results3 (enumerate items) split_init)
    as [st1|] eqn:E1; cbn [mbind result_bind]; [|done].
  apply distribute_loop_invariant in E1 as (Hbal1 & _ & Hok & Hperm); [|done].
  destruct (median_loop ratio x_set patients masks (median_work (median_indices st1)) st1)
    as [st2|] eqn:E2; cbn [mbind result_bind]; [|done].
  pose proof (median_loop_balanced _ _ _ _ _ _ _ Hbal1 E2) as Hbal2.
  apply (median_loop_items _ _ y_set) in E2; [|done..].
  intros E3. apply rebalance_items in E3; [|done].
  by rewrite E3, E2.
Qed.

Lemma improved_save_data_split_partition_witness :
  let depths : list nat := [5; 3; 8; 1; 9; 2; 7; 4; 10; 6]%nat in
  let x_set := (λ d, NDArray 2 2 d (λ i j z, Z.of_nat (i + j + z))) <$> depths in
  let masks := (λ d, NDArray 2 2 d (λ i j z, if decide (z < 3)%nat then 1 else 0)) <$> depths in
  let y_set : list Z := [0; 1; 0; 1; 0; 0; 1; 0; 0; 1] in
  let patients := ["a"; "b"; "c"; "d"; "e"; "f"; "g"; "h"; "i"; "j"] in
  let results3 := [3; 3; 3; 1; 3; 2; 3; 3; 3; 3] in
  ∃ st, improved_save_data_split false x_set y_set patients masks
          [Qc_of_Z 5; Qc_of_Z 4] results3 = Ok st ∧
        train_items st ++ test_items st ≡ₚ placed results3 (zip4 y_set patients x_set masks) ∧
        (placed results3 (zip4 y_set patients x_set masks)).*1.*1.*2
        = ["a"; "b"; "c"; "e"; "g"; "h"; "i"; "j"].
Proof.
  intros depths x_set masks y_set patients results3.
  destruct (improved_save_data_split false x_set y_set patients masks
              [Qc_of_Z 5; Qc_of_Z 4] results3) as [st|e] eqn:E;
    [|vm_compute in E; discriminate].
  exists st. split_and!; [reflexivity| |reflexivity].
  apply (improved_save_data_split_partition false x_set y_set patients masks
           [Qc_of_Z 5; Qc_of_Z 4] results3 st); [|exact E].
  repeat (apply Forall_cons; split; [lia|]). apply Forall_nil_2.
Defined.

(** ** The first loop follows the ratio *)



Section ratio.
Context {voxel : Type}.
Implicit Types st : @split_state voxel.


End ratio.



(** ** What [save_dataset_correctly] writes, [load_organized_dataset] reads *)

Lemma string_app_assoc (a b c : string) : (a +:+ b) +:+ c = a +:+ b +:+ c.
Proof.
  induction a as [|x a IH]; [done|].
  change (String x ((a +:+ b) +:+ c) = String x (a +:+ b +:+ c)). by rewrite IH.
Qed.

Lemma string_app_inj (a b c : string) : a +:+ b = a +:+ c → b = c.
Proof.
  induction a as [|x a IH]; [done|].
  change (String x (a +:+ b) = String x (a +:+ c) → b = c). intros [= H]. by apply IH.
Qed.

Section save_then_load.
Context {obj : Type}.
Variable outcome : trace obj → io_call obj → option exn.

(** The calls of [save_dataset_correctly] when [np.savez] does not raise. *)
Lemma save_dataset_correctly_npz (x y patients masks : obj)
    (parent_folder dataset_name dataset_subname : string) (t : trace obj) :
  mkdir_raises_OSError outcome →
  (∀ t p x y, outcome t (Savez p x y) = None) →
  pickling_succeeds outcome →
  let file_path := ((parent_folder +:+ "/") +:+ dataset_name +:+ "/") +:+ dataset_subname in
  ∃ mk1 mk2 full_path folder_path,
    save_dataset_correctly outcome x y patients masks parent_folder dataset_name
                           dataset_subname t
    = (t ++ [(Mkdir full_path, mk1); (Mkdir folder_path, mk2); (Savez file_path x y, None);
             (OpenWb (file_path +:+ "_patients.pkl"), None);
             (PickleDump (file_path +:+ "_patients.pkl") patients, None);
             (OpenWb (file_path +:+ "_masks.pkl"), None);
             (PickleDump (file_path +:+ "_masks.pkl") masks, None)],
       Ok ()).
Proof.
  intros Hmk Hsv Hp file_path. unfold save_dataset_correctly. cbv zeta. fold file_path.
  destruct (guarded_mkdir outcome (parent_folder +:+ "/") t Hmk) as [mk1 E1].
  destruct (guarded_mkdir outcome ((parent_folder +:+ "/") +:+ dataset_name +:+ "/")
              (t ++ [(Mkdir (parent_folder +:+ "/"), mk1)]) Hmk) as [mk2 E2].
  exists mk1, mk2, (parent_folder +:+ "/"), ((parent_folder +:+ "/") +:+ dataset_name +:+ "/").
  unfold io_bind at 1. rewrite E1. unfold io_bind at 1. rewrite E2.
  unfold io_bind at 1, io_try, perform. rewrite Hsv.
  unfold io_bind. rewrite pickle_dump_all_1 by done.
  rewrite pickle_dump_all_1 by done.
  by rewrite <-!app_assoc.
Qed.

(** The calls of [save_dataset_correctly] when [np.savez] raises
    [ValueError]. *)
Lemma save_dataset_correctly_pkl (x y patients masks : obj)
    (parent_folder dataset_name dataset_subname : string) (t : trace obj) :
  mkdir_raises_OSError outcome →
  (∀ t p x y, outcome t (Savez p x y) = Some ValueError) →
  pickling_succeeds outcome →
  let file_path := ((parent_folder +:+ "/") +:+ dataset_name +:+ "/") +:+ dataset_subname in
  ∃ mk1 mk2 full_path folder_path,
    save_dataset_correctly outcome x y patients masks parent_folder dataset_name
                           dataset_subname t
    = (t ++ [(Mkdir full_path, mk1); (Mkdir folder_path, mk2);
             (Savez file_path x y, Some ValueError);
             (OpenWb (file_path +:+ ".pkl"), None);
             (PickleDump (file_path +:+ ".pkl") x, None);
             (PickleDump (file_path +:+ ".pkl") y, None);
             (OpenWb (file_path +:+ "_patients.pkl"), None);
             (PickleDump (file_path +:+ "_patients.pkl") patients, None);
             (OpenWb (file_path +:+ "_masks.pkl"), None);
             (PickleDump (file_path +:+ "_masks.pkl") masks, None)],
       Ok ()).
Proof.
  intros Hmk Hsv Hp file_path. unfold save_dataset_correctly. cbv zeta. fold file_path.
  destruct (guarded_mkdir outcome (parent_folder +:+ "/") t Hmk) as [mk1 E1].
  destruct (guarded_mkdir outcome ((parent_folder +:+ "/") +:+ dataset_name +:+ "/")
              (t ++ [(Mkdir (parent_folder +:+ "/"), mk1)]) Hmk) as [mk2 E2].
  exists mk1, mk2, (parent_folder +:+ "/"), ((parent_folder +:+ "/") +:+ dataset_name +:+ "/").
  unfold io_bind at 1. rewrite E1. unfold io_bind at 1. rewrite E2.
  unfold io_bind at 1, io_try, perform. rewrite Hsv. cbn [exn_isinstance].
  rewrite bool_decide_eq_true_2 by done.
  rewrite pickle_dump_all_2 by done.
  unfold io_bind. rewrite pickle_dump_all_1 by done.
  rewrite pickle_dump_all_1 by done.
  by rewrite <-!app_assoc.
Qed.

Lemma load_xy_saved (x y : obj) : load_xy (<["x" := x]> (<["y" := y]> ∅)) = Ok (x, y).
Proof.
  unfold load_xy, npz_getitem.
  rewrite lookup_insert_eq. cbn [mbind result_bind].
  rewrite lookup_insert_ne by done. rewrite lookup_insert_eq. reflexivity.
Qed.
End save_then_load.

Lemma saved_path (parent_folder dataset_name subname ext : string) :
  (((parent_folder +:+ "/") +:+ dataset_name +:+ "/") +:+ subname) +:+ ext
  = (parent_folder +:+ "/" +:+ dataset_name) +:+ ("/" +:+ subname +:+ ext).
Proof. by rewrite !string_app_assoc. Qed.

Ltac different_paths :=
  let H := fresh in intros H; apply string_app_inj in H; discriminate.
Ltac read_file k :=
  repeat (rewrite (lookup_insert_ne _ _ k) by different_paths);
  rewrite (lookup_insert_eq _ k).

(** X12. When [np.savez] does not raise (and [os.mkdir] raises at most
    [OSError] and the pickles can be written), saving the training set and
    then the test set with [save_dataset_correctly] under
    [parent_folder/dataset_name] leaves files from which
    [load_organized_dataset("parent_folder/dataset_name")] returns the
    eight saved objects, whatever files existed before. *)
Theorem save_then_load {obj} (outcome : trace obj → io_call obj → option exn)
    (stored : io_call obj → exn → option (gmap string obj))
    (x y patients masks x_test y_test patients_test masks_test : obj)
    (parent_folder dataset_name : string) (fs : gmap string (file obj)) :
  mkdir_raises_OSError outcome →
  (∀ t p x y, outcome t (Savez p x y) = None) →
  pickling_succeeds outcome →
  ∃ t1 t2,
    save_dataset_correctly outcome x y patients masks parent_folder dataset_name
                           "training_set" [] = (t1, Ok ()) ∧
    save_dataset_correctly outcome x_test y_test patients_test masks_test parent_folder
                           dataset_name "test_set" t1 = (t2, Ok ()) ∧
    load_organized_dataset (files_after stored fs t2)
                           (parent_folder +:+ "/" +:+ dataset_name)
    = Ok ((x, y), (x_test, y_test), (patients, masks), (patients_test, masks_test)).
Proof.
  intros Hmk Hsv Hp.
  destruct (save_dataset_correctly_npz outcome x y patients masks parent_folder dataset_name
              "training_set" [] Hmk Hsv Hp) as (mk1 & mk2 & full & folder & E1).
  cbv zeta in E1. rewrite app_nil_l in E1.
  destruct (save_dataset_correctly_npz outcome x_test y_test patients_test masks_test
              parent_folder dataset_name "test_set"
              [(Mkdir full, mk1); (Mkdir folder, mk2);
               (Savez (((parent_folder +:+ "/") +:+ dataset_name +:+ "/") +:+ "training_set")
                      x y, None);
               (OpenWb ((((parent_folder +:+ "/") +:+ dataset_name +:+ "/") +:+ "training_set")
                        +:+ "_patients.pkl"), None);
               (PickleDump ((((parent_folder +:+ "/") +:+ dataset_name +:+ "/")
                             +:+ "training_set") +:+ "_patients.pkl") patients, None);
               (OpenWb ((((parent_folder +:+ "/") +:+ dataset_name +:+ "/") +:+ "training_set")
                        +:+ "_masks.pkl"), None);
               (PickleDump ((((parent_folder +:+ "/") +:+ dataset_name +:+ "/")
                             +:+ "training_set") +:+ "_masks.pkl") masks, None)]
              Hmk Hsv Hp) as (mk3 & mk4 & full' & folder' & E2).
  cbv zeta in E2. eexists _, _. split; [exact E1|]. split; [exact E2|].
  unfold files_after. cbn [foldl app write_call].
  rewrite !lookup_insert_eq. cbn [app].
  rewrite !saved_path.
  change ("/" +:+ "training_set" +:+ ".npz") with "/training_set.npz".
  change ("/" +:+ "training_set" +:+ "_patients.pkl") with "/training_set_patients.pkl".
  change ("/" +:+ "training_set" +:+ "_masks.pkl") with "/training_set_masks.pkl".
  change ("/" +:+ "test_set" +:+ ".npz") with "/test_set.npz".
  change ("/" +:+ "test_set" +:+ "_patients.pkl") with "/test_set_patients.pkl".
  change ("/" +:+ "test_set" +:+ "_masks.pkl") with "/test_set_masks.pkl".
  set (path := parent_folder +:+ "/" +:+ dataset_name).
  unfold load_organized_dataset, np_load, pickle_load.
  read_file (path +:+ "/training_set.npz").
  cbn [mbind result_bind]. rewrite load_xy_saved. cbn [mbind result_bind].
  read_file (path +:+ "/test_set.npz").
  cbn [mbind result_bind]. rewrite load_xy_saved. cbn [mbind result_bind].
  read_file (path +:+ "/training_set_patients.pkl"). cbn [mbind result_bind].
  read_file (path +:+ "/test_set_patients.pkl"). cbn [mbind result_bind].
  read_file (path +:+ "/training_set_masks.pkl"). cbn [mbind result_bind].
  read_file (path +:+ "/test_set_masks.pkl").
  reflexivity.
Qed.

Lemma save_then_load_witness :
  let outcome : trace nat → io_call nat → option exn := λ _ c,
    match c with
    | Mkdir _ => Some FileExistsError
    | _ => None
    end in
  ∃ t1 t2,
    save_dataset_correctly outcome 1%nat 2%nat 3%nat 4%nat "data" "organized"
                           "training_set" [] = (t1, Ok ()) ∧
    save_dataset_correctly outcome 5%nat 6%nat 7%nat 8%nat "data" "organized"
                           "test_set" t1 = (t2, Ok ()) ∧
    load_organized_dataset (files_after (λ _ _, None) ∅ t2) "data/organized"
    = Ok ((1, 2), (5, 6), (3, 4), (7, 8))%nat.
Proof.
  intros outcome.
  apply (save_then_load outcome (λ _ _, None) 1%nat 2%nat 3%nat 4%nat 5%nat 6%nat 7%nat
           8%nat "data" "organized" ∅).
  - intros t p e. unfold outcome. by intros [= <-].
  - done.
  - intros t p o. by split.
Defined.

(** X13. When [np.savez] raises [ValueError], [save_dataset_correctly]
    writes [x] and [y] to [<subname>.pkl] instead, a file that
    [load_organized_dataset] never opens.  The failed call has left an
    archive [training_set.npz] that holds no array, or [x] alone (the
    arrays are converted and stored one after the other): loading what has
    just been saved raises [KeyError], whatever files existed before. *)
Theorem save_fallback_not_loaded {obj} (outcome : trace obj → io_call obj → option exn)
    (stored : io_call obj → exn → option (gmap string obj))
    (x y patients masks : obj) (parent_folder dataset_name : string)
    (fs : gmap string (file obj)) :
  mkdir_raises_OSError outcome →
  (∀ t p x y, outcome t (Savez p x y) = Some ValueError) →
  pickling_succeeds outcome →
  (∀ p x y, stored (Savez p x y) ValueError = Some ∅ ∨
            stored (Savez p x y) ValueError = Some {["x" := x]}) →
  ∃ t,
    save_dataset_correctly outcome x y patients masks parent_folder dataset_name
                           "training_set" [] = (t, Ok ()) ∧
    performed (PickleDump ((((parent_folder +:+ "/") +:+ dataset_name +:+ "/")
                            +:+ "training_set") +:+ ".pkl") x) t ∧
    load_organized_dataset (files_after stored fs t) (parent_folder +:+ "/" +:+ dataset_name)
    = Raise KeyError.
Proof.
  intros Hmk Hsv Hp Hstored.
  destruct (save_dataset_correctly_pkl outcome x y patients masks parent_folder dataset_name
              "training_set" [] Hmk Hsv Hp) as (mk1 & mk2 & full & folder & E1).
  cbv zeta in E1. rewrite app_nil_l in E1.
  eexists. split; [exact E1|]. split.
  { unfold performed. repeat constructor. }
  unfold files_after. cbn [foldl app write_call].
  set (file_path := ((parent_folder +:+ "/") +:+ dataset_name +:+ "/") +:+ "training_set").
  assert (∃ arrays, stored (Savez file_path x y) ValueError = Some arrays ∧
                    load_xy arrays = Raise KeyError) as (arrays & -> & Hload).
  { destruct (Hstored file_path x y) as [->| ->]; eexists; (split; [done|]).
    - reflexivity.
    - unfold load_xy, npz_getitem. rewrite lookup_singleton_eq. cbn [mbind result_bind].
      rewrite !lookup_singleton_ne by done. reflexivity. }
  repeat (rewrite lookup_insert_eq; cbn [app]).
  unfold file_path. rewrite !saved_path.
  change ("/" +:+ "training_set" +:+ ".npz") with "/training_set.npz".
  change ("/" +:+ "training_set" +:+ ".pkl") with "/training_set.pkl".
  change ("/" +:+ "training_set" +:+ "_patients.pkl") with "/training_set_patients.pkl".
  change ("/" +:+ "training_set" +:+ "_masks.pkl") with "/training_set_masks.pkl".
  set (path := parent_folder +:+ "/" +:+ dataset_name) in *.
  unfold load_organized_dataset, np_load.
  read_file (path +:+ "/training_set.npz").
  cbn [mbind result_bind]. by rewrite Hload.
Qed.

Lemma save_fallback_not_loaded_witness :
  let outcome : trace nat → io_call nat → option exn := λ _ c,
    match c with
    | Mkdir _ => Some FileExistsError
    | Savez _ _ _ => Some ValueError
    | _ => None
    end in
  let stored : io_call nat → exn → option (gmap string nat) := λ _ _, Some ∅ in
  ∃ t,
    save_dataset_correctly outcome 1%nat 2%nat 3%nat 4%nat "data" "organized"
                           "training_set" [] = (t, Ok ()) ∧
    performed (PickleDump "data/organized/training_set.pkl" 1%nat) t ∧
    load_organized_dataset (files_after stored ∅ t) "data/organized" = Raise KeyError.
Proof.
  intros outcome stored.
  apply (save_fallback_not_loaded outcome stored 1%nat 2%nat 3%nat 4%nat "data" "organized"
           ∅).
  - intros t p e. unfold outcome. by intros [= <-].
  - done.
  - intros t p o. by split.
  - intros p x y. by left.
Defined.

(** ** [remove_healthy_top_and_bottom_slices] *)

Lemma py_clamp_in_range (len : nat) (k : Z) :
  0 ≤ k ≤ Z.of_nat len → py_clamp len k = Z.to_nat k.
Proof. intros Hk. unfold py_clamp. cbv zeta. destruct (decide (k < 0)); lia. Qed.

Section crop.
Variable mask : ndarray Z.
Variables a b xx yy : nat.
Hypothesis Hab : (a ≤ b ≤ shape2 mask)%nat.
Hypothesis Hinside : ∀ zz, (zz < shape2 mask)%nat → item mask xx yy zz ≠ 0 → (a ≤ zz < b)%nat.
Let cropped : ndarray Z :=
  NDArray (shape0 mask) (shape1 mask) (b - a) (λ i j z, item mask i j (a + z)%nat).

Lemma nonzero_slices_outside (start len : nat) :
  (start + len ≤ a ∨ b ≤ start)%nat → (start + len ≤ shape2 mask)%nat →
  filter (λ t, voxel_at mask t ≠ 0) (zz ← seq start len; [(xx, yy, zz)]) = [].
Proof.
  intros Hout Hlen. apply filter_none, Forall_forall.
  intros [[x y] z] (zz & Hz & Hzz)%list_elem_of_bind.
  apply list_elem_of_singleton in Hz as [= -> -> ->]. apply elem_of_seq in Hzz.
  unfold voxel_at. cbn [fst snd]. intros Hnz.
  specialize (Hinside zz ltac:(lia) Hnz). lia.
Qed.

Lemma nonzero_slices_inside (start len : nat) :
  filter (λ t, voxel_at mask t ≠ 0) (zz ← seq (a + start) len; [(xx, yy, zz)])
  = uncrop a <$> filter (λ t, voxel_at cropped t ≠ 0) (zz ← seq start len; [(xx, yy, zz)]).
Proof.
  revert start. induction len as [|len IH]; intros start; [reflexivity|].
  cbn [seq mbind list_bind app]. rewrite !filter_cons.
  replace (S (a + start)) with (a + S start)%nat by lia. rewrite IH.
  change (voxel_at mask (xx, yy, (a + start)%nat)) with (item mask xx yy (a + start)%nat).
  change (voxel_at cropped (xx, yy, start)) with (item mask xx yy (a + start)%nat).
  destruct (decide (item mask xx yy (a + start) ≠ 0)); [|done].
  by rewrite fmap_cons.
Qed.

(** One row of voxels along the third axis, before and after the crop. *)
Lemma nonzero_row_cropped :
  filter (λ t, voxel_at mask t ≠ 0) (zz ← seq 0 (shape2 mask); [(xx, yy, zz)])
  = uncrop a <$> filter (λ t, voxel_at cropped t ≠ 0) (zz ← seq 0 (b - a); [(xx, yy, zz)]).
Proof.
  replace (shape2 mask) with (a + ((b - a) + (shape2 mask - b)))%nat at 1 by lia.
  rewrite !seq_app, !bind_app, !filter_app.
  rewrite (nonzero_slices_outside 0 a) by lia.
  rewrite (nonzero_slices_outside (0 + a + (b - a)) (shape2 mask - b)) by lia.
  rewrite app_nil_l, app_nil_r. rewrite Nat.add_0_l.
  replace a with (a + 0)%nat at 1 by lia. apply nonzero_slices_inside.
Qed.
End crop.

Lemma get_size_mask_volume (mask : ndarray Z) :
  (get_size_mask mask).2 = Z.of_nat (length (nonzero_voxels mask)).
Proof.
  rewrite get_size_mask_indices. cbv zeta.
  destruct (mask_fold_invariant mask (indices mask)) as (Hvol & _); [done|].
  cbv zeta in Hvol. fold (nonzero_voxels mask) in Hvol. rewrite <-Hvol.
  destruct (range_min _) as [[? ?] ?]. by destruct (range_max _) as [[? ?] ?].
Qed.

(** X14. For a margin that is not negative, an image and a mask of the
    same depth and a mask with at least one voxel that is not zero,
    [remove_healthy_top_and_bottom_slices] returns the slices [min_z] to
    [max_z - 1] of both arrays: they keep their first two extents and have
    the same depth, at least 1; every voxel of the mask that is not zero is
    kept (moved down by [min_z]), so the tumour volume that
    [get_size_mask] counts is unchanged.  A mask of zeros raises
    [ValueError]. *)
Theorem remove_healthy_keeps_tumour {A} (image : ndarray A) (mask : ndarray Z) (margin : Z) :
  0 ≤ margin → shape2 image = shape2 mask →
  (nonzero_voxels mask = [] →
     remove_healthy_top_and_bottom_slices image mask margin = Raise ValueError) ∧
  (nonzero_voxels mask ≠ [] →
     ∃ (image' : ndarray A) (mask' : ndarray Z) (min_z : nat),
       remove_healthy_top_and_bottom_slices image mask margin = Ok (image', mask') ∧
       shape0 image' = shape0 image ∧ shape1 image' = shape1 image ∧
       shape0 mask' = shape0 mask ∧ shape1 mask' = shape1 mask ∧
       shape2 image' = shape2 mask' ∧ (1 ≤ shape2 mask' ∧ min_z + shape2 mask' ≤ shape2 mask)%nat ∧
       (∀ xx yy zz, item image' xx yy zz = item image xx yy (min_z + zz)%nat ∧
                    item mask' xx yy zz = item mask xx yy (min_z + zz)%nat) ∧
       nonzero_voxels mask = uncrop min_z <$> nonzero_voxels mask' ∧
       (get_size_mask mask').2 = (get_size_mask mask).2).
Proof.
  intros Hmargin Hshape. unfold remove_healthy_top_and_bottom_slices. cbv zeta.
  split; [by intros ->|]. intros Hne.
  set (ones_pos2 := (λ t : nat * nat * nat, Z.of_nat t.2) <$> nonzero_voxels mask).
  assert (ones_pos2 ≠ []) as Hne' by (unfold ones_pos2; by destruct (nonzero_voxels mask)).
  destruct (py_min_nonempty _ Hne') as [lowest El].
  destruct (py_max_nonempty _ Hne') as [highest Eh].
  rewrite El, Eh. cbn [mbind result_bind mret result_ret].
  apply py_min_spec in El as [Hlin Hlall]. apply py_max_spec in Eh as [Hhin Hhall].
  rewrite Forall_forall in Hlall, Hhall.
  assert (∀ xx yy zz, (zz < shape2 mask)%nat → item mask xx yy zz ≠ 0 →
            lowest ≤ Z.of_nat zz ≤ highest ∧ (xx < shape0 mask)%nat ∧ (yy < shape1 mask)%nat
            ∨ ¬ (xx < shape0 mask ∧ yy < shape1 mask)%nat) as Hin.
  { intros xx yy zz Hz Hnz.
    destruct (decide (xx < shape0 mask ∧ yy < shape1 mask)%nat) as [[Hx Hy]|]; [left|by right].
    assert (Z.of_nat zz ∈ ones_pos2) as Hzz.
    { apply (list_elem_of_fmap_2 (λ t : nat * nat * nat, Z.of_nat t.2) _ (xx, yy, zz)).
      by apply elem_of_nonzero_voxels. }
    specialize (Hlall _ Hzz). specialize (Hhall _ Hzz). lia. }
  apply list_elem_of_fmap in Hlin as ([[lx ly] lz] & -> & Hlz).
  apply list_elem_of_fmap in Hhin as ([[hx hy] hz] & -> & Hhz).
  apply elem_of_nonzero_voxels in Hlz as ((Hlx & Hly & Hlz) & Hlnz).
  apply elem_of_nonzero_voxels in Hhz as ((Hhx & Hhy & Hhz) & Hhnz).
  cbn [snd] in *.
  set (min_z := Z.max 0 (Z.of_nat lz - margin)).
  set (max_z := Z.min (Z.of_nat (shape2 image)) (Z.of_nat hz + margin + 1)).
  destruct (Hin lx ly lz Hlz Hlnz) as [(Hl1 & _)|Hl1]; [|lia].
  assert (0 ≤ min_z ≤ Z.of_nat lz) as Hmin by lia.
  assert (Z.of_nat hz + 1 ≤ max_z ≤ Z.of_nat (shape2 mask)) as Hmax by lia.
  unfold slice_axis2. cbv zeta. rewrite Hshape.
  rewrite !py_clamp_in_range by lia.
  exists (NDArray (shape0 image) (shape1 image) (Z.to_nat max_z - Z.to_nat min_z)
            (λ i j z, item image i j (Z.to_nat min_z + z)%nat)),
         (NDArray (shape0 mask) (shape1 mask) (Z.to_nat max_z - Z.to_nat min_z)
            (λ i j z, item mask i j (Z.to_nat min_z + z)%nat)),
         (Z.to_nat min_z).
  cbn [shape0 shape1 shape2 item].
  assert (nonzero_voxels mask
          = uncrop (Z.to_nat min_z) <$>
            nonzero_voxels (NDArray (shape0 mask) (shape1 mask)
                              (Z.to_nat max_z - Z.to_nat min_z)
                              (λ i j z, item mask i j (Z.to_nat min_z + z)%nat))) as Hnz.
  { assert (∀ xx yy zz, (xx < shape0 mask)%nat → (yy < shape1 mask)%nat →
              (zz < shape2 mask)%nat → item mask xx yy zz ≠ 0 →
              (Z.to_nat min_z ≤ zz < Z.to_nat max_z)%nat) as Hinside.
    { intros xx yy zz Hx Hy Hz Hnz. destruct (Hin xx yy zz Hz Hnz) as [(? & _)|?]; lia. }
    assert (Z.to_nat min_z ≤ Z.to_nat max_z ≤ shape2 mask)%nat as Hab by lia.
    clear -Hinside Hab.
    unfold nonzero_voxels, indices. cbn [shape0 shape1 shape2].
    assert (∀ xs ys, Forall (λ xx, xx < shape0 mask)%nat xs →
                     Forall (λ yy, yy < shape1 mask)%nat ys →
              filter (λ t, voxel_at mask t ≠ 0)
                     (xx ← xs; yy ← ys; zz ← seq 0 (shape2 mask); [(xx, yy, zz)])
              = uncrop (Z.to_nat min_z) <$>
                filter (λ t, voxel_at (NDArray (shape0 mask) (shape1 mask)
                                         (Z.to_nat max_z - Z.to_nat min_z)
                                         (λ i j z, item mask i j (Z.to_nat min_z + z)%nat)) t
                             ≠ 0)
                       (xx ← xs; yy ← ys; zz ← seq 0 (Z.to_nat max_z - Z.to_nat min_z);
                        [(xx, yy, zz)])) as Hgen.
    { intros xs ys Hxs Hys. induction Hxs as [|xx xs Hx Hxs IHx]; [done|].
      cbn [mbind list_bind]. rewrite !filter_app, fmap_app, <-IHx. f_equal. clear IHx.
      induction Hys as [|yy ys Hy Hys IHy]; [done|].
      cbn [mbind list_bind]. rewrite !filter_app, fmap_app, <-IHy. f_equal.
      apply nonzero_row_cropped; [lia|]. intros zz. by apply Hinside. }
    apply Hgen; apply Forall_forall; intros ? ?%elem_of_seq; lia. }
  split_and!; [done..|lia|lia|done|done|].
  rewrite !get_size_mask_volume. by rewrite Hnz, length_fmap.
Qed.

Lemma remove_healthy_keeps_tumour_witness :
  let mask := NDArray 1 1 6 (λ i j z, if decide (2 ≤ z ≤ 3)%nat then 1 else 0) in
  let image := NDArray 1 1 6 (λ i j z, Z.of_nat z) in
  ∃ image' mask',
    remove_healthy_top_and_bottom_slices image mask 1 = Ok (image', mask') ∧
    shape2 image' = 4%nat ∧ item image' 0 0 0 = 1 ∧ (get_size_mask mask').2 = 2.
Proof.
  intros mask image.
  destruct (remove_healthy_keeps_tumour image mask 1 ltac:(lia) eq_refl) as [_ H].
  destruct H as (image' & mask' & min_z & E & _ & _ & _ & _ & _ & _ & _ & _ & Hvol);
    [by vm_compute|].
  exists image', mask'. split; [exact E|]. rewrite Hvol.
  vm_compute in E. injection E as <- <-. by vm_compute.
Defined.
